(** * GraspMind: coordinate mapping, response parsing and the stage pipeline

    A shallow embedding of the parts of the GraspMind repository that carry
    the coordinate-space and stage-sequencing behaviour:

    - [Utiles/ImagePreprocessor.py]   (module [ImagePreprocessor])
    - [Agents/PreciseSegmentationAgent.py] (module [PreciseSegmentationAgent])
    - [PreciseSegmentationTest.py]    (module [PreciseSegmentationTest])
    - [src/models/data_models.py]     (module [data_models])
    - [src/agents/scene_analyst.py], [src/agents/interaction_strategist.py]
    - [src/core/pipeline.py]          (module [pipeline])

    Modelling conventions.
    - Python [int] is [Z]; Python [float] is idealised as an exact rational
      ([Q]): rounding error, infinities and NaN are outside the model.
    - Python [str] is a [string] of bytes (UTF-8).
    - Values of dynamic type (what [json.loads] returns, the [Dict[str, Any]]
      results of the tools) are values of the inductive type [json].
    - A Python exception is a value of [exn]; code that may raise returns
      [Exc A]; methods that mutate [self] return the new object as well.
    - External libraries (Pillow, the [json] module, the file system, the
      remote models) are interfaces given as type classes. *)

From Stdlib Require Import ZArith QArith Qminmax Qround Qabs List String Ascii Bool Lia Lqa
  DecimalString.
Import ListNotations.
Open Scope string_scope.
Open Scope Z_scope.

Set Implicit Arguments.

(** ** Python exceptions and the error monad *)

Inductive exn : Type :=
| Exception (msg : string)
| ValueError (msg : string)
| TypeError (msg : string)
| KeyError (key : string)
| AttributeError (msg : string)
| FileNotFoundError (msg : string)
| ZeroDivisionError
| OverflowError
| JSONDecodeError
| ValidationError (model : string).

(** [str(e)]: the text of an exception.  [KeyError] prints its key quoted;
    the messages of the exceptions raised by the interpreter itself are
    abbreviated. *)
Definition str_exn (e : exn) : string :=
  match e with
  | Exception msg | ValueError msg | TypeError msg
  | AttributeError msg | FileNotFoundError msg => msg
  | KeyError key => "'" ++ key ++ "'"
  | ZeroDivisionError => "division by zero"
  | OverflowError => "cannot convert float infinity to integer"
  | JSONDecodeError => "Expecting value"
  | ValidationError model => "validation error for " ++ model
  end.

Inductive Exc (A : Type) : Type :=
| Return (a : A)
| Raise (e : exn).
Arguments Return {A} a.
Arguments Raise {A} e.

Definition bind {A B : Type} (m : Exc A) (k : A -> Exc B) : Exc B :=
  match m with
  | Return a => k a
  | Raise e => Raise e
  end.

(** [try: body  except Exception as e: handler e] *)
Definition try_except {A : Type} (body : Exc A) (handler : exn -> Exc A) : Exc A :=
  match body with
  | Return a => Return a
  | Raise e => handler e
  end.

Declare Scope exc_scope.
Delimit Scope exc_scope with exc.
Notation "x <- m ;; k" := (bind m (fun x => k))
  (at level 61, m at next level, right associativity) : exc_scope.
Notation "' p <- m ;; k" := (bind m (fun x => match x with p => k end))
  (at level 61, p pattern, m at next level, right associativity) : exc_scope.
Open Scope exc_scope.

Definition is_return {A : Type} (m : Exc A) : bool :=
  match m with Return _ => true | Raise _ => false end.

(** ** Python numbers *)

(** [int(x)] on a float: truncation towards zero. *)
Definition py_int (q : Q) : Z :=
  if Qle_bool 0 q then Qfloor q else Qceiling q.

(** [a / b] on numbers (true division). *)
Definition py_truediv (a b : Q) : Exc Q :=
  if Qeq_bool b 0 then Raise ZeroDivisionError else Return (Qred (a / b)).

(** [min(a, b)] and [max(a, b)]: the first argument unless the second is
    strictly smaller (resp. larger). *)
Definition py_min (a b : Q) : Q := if Qlt_le_dec b a then b else a.
Definition py_max (a b : Q) : Q := if Qlt_le_dec a b then b else a.

(** [round(x)]: to nearest, ties to even. *)
Definition py_round (q : Q) : Z :=
  let f := Qfloor q in
  match ((q - inject_Z f) ?= (1 # 2))%Q with
  | Lt => f
  | Gt => f + 1
  | Eq => if Z.even f then f else f + 1
  end.

(** ** Python strings *)

Definition newline : ascii := ascii_of_nat 10.
Definition dquote : ascii := ascii_of_nat 34.

(** Writes a text whose double quotes are typed as single quotes. *)
Fixpoint dq (s : string) : string :=
  match s with
  | EmptyString => EmptyString
  | String c r => String (if Ascii.eqb c "'" then dquote else c) (dq r)
  end.

(** ASCII whitespace as [str.strip()] sees it: space, [\t \n \v \f \r] and
    the separators [\x1c]..[\x1f]. *)
Definition is_py_space (c : ascii) : bool :=
  let n := nat_of_ascii c in
  (Nat.eqb n 32 || (Nat.leb 9 n && Nat.leb n 13) || (Nat.leb 28 n && Nat.leb n 31))%bool.

Fixpoint string_rev_onto (s acc : string) : string :=
  match s with
  | EmptyString => acc
  | String c r => string_rev_onto r (String c acc)
  end.

Definition string_rev (s : string) : string := string_rev_onto s EmptyString.

Fixpoint str_lstrip (s : string) : string :=
  match s with
  | String c r => if is_py_space c then str_lstrip r else s
  | EmptyString => EmptyString
  end.

Definition str_rstrip (s : string) : string := string_rev (str_lstrip (string_rev s)).

(** [s.strip()] *)
Definition str_strip (s : string) : string := str_rstrip (str_lstrip s).

(** [s.startswith(p)] and [s.endswith(p)] *)
Definition startswith (s p : string) : bool := String.prefix p s.
Definition endswith (s p : string) : bool := String.prefix (string_rev p) (string_rev s).

(** [s.split(sep)] for a one-character separator; the current piece is
    accumulated in reverse. *)
Fixpoint str_split_onto (sep : ascii) (s cur : string) : list string :=
  match s with
  | EmptyString => [string_rev cur]
  | String c r =>
      if Ascii.eqb c sep then string_rev cur :: str_split_onto sep r EmptyString
      else str_split_onto sep r (String c cur)
  end.

Definition str_split (s : string) (sep : ascii) : list string := str_split_onto sep s EmptyString.

(** [sep.join(pieces)] *)
Fixpoint str_join (sep : string) (pieces : list string) : string :=
  match pieces with
  | [] => EmptyString
  | [p] => p
  | p :: rest => p ++ sep ++ str_join sep rest
  end.

(** [s[3:-3]] *)
Definition slice_3_minus3 (s : string) : string :=
  String.substring 3 (String.length s - 3 - 3) s.

(** The characters of a string: a UTF-8 sequence is one character. *)
Definition is_continuation (c : ascii) : bool :=
  let n := nat_of_ascii c in (Nat.leb 128 n && Nat.ltb n 192)%bool.

Fixpoint chars_onto (s cur : string) (started : bool) : list string :=
  match s with
  | EmptyString => if started then [string_rev cur] else []
  | String c r =>
      if is_continuation c then chars_onto r (String c cur) true
      else if started then string_rev cur :: chars_onto r (String c EmptyString) true
      else chars_onto r (String c EmptyString) true
  end.

Definition chars (s : string) : list string := chars_onto s EmptyString false.

(** ** Dynamically typed values *)

#[local] Set Warnings "-register-all".
Inductive json : Type :=
| JNull
| JBool (b : bool)
| JNum (q : Q)
| JStr (s : string)
| JArr (items : list json)
| JObj (members : list (string * json)).
#[local] Set Warnings "register-all".

Definition JInt (z : Z) : json := JNum (inject_Z z).

(** A [dict] with string keys: an association list without duplicate keys,
    in insertion order. *)
Definition dict : Type := list (string * json).

Fixpoint dict_get (d : dict) (k : string) : option json :=
  match d with
  | [] => None
  | (k', v) :: rest => if String.eqb k' k then Some v else dict_get rest k
  end.

(** [d[k] = v] *)
Fixpoint dict_set (d : dict) (k : string) (v : json) : dict :=
  match d with
  | [] => [(k, v)]
  | (k', v') :: rest =>
      if String.eqb k' k then (k, v) :: rest else (k', v') :: dict_set rest k v
  end.

(** Truth value of an object ([bool(x)], [if x], [not x]). *)
Definition truthy (x : json) : bool :=
  match x with
  | JNull => false
  | JBool b => b
  | JNum q => negb (Qeq_bool q 0)
  | JStr s => negb (String.eqb s EmptyString)
  | JArr items => match items with [] => false | _ => true end
  | JObj members => match members with [] => false | _ => true end
  end.

(** [x.get(key, default)]: only a dict has the method. *)
Definition py_get (x : json) (key : string) (default : json) : Exc json :=
  match x with
  | JObj d => Return (match dict_get d key with Some v => v | None => default end)
  | _ => Raise (AttributeError "object has no attribute 'get'")
  end.

(** [x[key]] for a string key. *)
Definition py_getitem (x : json) (key : string) : Exc json :=
  match x with
  | JObj d => match dict_get d key with Some v => Return v | None => Raise (KeyError key) end
  | JArr _ => Raise (TypeError "list indices must be integers or slices, not str")
  | JStr _ => Raise (TypeError "string indices must be integers")
  | _ => Raise (TypeError "object is not subscriptable")
  end.

(** [len(x)] *)
Definition py_len (x : json) : Exc Z :=
  match x with
  | JArr items => Return (Z.of_nat (List.length items))
  | JObj d => Return (Z.of_nat (List.length d))
  | JStr s => Return (Z.of_nat (List.length (chars s)))
  | _ => Raise (TypeError "object has no len()")
  end.

(** Iteration ([for v in x], unpacking): a list yields its items, a dict
    its keys, a string its characters. *)
Definition py_iter (x : json) : Exc (list json) :=
  match x with
  | JArr items => Return items
  | JObj d => Return (map (fun kv => JStr (fst kv)) d)
  | JStr s => Return (map JStr (chars s))
  | _ => Raise (TypeError "object is not iterable")
  end.

(** The numeric value of an operand of [/]: [bool] is a subtype of [int]. *)
Definition py_number (x : json) : Exc Q :=
  match x with
  | JNum q => Return q
  | JBool b => Return (if b then 1 else 0)%Q
  | _ => Raise (TypeError "unsupported operand type(s) for /")
  end.

(** ** The [json] module

    [json.loads] and [json.dumps] are the standard library's; the code only
    relies on [loads] either returning a value or raising
    [json.JSONDecodeError] ([None] here). *)

Class JsonModule : Type := {
  json_loads : string -> option json;
  json_dumps : json -> string
}.

(** *** A reference decoder

    A recursive-descent reader of the JSON grammar (RFC 8259), used to run
    the definitions on concrete texts.  Numbers are read exactly; the
    non-standard literals [NaN] and [Infinity] are not accepted. *)

Definition is_json_ws (c : ascii) : bool :=
  let n := nat_of_ascii c in
  (Nat.eqb n 32 || Nat.eqb n 9 || Nat.eqb n 10 || Nat.eqb n 13)%bool.

Fixpoint skip_ws (s : string) : string :=
  match s with
  | String c r => if is_json_ws c then skip_ws r else s
  | EmptyString => EmptyString
  end.

Definition digit_of (c : ascii) : option Z :=
  let n := nat_of_ascii c in
  if (Nat.leb 48 n && Nat.leb n 57)%bool then Some (Z.of_nat (n - 48)) else None.

Definition hex_of (c : ascii) : option Z :=
  let n := nat_of_ascii c in
  if (Nat.leb 48 n && Nat.leb n 57)%bool then Some (Z.of_nat (n - 48))
  else if (Nat.leb 65 n && Nat.leb n 70)%bool then Some (Z.of_nat (n - 55))
  else if (Nat.leb 97 n && Nat.leb n 102)%bool then Some (Z.of_nat (n - 87))
  else None.

(** Longest run of digits: its value, its length and the rest. *)
Fixpoint take_digits (s : string) (acc : Z) (count : nat) : Z * nat * string :=
  match s with
  | String c r =>
      match digit_of c with
      | Some d => take_digits r (10 * acc + d) (S count)
      | None => (acc, count, s)
      end
  | EmptyString => (acc, count, s)
  end.

(** Integer part: [0] or a run of digits not starting with [0]. *)
Definition read_int_part (s : string) : option (Z * string) :=
  match s with
  | String c r =>
      match digit_of c with
      | Some 0 => Some (0, r)
      | Some _ => let '(v, _, rest) := take_digits s 0 0 in Some (v, rest)
      | None => None
      end
  | EmptyString => None
  end.

(** Optional fraction [.ddd]: numerator and number of digits. *)
Definition read_frac (s : string) : Z * nat * string :=
  match s with
  | String "." r =>
      let '(v, n, rest) := take_digits r 0 0 in
      match n with O => (0, O, s) | _ => (v, n, rest) end
  | _ => (0, O, s)
  end.

(** Optional exponent [e+dd]. *)
Definition read_exp (s : string) : Z * string :=
  let body (r : string) (sign : Z) (whole : string) :=
    let '(v, n, rest) := take_digits r 0 0 in
    match n with O => (0, whole) | _ => (sign * v, rest) end in
  match s with
  | String c r =>
      if (Ascii.eqb c "e" || Ascii.eqb c "E")%bool then
        match r with
        | String "+" r' => body r' 1 s
        | String "-" r' => body r' (-1) s
        | _ => body r 1 s
        end
      else (0, s)
  | EmptyString => (0, s)
  end.

Definition pow10 (e : Z) : Q :=
  if 0 <=? e then inject_Z (10 ^ e) else (/ inject_Z (10 ^ (- e)))%Q.

Definition read_number (s : string) : option (Q * string) :=
  let '(sign, s1) :=
    match s with String "-" r => ((-1)%Z, r) | _ => (1, s) end in
  match read_int_part s1 with
  | None => None
  | Some (ip, s2) =>
      let '(fv, fn, s3) := read_frac s2 in
      let '(ev, s4) := read_exp s3 in
      let mant := (inject_Z ip + inject_Z fv / inject_Z (10 ^ Z.of_nat fn))%Q in
      Some (Qred (inject_Z sign * mant * pow10 ev), s4)
  end.

(** UTF-8 encoding of a code point. *)
Definition byte (z : Z) : ascii := ascii_of_nat (Z.to_nat z).

Definition utf8_encode (cp : Z) : string :=
  if cp <? 128 then String (byte cp) EmptyString
  else if cp <? 2048 then
    String (byte (192 + cp / 64)) (String (byte (128 + cp mod 64)) EmptyString)
  else if cp <? 65536 then
    String (byte (224 + cp / 4096))
      (String (byte (128 + (cp / 64) mod 64)) (String (byte (128 + cp mod 64)) EmptyString))
  else
    String (byte (240 + cp / 262144))
      (String (byte (128 + (cp / 4096) mod 64))
        (String (byte (128 + (cp / 64) mod 64)) (String (byte (128 + cp mod 64)) EmptyString))).

Definition read_hex4 (s : string) : option (Z * string) :=
  match s with
  | String a (String b (String c (String d r))) =>
      match hex_of a, hex_of b, hex_of c, hex_of d with
      | Some x, Some y, Some z, Some w => Some (4096 * x + 256 * y + 16 * z + w, r)
      | _, _, _, _ => None
      end
  | _ => None
  end.

(** The escape after a backslash. *)
Definition read_escape (s : string) : option (string * string) :=
  match s with
  | String c r =>
      let one (n : nat) := Some (String (ascii_of_nat n) EmptyString, r) in
      if Ascii.eqb c dquote then one 34%nat
      else if Ascii.eqb c "\" then one 92%nat
      else if Ascii.eqb c "/" then one 47%nat
      else if Ascii.eqb c "b" then one 8%nat
      else if Ascii.eqb c "f" then one 12%nat
      else if Ascii.eqb c "n" then one 10%nat
      else if Ascii.eqb c "r" then one 13%nat
      else if Ascii.eqb c "t" then one 9%nat
      else if Ascii.eqb c "u" then
        match read_hex4 r with
        | None => None
        | Some (hi, r1) =>
            let single := Some (utf8_encode hi, r1) in
            if (55296 <=? hi) && (hi <=? 56319) then
              match r1 with
              | String "\" (String "u" r2) =>
                  match read_hex4 r2 with
                  | Some (lo, r3) =>
                      if (56320 <=? lo) && (lo <=? 57343)
                      then Some (utf8_encode (65536 + (hi - 55296) * 1024 + (lo - 56320)), r3)
                      else single
                  | None => single
                  end
              | _ => single
              end
            else single
        end
      else None
  | EmptyString => None
  end.

(** The body of a string literal, after the opening quote. *)
Fixpoint read_string (fuel : nat) (s acc : string) : option (string * string) :=
  match fuel with
  | O => None
  | S n =>
      match s with
      | EmptyString => None
      | String c r =>
          if Ascii.eqb c dquote then Some (string_rev acc, r)
          else if Ascii.eqb c "\" then
            match read_escape r with
            | Some (piece, r') => read_string n r' (string_rev_onto piece acc)
            | None => None
            end
          else if Nat.ltb (nat_of_ascii c) 32 then None
          else read_string n r (String c acc)
      end
  end.

Fixpoint read_value (fuel : nat) (s : string) {struct fuel} : option (json * string) :=
  match fuel with
  | O => None
  | S n =>
      match s with
      | String "[" r =>
          match skip_ws r with
          | String "]" r' => Some (JArr [], r')
          | r' => read_elements n r' []
          end
      | String "{" r =>
          match skip_ws r with
          | String "}" r' => Some (JObj [], r')
          | r' => read_members n r' []
          end
      | _ =>
          if startswith s (String dquote EmptyString) then
            let r := String.substring 1 (String.length s - 1) s in
            match read_string (S (String.length r)) r EmptyString with
            | Some (str, r') => Some (JStr str, r')
            | None => None
            end
          else if startswith s "null" then Some (JNull, String.substring 4 (String.length s - 4) s)
          else if startswith s "true" then Some (JBool true, String.substring 4 (String.length s - 4) s)
          else if startswith s "false" then Some (JBool false, String.substring 5 (String.length s - 5) s)
          else match read_number s with
               | Some (q, r) => Some (JNum q, r)
               | None => None
               end
      end
  end
with read_elements (fuel : nat) (s : string) (acc : list json) {struct fuel}
  : option (json * string) :=
  match fuel with
  | O => None
  | S n =>
      match read_value n s with
      | None => None
      | Some (v, r) =>
          match skip_ws r with
          | String "," r' => read_elements n (skip_ws r') (acc ++ [v])
          | String "]" r' => Some (JArr (acc ++ [v]), r')
          | _ => None
          end
      end
  end
with read_members (fuel : nat) (s : string) (acc : dict) {struct fuel}
  : option (json * string) :=
  match fuel with
  | O => None
  | S n =>
      if startswith s (String dquote EmptyString) then
        let r := String.substring 1 (String.length s - 1) s in
        match read_string (S (String.length r)) r EmptyString with
        | None => None
        | Some (key, r1) =>
            match skip_ws r1 with
            | String ":" r2 =>
                match read_value n (skip_ws r2) with
                | None => None
                | Some (v, r3) =>
                    match skip_ws r3 with
                    | String "," r4 => read_members n (skip_ws r4) (dict_set acc key v)
                    | String "}" r4 => Some (JObj (dict_set acc key v), r4)
                    | _ => None
                    end
                end
            | _ => None
            end
        end
      else None
  end.

Definition reference_loads (s : string) : option json :=
  match read_value (2 * String.length s + 2) (skip_ws s) with
  | Some (v, r) =>
      match skip_ws r with
      | EmptyString => Some v
      | _ => None
      end
  | None => None
  end.

(** *** A reference encoder

    Compact stand-in for [json.dumps(x, ensure_ascii=False)]: integral
    numbers are printed without a fractional part, the others with the
    digits of their exact value (at most 17 after the point). *)

Definition str_of_Z (z : Z) : string := NilZero.string_of_int (Z.to_int z).

Fixpoint frac_digits (fuel : nat) (r d : Z) : string :=
  match fuel with
  | O => EmptyString
  | S n =>
      if r =? 0 then EmptyString
      else String (byte (48 + (10 * r) / d)) (frac_digits n ((10 * r) mod d) d)
  end.

Definition str_of_Q (q : Q) : string :=
  let q := Qred q in
  let n := Qnum q in
  let d := Zpos (Qden q) in
  if d =? 1 then str_of_Z n
  else (if n <? 0 then "-" else "") ++ str_of_Z (Z.abs n / d) ++ "."
       ++ frac_digits 17 (Z.abs n mod d) d.

Fixpoint escape_string (s : string) : string :=
  match s with
  | EmptyString => EmptyString
  | String c r =>
      let rest := escape_string r in
      if Ascii.eqb c dquote then String "\" (String dquote rest)
      else if Ascii.eqb c "\" then String "\" (String "\" rest)
      else if Ascii.eqb c newline then String "\" (String "n" rest)
      else if Ascii.eqb c (ascii_of_nat 13) then String "\" (String "r" rest)
      else if Ascii.eqb c (ascii_of_nat 9) then String "\" (String "t" rest)
      else String c rest
  end.

Definition quoted (s : string) : string :=
  String dquote (escape_string s ++ String dquote EmptyString).

(** A text between double quotes, as an f-string writes it. *)
Definition quoted_raw (s : string) : string :=
  String dquote (s ++ String dquote EmptyString).

Fixpoint reference_dumps (x : json) : string :=
  match x with
  | JNull => "null"
  | JBool true => "true"
  | JBool false => "false"
  | JNum q => str_of_Q q
  | JStr s => quoted s
  | JArr items => "[" ++ str_join ", " (map reference_dumps items) ++ "]"
  | JObj members =>
      "{" ++ str_join ", "
               (map (fun '(k, v) => quoted k ++ ": " ++ reference_dumps v) members)
          ++ "}"
  end.

Definition reference_json : JsonModule :=
  {| json_loads := reference_loads; json_dumps := reference_dumps |}.

(** ** Pillow and the file system, as [ImagePreprocessor] uses them *)

Class Pillow : Type := {
  Image : Type;
  (** [image.size], as [(width, height)] *)
  image_size : Image -> Z * Z;
  (** [image.mode] *)
  image_mode : Image -> string;
  (** [image.resize(size, Image.Resampling.LANCZOS)] *)
  image_resize : Image -> Z * Z -> Exc Image;
  (** [image.convert('RGB')] *)
  image_convert_rgb : Image -> Image;
  (** a white RGB image of the same size with the image pasted through its
      alpha channel *)
  image_on_white : Image -> Image;
  (** [image.save(buffer, format='JPEG', quality=q, optimize=True)] *)
  image_jpeg : Image -> Z -> string;
  (** [Image.open(path)] *)
  image_open : string -> Exc Image;
  (** [os.path.exists(path)] *)
  os_path_exists : string -> bool
}.

(** Images reduced to their size and mode, to run the definitions. *)
Definition plain_images : Pillow :=
  {| Image := Z * Z * string;
     image_size := fun im => fst im;
     image_mode := fun im => snd im;
     image_resize := fun im wh =>
       if (0 <? fst wh) && (0 <? snd wh) then Return (wh, snd im)
       else Raise (ValueError "height and width must be > 0");
     image_convert_rgb := fun im => (fst im, "RGB");
     image_on_white := fun im => (fst im, "RGB");
     image_jpeg := fun _ _ => EmptyString;
     image_open := fun path => Raise (FileNotFoundError path);
     os_path_exists := fun _ => false |}.

(** ** [Utiles/ImagePreprocessor.py] *)

Module ImagePreprocessor.

Definition MAX_SIZE : Z := 1024.
Definition JPEG_QUALITY : Z := 85.

(** The attributes of an [ImagePreprocessor]; [None] until an image has
    been resized. *)
Record t : Type := {
  original_size : option (Z * Z);
  processed_size : option (Z * Z);
  scale_factor : option Q
}.

Definition __init__ : t :=
  {| original_size := None; processed_size := None; scale_factor := None |}.

Definition set_original_size (self : t) (v : Z * Z) : t :=
  {| original_size := Some v;
     processed_size := processed_size self;
     scale_factor := scale_factor self |}.

Definition set_processed_size (self : t) (v : Z * Z) : t :=
  {| original_size := original_size self;
     processed_size := Some v;
     scale_factor := scale_factor self |}.

Definition set_scale_factor (self : t) (v : Q) : t :=
  {| original_size := original_size self;
     processed_size := processed_size self;
     scale_factor := Some v |}.

Section WithPillow.
Context {pillow : Pillow}.

(** [resize_image(self, image, max_size)]: the returned image (or the
    exception) and the updated preprocessor. *)
Definition resize_image (self : t) (image : Image) (max_size : Z) : Exc Image * t :=
  let '(width, height) := image_size image in
  let self := set_original_size self (width, height) in
  if (width <=? max_size) && (height <=? max_size) then
    let self := set_processed_size self (width, height) in
    let self := set_scale_factor self 1%Q in
    (Return image, self)
  else if width >? height then
    let new_width := max_size in
    match py_truediv (inject_Z (height * max_size)) (inject_Z width) with
    | Raise e => (Raise e, self)
    | Return q =>
        let new_height := py_int q in
        match py_truediv (inject_Z max_size) (inject_Z width) with
        | Raise e => (Raise e, self)
        | Return sf =>
            let self := set_scale_factor self sf in
            let self := set_processed_size self (new_width, new_height) in
            (image_resize image (new_width, new_height), self)
        end
    end
  else
    let new_height := max_size in
    match py_truediv (inject_Z (width * max_size)) (inject_Z height) with
    | Raise e => (Raise e, self)
    | Return q =>
        let new_width := py_int q in
        match py_truediv (inject_Z max_size) (inject_Z height) with
        | Raise e => (Raise e, self)
        | Return sf =>
            let self := set_scale_factor self sf in
            let self := set_processed_size self (new_width, new_height) in
            (image_resize image (new_width, new_height), self)
        end
    end.

Definition convert_to_rgb (image : Image) : Image :=
  if negb (String.eqb (image_mode image) "RGB") then
    if String.eqb (image_mode image) "RGBA" then image_on_white image
    else image_convert_rgb image
  else image.

Definition compress_image (image : Image) (quality : Z) : string :=
  image_jpeg image quality.

End WithPillow.

(** [get_scale_info]: the dict with the three attributes. *)
Record scale_info : Type := {
  info_original_size : option (Z * Z);
  info_processed_size : option (Z * Z);
  info_scale_factor : option Q
}.

Definition get_scale_info (self : t) : scale_info :=
  {| info_original_size := original_size self;
     info_processed_size := processed_size self;
     info_scale_factor := scale_factor self |}.

Section WithPillow.
Context {pillow : Pillow}.

(** [preprocess_image]: the input is a path or an image. *)
Definition preprocess_image (self : t) (image_input : string + Image)
    (max_size quality : Z) : Exc (Image * string * scale_info) * t :=
  let opened :=
    match image_input with
    | inl path =>
        if negb (os_path_exists path)
        then Raise (FileNotFoundError ("图像文件不存在: " ++ path))
        else image_open path
    | inr image => Return image
    end in
  match opened with
  | Raise e => (Raise e, self)
  | Return image =>
      let rgb_image := convert_to_rgb image in
      match resize_image self rgb_image max_size with
      | (Raise e, self) => (Raise e, self)
      | (Return resized_image, self) =>
          let compressed_data := compress_image resized_image quality in
          (Return (resized_image, compressed_data, get_scale_info self), self)
      end
  end.

End WithPillow.

(** One coordinate of a box divided by the scale factor. *)
Definition unscale (x : json) (sf : Q) : Exc Q :=
  v <- py_number x ;; py_truediv v sf.

(** [convert_coordinates_to_original(self, bbox)] *)
Definition convert_coordinates_to_original (self : t) (bbox : json) : Exc json :=
  match scale_factor self, original_size self with
  | Some sf, Some (original_width, original_height) =>
      n <- py_len bbox ;;
      if negb (n =? 4) then
        Raise (ValueError "边界框坐标必须包含4个值: [x1, y1, x2, y2]")
      else
        items <- py_iter bbox ;;
        match items with
        | [x1; y1; x2; y2] =>
            original_x1 <- unscale x1 sf ;;
            original_y1 <- unscale y1 sf ;;
            original_x2 <- unscale x2 sf ;;
            original_y2 <- unscale y2 sf ;;
            let original_x1 := py_max 0 (py_min original_x1 (inject_Z original_width)) in
            let original_y1 := py_max 0 (py_min original_y1 (inject_Z original_height)) in
            let original_x2 := py_max 0 (py_min original_x2 (inject_Z original_width)) in
            let original_y2 := py_max 0 (py_min original_y2 (inject_Z original_height)) in
            Return (JArr [JNum original_x1; JNum original_y1;
                          JNum original_x2; JNum original_y2])
        | _ => Raise (ValueError "not enough values to unpack")
        end
  | _, _ => Raise (ValueError "缩放信息不可用，请先调用preprocess_image方法")
  end.

(** [convert_coordinates_list_to_original]: the comprehension stops at
    the first box that raises. *)
Fixpoint convert_coordinates_list_to_original (self : t) (bbox_list : list json)
  : Exc (list json) :=
  match bbox_list with
  | [] => Return []
  | bbox :: rest =>
      b <- convert_coordinates_to_original self bbox ;;
      bs <- convert_coordinates_list_to_original self rest ;;
      Return (b :: bs)
  end.

End ImagePreprocessor.

(** ** Builtins whose behaviour is taken as given *)

Class Builtins : Type := {
  (** [float(s)] on a string: the value, or the [ValueError] it raises *)
  float_of_str : string -> Exc Q;
  (** [f"{x:.2f}"] *)
  format_2f : Q -> string
}.

(** Reference builtins: [float] reads a JSON-style decimal numeral
    surrounded by blanks, with an optional sign. *)
Definition reference_float_of_str (s : string) : Exc Q :=
  let body := str_strip s in
  let body := match body with String "+" r => r | _ => body end in
  match read_number body with
  | Some (q, EmptyString) => Return q
  | _ => Raise (ValueError ("could not convert string to float: " ++ s))
  end.

Definition reference_format_2f (q : Q) : string :=
  let n := py_round (q * 100) in
  let a := Z.abs n in
  (if n <? 0 then "-" else "") ++ str_of_Z (a / 100) ++ "."
  ++ String (byte (48 + (a / 10) mod 10)) (String (byte (48 + a mod 10)) EmptyString).

Definition reference_builtins : Builtins :=
  {| float_of_str := reference_float_of_str; format_2f := reference_format_2f |}.

(** ** Removal of a Markdown fence

    [clean_json_from_markdown] of [PreciseSegmentationTest.py] and
    [_clean_json_from_markdown] of [PreciseSegmentationAgent.py] have the
    same body. *)

Definition fence : string := "```".
Definition fence_json : string := "```json".

(** The loop over the lines of a text that starts with the json fence. *)
Fixpoint fenced_lines (lines : list string) (start_found : bool) (json_lines : list string)
  : list string :=
  match lines with
  | [] => json_lines
  | line :: rest =>
      if String.eqb (str_strip line) fence_json then fenced_lines rest true json_lines
      else if String.eqb (str_strip line) fence && start_found then json_lines
      else if start_found then fenced_lines rest start_found (json_lines ++ [line])
      else fenced_lines rest start_found json_lines
  end.

Definition clean_markdown (text : string) : string :=
  let text := str_strip text in
  if startswith text fence_json then
    let lines := str_split text newline in
    str_join (String newline EmptyString) (fenced_lines lines false [])
  else if startswith text fence && endswith text fence then
    str_strip (slice_3_minus3 text)
  else text.

(** ** [PreciseSegmentationTest.py] *)

Module PreciseSegmentationTest.

Definition clean_json_from_markdown (text : string) : string := clean_markdown text.

(** [float(x)] *)
Definition py_float {builtins : Builtins} (x : json) : Exc Q :=
  match x with
  | JNum q => Return q
  | JBool b => Return (if b then 1 else 0)%Q
  | JStr s => float_of_str s
  | _ => Raise (TypeError "float() argument must be a string or a real number")
  end.

(** The body of the loop of [sentence_to_dict] for one item of the parsed
    list: [Some item'] when the (updated) item is appended to
    [validated_results], [None] when it is skipped; an exception that the
    inner [except (ValueError, TypeError)] does not catch is raised. *)
Definition validate_item {builtins : Builtins} (item : json) : Exc (option json) :=
  match item with
  | JObj d =>
      let bbox := match dict_get d "bbox_2d" with Some v => v | None => JArr [] end in
      match bbox with
      | JArr [a; b; c; e] =>
          let coords :=
            x1 <- py_float a ;;
            y1 <- py_float b ;;
            x2 <- py_float c ;;
            y2 <- py_float e ;;
            Return (x1, y1, x2, y2) in
          match coords with
          | Return (x1, y1, x2, y2) =>
              let '(x1, x2) := if Qlt_le_dec x2 x1 then (x2, x1) else (x1, x2) in
              let '(y1, y2) := if Qlt_le_dec y2 y1 then (y2, y1) else (y1, y2) in
              Return (Some (JObj (dict_set d "bbox_2d"
                (JArr [JInt (py_int x1); JInt (py_int y1); JInt (py_int x2); JInt (py_int y2)]))))
          | Raise (ValueError _) | Raise (TypeError _) => Return None
          | Raise e => Raise e
          end
      | _ => Return None
      end
  | _ => Return None
  end.

Fixpoint validate_items {builtins : Builtins} (items : list json) (validated_results : list json)
  : Exc (list json) :=
  match items with
  | [] => Return validated_results
  | item :: rest =>
      r <- validate_item item ;;
      match r with
      | Some item' => validate_items rest (validated_results ++ [item'])
      | None => validate_items rest validated_results
      end
  end.

(** [sentence_to_dict(sentence)]: every exception of the body is caught and
    answered with the empty dict. *)
Definition sentence_to_dict {json_module : JsonModule} {builtins : Builtins} (sentence : string) : json :=
  let body : Exc json :=
    if String.eqb (str_strip sentence) EmptyString then Return (JObj [])
    else
      let cleaned_text := clean_json_from_markdown sentence in
      match json_loads cleaned_text with
      | None => Raise JSONDecodeError
      | Some (JArr items) =>
          validated_results <- validate_items items [] ;;
          Return (JObj [("segmentation_results", JArr validated_results)])
      | Some parsed_result => Return parsed_result
      end in
  match body with
  | Return v => v
  | Raise _ => JObj []
  end.

End PreciseSegmentationTest.

(** ** [Agents/PreciseSegmentationAgent.py] *)

(** The completion endpoint and the encoder used for the request. *)
Class ChatService : Type := {
  (** the POST of a question and an image URL: the content of the first
      choice, or the exception [ask_about_image] raises in its place *)
  chat_completion : string -> string -> Exc string;
  b64encode : string -> string
}.

(** A test double that answers every request with the same text. *)
Definition canned_service (raw_text : string) : ChatService :=
  {| chat_completion := fun _ _ => Return raw_text; b64encode := fun s => s |}.

Module PreciseSegmentationAgent.

Record t : Type := {
  image_preprocessor : ImagePreprocessor.t;
  scale_info : option ImagePreprocessor.scale_info;
  (** [inputMessage.image] *)
  image : option string;
  (** [inputMessage.to_sentence()] *)
  question : string
}.

Definition __init__ (question : string) : t :=
  {| image_preprocessor := ImagePreprocessor.__init__;
     scale_info := None;
     image := None;
     question := question |}.

Definition set_image_preprocessor (self : t) (p : ImagePreprocessor.t) : t :=
  {| image_preprocessor := p; scale_info := scale_info self;
     image := image self; question := question self |}.

Definition set_scale_info (self : t) (i : ImagePreprocessor.scale_info) : t :=
  {| image_preprocessor := image_preprocessor self; scale_info := Some i;
     image := image self; question := question self |}.

Definition is_url (path : string) : bool :=
  startswith path "http://" || startswith path "https://".

(** [set_image(self, image_path)] *)
Definition set_image {pillow : Pillow} (self : t) (image_path : string) : Exc unit * t :=
  if String.eqb image_path EmptyString then (Raise (ValueError "图片路径不能为空"), self)
  else if negb (is_url image_path) && negb (os_path_exists image_path) then
    (Raise (FileNotFoundError ("图片文件 " ++ image_path ++ " 未找到")), self)
  else
    (Return tt, {| image_preprocessor := image_preprocessor self;
                   scale_info := scale_info self;
                   image := Some image_path;
                   question := question self |}).

(** [_encode_image_to_base64(self, image_path)] *)
Definition _encode_image_to_base64 {pillow : Pillow} {service : ChatService} (self : t) (image_path : string)
  : Exc string * t :=
  match ImagePreprocessor.preprocess_image (image_preprocessor self) (inl image_path)
          ImagePreprocessor.MAX_SIZE ImagePreprocessor.JPEG_QUALITY with
  | (Return (_, compressed_data, info), p) =>
      let self := set_scale_info (set_image_preprocessor self p) info in
      (Return ("data:image/jpeg;base64," ++ b64encode compressed_data), self)
  | (Raise (FileNotFoundError _), p) =>
      (Raise (FileNotFoundError ("图片文件 " ++ image_path ++ " 未找到")),
       set_image_preprocessor self p)
  | (Raise e, p) =>
      (Raise (Exception ("图片编码失败: " ++ str_exn e)), set_image_preprocessor self p)
  end.

(** One result of the list: a dict with a [bbox_2d] key has its box
    converted, anything else is kept. *)
Definition convert_result (self : t) (result : json) : Exc json :=
  match result with
  | JObj d =>
      match dict_get d "bbox_2d" with
      | Some bbox =>
          original_bbox <-
            ImagePreprocessor.convert_coordinates_to_original (image_preprocessor self) bbox ;;
          Return (JObj (dict_set d "bbox_2d" original_bbox))
      | None => Return result
      end
  | _ => Return result
  end.

Fixpoint convert_results (self : t) (results : list json) : Exc (list json) :=
  match results with
  | [] => Return []
  | result :: rest =>
      r <- convert_result self result ;;
      rs <- convert_results self rest ;;
      Return (r :: rs)
  end.

(** [convert_coordinates_to_original(self, segmentation_results)] *)
Definition convert_coordinates_to_original (self : t) (segmentation_results : list json)
  : Exc (list json) :=
  match scale_info self with
  | None => Return segmentation_results
  | Some _ => convert_results self segmentation_results
  end.

(** [ask_about_image(self)] *)
Definition ask_about_image {pillow : Pillow} {service : ChatService} (self : t) : Exc string * t :=
  match image self with
  | None => (Raise (ValueError "请先使用set_image()方法设置图片路径"), self)
  | Some image_path =>
      if String.eqb image_path EmptyString then
        (Raise (ValueError "请先使用set_image()方法设置图片路径"), self)
      else
        let '(image_url, self) :=
          if is_url image_path then (Return image_path, self)
          else _encode_image_to_base64 self image_path in
        match image_url with
        | Raise e => (Raise e, self)
        | Return image_url => (chat_completion (question self) image_url, self)
        end
  end.

Definition _clean_json_from_markdown (text : string) : string := clean_markdown text.

(** [ask_about_image_with_coordinate_conversion(self)] *)
Definition ask_about_image_with_coordinate_conversion {pillow : Pillow} {service : ChatService} {json_module : JsonModule}
    (self : t) : Exc string * t :=
  match ask_about_image self with
  | (Raise e, self) => (Raise e, self)
  | (Return raw_result, self) =>
      let body : Exc string :=
        let cleaned_result := _clean_json_from_markdown raw_result in
        match json_loads cleaned_result with
        | None => Raise JSONDecodeError
        | Some (JArr segmentation_results) =>
            converted_results <- convert_coordinates_to_original self segmentation_results ;;
            Return (json_dumps (JArr converted_results))
        | Some _ => Return raw_result
        end in
      (try_except body (fun _ => Return raw_result), self)
  end.

End PreciseSegmentationAgent.

(** ** Validation of dynamically typed values by pydantic

    How pydantic coerces a value of the wrong type depends on its version
    and mode; the scalar validators are therefore taken as given.  What a
    model does with a value of the right type, with [None] for a required
    model-typed field and with a string for an enumeration field follows
    from the declarations and is defined below. *)

Class Pydantic : Type := {
  validate_int : json -> Exc Z;
  validate_float : json -> Exc Q;
  validate_str : json -> Exc string;
  validate_str_list : json -> Exc (list string)
}.

(** [Optional[str]] *)
Definition validate_optional_str {pydantic : Pydantic} (x : json) : Exc (option string) :=
  match x with
  | JNull => Return None
  | _ => s <- validate_str x ;; Return (Some s)
  end.

Definition is_integral (q : Q) : bool := Qeq_bool q (inject_Z (Qfloor q)).

(** Strict reference validators: only values of the declared type pass. *)
Definition strict_pydantic : Pydantic :=
  {| validate_int := fun x =>
       match x with
       | JNum q => if is_integral q then Return (Qfloor q) else Raise (ValidationError "int")
       | _ => Raise (ValidationError "int")
       end;
     validate_float := fun x =>
       match x with JNum q => Return q | _ => Raise (ValidationError "float") end;
     validate_str := fun x =>
       match x with JStr s => Return s | _ => Raise (ValidationError "str") end;
     validate_str_list := fun x =>
       match x with
       | JArr items =>
           fold_right (fun item acc =>
                         match item, acc with
                         | JStr s, Return l => Return (s :: l)
                         | _, Raise e => Raise e
                         | _, _ => Raise (ValidationError "List[str]")
                         end) (Return []) items
       | _ => Raise (ValidationError "List[str]")
       end |}.

(** ** [src/models/data_models.py] *)

Module data_models.

Inductive ObjectCategory : Type :=
| CUP | SCISSORS | BOTTLE | KNIFE | FORK | SPOON
| PLATE | BOWL | BOOK | PEN | PHONE | UNKNOWN.

Definition ObjectCategory_value (c : ObjectCategory) : string :=
  match c with
  | CUP => "杯子" | SCISSORS => "剪刀" | BOTTLE => "瓶子" | KNIFE => "刀"
  | FORK => "叉子" | SPOON => "勺子" | PLATE => "盘子" | BOWL => "碗"
  | BOOK => "书" | PEN => "笔" | PHONE => "手机" | UNKNOWN => "未知物体"
  end.

Definition ObjectCategory_members : list ObjectCategory :=
  [CUP; SCISSORS; BOTTLE; KNIFE; FORK; SPOON; PLATE; BOWL; BOOK; PEN; PHONE; UNKNOWN].

Definition ObjectCategory_eqb (a b : ObjectCategory) : bool :=
  String.eqb (ObjectCategory_value a) (ObjectCategory_value b).

(** [ObjectCategory(value)]: the member with this value. *)
Definition ObjectCategory_of_value (value : string) : Exc ObjectCategory :=
  match find (fun c => String.eqb (ObjectCategory_value c) value) ObjectCategory_members with
  | Some c => Return c
  | None => Raise (ValueError ("'" ++ value ++ "' is not a valid ObjectCategory"))
  end.

Module BoundingBox.
Record t : Type := { x1 : Z; y1 : Z; x2 : Z; y2 : Z; confidence : Q }.

(** [BoundingBox(x1=.., y1=.., x2=.., y2=.., confidence=..)]: four [int]
    fields and a [float]; the class declares no validator relating them. *)
Definition new {pydantic : Pydantic} (x1 y1 x2 y2 confidence : json) : Exc t :=
  a <- validate_int x1 ;;
  b <- validate_int y1 ;;
  c <- validate_int x2 ;;
  d <- validate_int y2 ;;
  f <- validate_float confidence ;;
  Return {| x1 := a; y1 := b; x2 := c; y2 := d; confidence := f |}.

Definition center (self : t) : Z * Z :=
  ((x1 self + x2 self) / 2, (y1 self + y2 self) / 2).

Definition area (self : t) : Z :=
  (x2 self - x1 self) * (y2 self - y1 self).
End BoundingBox.

Module DetectedObject.
Record t : Type := {
  object_id : string;
  label : string;
  category : ObjectCategory;
  bounding_box : BoundingBox.t;
  confidence : Q;
  description : option string
}.

(** The constructor called with values of the field types, except that
    [bounding_box] may be [None] and [category] is given by its value:
    [bounding_box] is a required [BoundingBox] and [category] must be the
    value of a member. *)
Definition new (object_id label : string) (bounding_box : option BoundingBox.t)
    (category : string) (confidence : Q) (description : option string) : Exc t :=
  match bounding_box, ObjectCategory_of_value category with
  | Some b, Return c =>
      Return {| object_id := object_id; label := label; category := c;
                bounding_box := b; confidence := confidence; description := description |}
  | _, _ => Raise (ValidationError "DetectedObject")
  end.
End DetectedObject.

Module SceneAnalysisResult.
Record t : Type := {
  image_path : string;
  objects : list DetectedObject.t;
  total_objects : Z;
  analysis_timestamp : string
}.

(** The constructor; [model_post_init] sets [total_objects]. *)
Definition new (image_path : string) (objects : list DetectedObject.t)
    (analysis_timestamp : string) : t :=
  {| image_path := image_path; objects := objects;
     total_objects := Z.of_nat (List.length objects);
     analysis_timestamp := analysis_timestamp |}.
End SceneAnalysisResult.

Module UserIntent.
Record t : Type := {
  raw_instruction : string;
  intent_type : string;
  target_object_id : option string;
  priority_level : Z;
  safety_requirements : list string
}.
End UserIntent.

Module FunctionalPart.
Record t : Type := {
  part_name : string;
  function : string;
  safety_score : Q;
  ergonomic_score : Q;
  grasp_priority : Z
}.
End FunctionalPart.

Module InteractionStrategy.
Record t : Type := {
  target_object : DetectedObject.t;
  target_part : FunctionalPart.t;
  strategy_reasoning : string;
  safety_considerations : list string;
  execution_instructions : string
}.
End InteractionStrategy.

Module SegmentationMask.
Record t : Type := {
  mask_array : list (list Z);
  width : Z;
  height : Z;
  target_object_id : string;
  target_part_name : string;
  mask_confidence : Q
}.
End SegmentationMask.

Module SegmentationResult.
Record t : Type := {
  image_path : string;
  mask : SegmentationMask.t;
  strategy_used : InteractionStrategy.t;
  processing_time : Q;
  success : bool;
  error_message : option string;
  output_mask_path : option string
}.
End SegmentationResult.

(** What the pipeline stores under the keys of [current_data]. *)
Inductive stage_data : Type :=
| SceneData (r : SceneAnalysisResult.t)
| IntentData (i : UserIntent.t)
| StrategyData (s : InteractionStrategy.t)
| SegmentationData (r : SegmentationResult.t).

Module ProcessingPipeline.
Record t : Type := {
  stage : string;
  completed_stages : list string;
  current_data : list (string * stage_data);
  errors : list string;
  warnings : list string
}.

Definition set_stage (self : t) (s : string) : t :=
  {| stage := s; completed_stages := completed_stages self;
     current_data := current_data self; errors := errors self;
     warnings := warnings self |}.

(** [self.completed_stages.append(name)] *)
Definition append_completed (self : t) (name : string) : t :=
  {| stage := stage self; completed_stages := completed_stages self ++ [name];
     current_data := current_data self; errors := errors self;
     warnings := warnings self |}.

(** [self.errors.append(text)] *)
Definition append_error (self : t) (text : string) : t :=
  {| stage := stage self; completed_stages := completed_stages self;
     current_data := current_data self; errors := errors self ++ [text];
     warnings := warnings self |}.

Fixpoint data_set (d : list (string * stage_data)) (key : string) (value : stage_data)
  : list (string * stage_data) :=
  match d with
  | [] => [(key, value)]
  | (k, v) :: rest =>
      if String.eqb k key then (key, value) :: rest else (k, v) :: data_set rest key value
  end.

(** [self.current_data[key] = value] *)
Definition set_data (self : t) (key : string) (value : stage_data) : t :=
  {| stage := stage self; completed_stages := completed_stages self;
     current_data := data_set (current_data self) key value;
     errors := errors self; warnings := warnings self |}.
End ProcessingPipeline.

End data_models.

Import data_models.

(** [str(x)] of a dynamically typed value (containers are printed in JSON
    syntax). *)
Definition py_str (x : json) : string :=
  match x with
  | JStr s => s
  | JNull => "None"
  | JBool true => "True"
  | JBool false => "False"
  | _ => reference_dumps x
  end.

(** ** [src/agents/scene_analyst.py] *)

(** What a [SceneAnalyst] calls: its image processor, its vision tool and
    the clock. *)
Class SceneTools : Type := {
  ndarray : Type;
  (** [image_processor.load_image(path)] *)
  load_image : string -> Exc (option ndarray);
  (** [image_processor.validate_image_quality(image)] *)
  validate_image_quality : ndarray -> Exc json;
  (** [vision_tool._run(operation, image_path)] *)
  vision_tool_run : string -> string -> Exc json;
  (** [datetime.now().isoformat()] when the result is built *)
  now_isoformat : string
}.

Module SceneAnalyst.

(** [ObjectCategory(x)] for a dynamically typed [x]. *)
Definition category_of (x : json) : Exc ObjectCategory :=
  match x with
  | JStr s => ObjectCategory_of_value s
  | _ => Raise (ValueError (py_str x ++ " is not a valid ObjectCategory"))
  end.

(** The body of the inner [try] of [analyze_scene] for one [obj_data]. *)
Definition parse_object {pydantic : Pydantic} (obj_data : json) : Exc DetectedObject.t :=
  bbox_data <- py_getitem obj_data "bounding_box" ;;
  vx1 <- py_getitem bbox_data "x1" ;;
  vy1 <- py_getitem bbox_data "y1" ;;
  vx2 <- py_getitem bbox_data "x2" ;;
  vy2 <- py_getitem bbox_data "y2" ;;
  vc <- py_get bbox_data "confidence" (JNum 1) ;;
  bbox <- BoundingBox.new vx1 vy1 vx2 vy2 vc ;;
  vcat <- py_get obj_data "category" (JStr (ObjectCategory_value UNKNOWN)) ;;
  category <- category_of vcat ;;
  vid <- py_getitem obj_data "object_id" ;;
  vlabel <- py_getitem obj_data "label" ;;
  vconf <- py_get obj_data "confidence" (JNum 1) ;;
  vdesc <- py_get obj_data "description" JNull ;;
  object_id <- validate_str vid ;;
  label <- validate_str vlabel ;;
  confidence <- validate_float vconf ;;
  description <- validate_optional_str vdesc ;;
  Return {| DetectedObject.object_id := object_id;
            DetectedObject.label := label;
            DetectedObject.category := category;
            DetectedObject.bounding_box := bbox;
            DetectedObject.confidence := confidence;
            DetectedObject.description := description |}.

(** The loop: an item whose parsing raises is skipped. *)
Fixpoint parse_objects {pydantic : Pydantic} (items : list json) (objects : list DetectedObject.t)
  : list DetectedObject.t :=
  match items with
  | [] => objects
  | obj_data :: rest =>
      match parse_object obj_data with
      | Return detected_obj => parse_objects rest (objects ++ [detected_obj])
      | Raise _ => parse_objects rest objects
      end
  end.

(** The body of the outer [try] of [analyze_scene]. *)
Definition analyze_scene_body {tools : SceneTools} {pydantic : Pydantic} (image_path : string)
  : Exc SceneAnalysisResult.t :=
  image <- load_image image_path ;;
  match image with
  | None => Raise (Exception ("无法加载图像: " ++ image_path))
  | Some image =>
      quality_info <- validate_image_quality image ;;
      _ <- py_get quality_info "is_good_quality" (JBool false) ;;
      detection_result <- vision_tool_run "detect_objects" image_path ;;
      ok <- py_get detection_result "success" (JBool false) ;;
      if negb (truthy ok) then
        error_msg <- py_get detection_result "error" (JStr "检测失败") ;;
        Raise (Exception (py_str error_msg))
      else
        listed <- py_get detection_result "objects" (JArr []) ;;
        items <- py_iter listed ;;
        let objects := parse_objects items [] in
        Return (SceneAnalysisResult.new image_path objects now_isoformat)
  end.

(** The result built by the [except] clause. *)
Definition empty_result {tools : SceneTools} (image_path : string) : SceneAnalysisResult.t :=
  SceneAnalysisResult.new image_path [] now_isoformat.

(** [analyze_scene(self, image_path)] *)
Definition analyze_scene {tools : SceneTools} {pydantic : Pydantic} (image_path : string)
  : Exc SceneAnalysisResult.t :=
  try_except (analyze_scene_body image_path) (fun _ => Return (empty_result image_path)).

End SceneAnalyst.

(** ** [src/agents/interaction_strategist.py] *)

(** [model_client.analyze_image(image_b64, prompt, response_format)] *)
Class LanguageModel : Type := {
  analyze_image : string -> string -> string -> Exc string
}.

Module InteractionStrategist.

Definition part (part_name function : string) (safety_score ergonomic_score : Q)
    (grasp_priority : Z) : FunctionalPart.t :=
  {| FunctionalPart.part_name := part_name;
     FunctionalPart.function := function;
     FunctionalPart.safety_score := safety_score;
     FunctionalPart.ergonomic_score := ergonomic_score;
     FunctionalPart.grasp_priority := grasp_priority |}.

(** [_build_functional_parts_knowledge] *)
Definition functional_parts_knowledge : list (ObjectCategory * list FunctionalPart.t) :=
  [ (CUP,
     [ part "杯柄" "提供安全的抓握点，避免接触热液体" (95 # 100) (9 # 10) 1;
       part "杯身" "容纳液体的主体部分" (3 # 10) (5 # 10) 3 ]);
    (SCISSORS,
     [ part "握柄" "手指插入的环形把手，提供安全抓握" (9 # 10) (95 # 100) 1;
       part "刀刃" "切割部分" (1 # 10) (1 # 10) 5 ]);
    (KNIFE,
     [ part "刀柄" "手持部分，提供安全控制" (85 # 100) (9 # 10) 1;
       part "刀刃" "切割部分" (5 # 100) (1 # 10) 5 ]);
    (BOTTLE,
     [ part "瓶颈" "便于抓握的细窄部分" (9 # 10) (85 # 100) 1;
       part "瓶身" "容纳液体的主体" (7 # 10) (6 # 10) 2 ]) ].

Definition nl : string := String newline EmptyString.

(** [_build_intent_analysis_prompt] *)
Definition _build_intent_analysis_prompt (instruction : string)
    (scene_result : SceneAnalysisResult.t) : string :=
  let objects_info :=
    map (fun obj => "- " ++ DetectedObject.label obj
                    ++ " (ID: " ++ DetectedObject.object_id obj ++ ")")
        (SceneAnalysisResult.objects scene_result) in
  let objects_text :=
    match objects_info with [] => "无物体" | _ => str_join nl objects_info end in
  nl ++ "请分析用户的指令并理解其真实意图。" ++ nl ++ nl
  ++ "用户指令: " ++ quoted_raw instruction ++ nl ++ nl
  ++ "场景中的物体:" ++ nl ++ objects_text ++ nl ++ nl
  ++ "请分析用户的意图类型，并根据场景中的物体判断用户最可能想要操作哪个物体。" ++ nl ++ nl
  ++ "意图类型包括但不限于:" ++ nl
  ++ "- 饮水: 想要喝水、口渴等" ++ nl
  ++ "- 用餐: 想要吃东西、用餐具等  " ++ nl
  ++ "- 写作: 想要写字、记录等" ++ nl
  ++ "- 剪切: 想要剪纸、剪东西等" ++ nl
  ++ "- 阅读: 想要看书、阅读等" ++ nl
  ++ "- 通讯: 想要打电话、发消息等" ++ nl ++ nl
  ++ "请以JSON格式回复:" ++ nl
  ++ "{" ++ nl
  ++ dq "    'intent_type': '意图类型'," ++ nl
  ++ dq "    'target_object_id': '目标物体ID或null'," ++ nl
  ++ dq "    'confidence': 置信度(0-1)," ++ nl
  ++ dq "    'reasoning': '推理过程'," ++ nl
  ++ dq "    'priority_level': 优先级(1-5)," ++ nl
  ++ dq "    'safety_requirements': ['安全要求列表']" ++ nl
  ++ "}" ++ nl.

Definition fallback_intent (instruction intent_type : string) : UserIntent.t :=
  {| UserIntent.raw_instruction := instruction;
     UserIntent.intent_type := intent_type;
     UserIntent.target_object_id := None;
     UserIntent.priority_level := 1;
     UserIntent.safety_requirements := ["确保操作安全"] |}.

(** [_parse_intent_response]: the bare [except] answers every failure. *)
Definition _parse_intent_response {json_module : JsonModule} {pydantic : Pydantic} (response instruction : string)
  : UserIntent.t :=
  let body : Exc UserIntent.t :=
    match json_loads response with
    | None => Raise JSONDecodeError
    | Some data =>
        v1 <- py_get data "intent_type" (JStr "未知意图") ;;
        v2 <- py_get data "target_object_id" JNull ;;
        v3 <- py_get data "priority_level" (JNum 1) ;;
        v4 <- py_get data "safety_requirements" (JArr []) ;;
        intent_type <- validate_str v1 ;;
        target_object_id <- validate_optional_str v2 ;;
        priority_level <- validate_int v3 ;;
        safety_requirements <- validate_str_list v4 ;;
        Return {| UserIntent.raw_instruction := instruction;
                  UserIntent.intent_type := intent_type;
                  UserIntent.target_object_id := target_object_id;
                  UserIntent.priority_level := priority_level;
                  UserIntent.safety_requirements := safety_requirements |}
    end in
  match body with
  | Return intent => intent
  | Raise _ => fallback_intent instruction "解析失败"
  end.

(** [analyze_user_intent]: the log line after the parsing subscripts the
    parsed [UserIntent] ([intent_data['intent_type']]), which a pydantic
    model does not support; the [TypeError] is caught with everything
    else. *)
Definition analyze_user_intent {model : LanguageModel} {json_module : JsonModule} {pydantic : Pydantic}
    (instruction : string) (scene_result : SceneAnalysisResult.t) : UserIntent.t :=
  let body : Exc UserIntent.t :=
    let prompt := _build_intent_analysis_prompt instruction scene_result in
    response <- analyze_image "" prompt "json" ;;
    let intent_data := _parse_intent_response response instruction in
    _ <- (Raise (TypeError "'UserIntent' object is not subscriptable") : Exc string) ;;
    Return intent_data in
  match body with
  | Return intent => intent
  | Raise _ => fallback_intent instruction "未知意图"
  end.

(** [max(objects, key=lambda x: x.confidence)]: the first of the largest. *)
Fixpoint max_by_confidence (best : DetectedObject.t) (rest : list DetectedObject.t)
  : DetectedObject.t :=
  match rest with
  | [] => best
  | obj :: rest' =>
      if Qlt_le_dec (DetectedObject.confidence best) (DetectedObject.confidence obj)
      then max_by_confidence obj rest'
      else max_by_confidence best rest'
  end.

Definition intent_to_category (intent_type : string) : list ObjectCategory :=
  if String.eqb intent_type "饮水" then [CUP; BOTTLE]
  else if String.eqb intent_type "用餐" then [FORK; SPOON; KNIFE]
  else if String.eqb intent_type "剪切" then [SCISSORS]
  else if String.eqb intent_type "写作" then [PEN]
  else if String.eqb intent_type "阅读" then [BOOK]
  else if String.eqb intent_type "通讯" then [PHONE]
  else [].

(** The first object of the first category that has one. *)
Fixpoint first_of_categories (categories : list ObjectCategory)
    (objects : list DetectedObject.t) : option DetectedObject.t :=
  match categories with
  | [] => None
  | category :: rest =>
      match find (fun obj => ObjectCategory_eqb (DetectedObject.category obj) category) objects with
      | Some obj => Some obj
      | None => first_of_categories rest objects
      end
  end.

(** [_select_target_object] *)
Definition _select_target_object (user_intent : UserIntent.t)
    (scene_result : SceneAnalysisResult.t) : option DetectedObject.t :=
  let objects := SceneAnalysisResult.objects scene_result in
  let by_id :=
    match UserIntent.target_object_id user_intent with
    | Some id =>
        if String.eqb id EmptyString then None
        else find (fun obj => String.eqb (DetectedObject.object_id obj) id) objects
    | None => None
    end in
  match by_id with
  | Some obj => Some obj
  | None =>
      let target_categories := intent_to_category (UserIntent.intent_type user_intent) in
      match first_of_categories target_categories objects with
      | Some obj => Some obj
      | None =>
          match objects with
          | obj :: rest => Some (max_by_confidence obj rest)
          | [] => None
          end
      end
  end.

Fixpoint knowledge_get (table : list (ObjectCategory * list FunctionalPart.t))
    (category : ObjectCategory) : list FunctionalPart.t :=
  match table with
  | [] => []
  | (c, parts) :: rest =>
      if ObjectCategory_eqb c category then parts else knowledge_get rest category
  end.

(** [min(parts, key=grasp_priority)] and [max(parts, key=safety_score)]:
    the first of the smallest, resp. largest. *)
Fixpoint min_by_priority (best : FunctionalPart.t) (rest : list FunctionalPart.t)
  : FunctionalPart.t :=
  match rest with
  | [] => best
  | p :: rest' =>
      if FunctionalPart.grasp_priority p <? FunctionalPart.grasp_priority best
      then min_by_priority p rest' else min_by_priority best rest'
  end.

Fixpoint max_by_safety (best : FunctionalPart.t) (rest : list FunctionalPart.t)
  : FunctionalPart.t :=
  match rest with
  | [] => best
  | p :: rest' =>
      if Qlt_le_dec (FunctionalPart.safety_score best) (FunctionalPart.safety_score p)
      then max_by_safety p rest' else max_by_safety best rest'
  end.

(** [_select_functional_part] *)
Definition _select_functional_part (target_object : DetectedObject.t)
    (user_intent : UserIntent.t) : option FunctionalPart.t :=
  let available_parts :=
    knowledge_get functional_parts_knowledge (DetectedObject.category target_object) in
  match available_parts with
  | [] => Some (part "主体" "物体的主要部分" (7 # 10) (7 # 10) 1)
  | first :: others =>
      let safe_parts :=
        filter (fun p => if Qlt_le_dec (5 # 10) (FunctionalPart.safety_score p)
                         then true else false) available_parts in
      match safe_parts with
      | p :: rest => Some (min_by_priority p rest)
      | [] => Some (max_by_safety first others)
      end
  end.

(** [_generate_strategy_reasoning] *)
Definition _generate_strategy_reasoning {builtins : Builtins} (user_intent : UserIntent.t)
    (target_object : DetectedObject.t) (target_part : FunctionalPart.t) : string :=
  nl ++ "基于用户意图" ++ quoted_raw (UserIntent.intent_type user_intent)
  ++ "，选择抓取" ++ DetectedObject.label target_object ++ "来满足需求。" ++ nl
  ++ "选择" ++ FunctionalPart.part_name target_part ++ "作为抓取点，因为"
  ++ FunctionalPart.function target_part ++ "。" ++ nl
  ++ "该部件的安全评分为" ++ format_2f (FunctionalPart.safety_score target_part)
  ++ "，人体工学评分为" ++ format_2f (FunctionalPart.ergonomic_score target_part) ++ "，" ++ nl
  ++ "确保了操作的安全性和舒适性。" ++ nl.

(** [_generate_safety_considerations] *)
Definition _generate_safety_considerations (target_object : DetectedObject.t)
    (target_part : FunctionalPart.t) : list string :=
  let considerations :=
    [ "抓取" ++ FunctionalPart.part_name target_part ++ "以确保安全操作";
      "避免接触物体的危险部位";
      "确保抓取力度适中，避免损坏物体";
      "注意递送时的人体工学姿态" ] in
  match DetectedObject.category target_object with
  | SCISSORS => considerations ++ ["绝对避免接触刀刃部分"; "递送时刀尖朝下，握柄朝向用户"]
  | CUP => considerations ++ ["检查是否有热液体"; "保持杯子水平，避免洒漏"]
  | KNIFE => considerations ++ ["严格避免接触刀刃"; "递送时刀柄朝向用户，刀刃朝下"]
  | _ => considerations
  end.

(** [_generate_execution_instructions] *)
Definition _generate_execution_instructions (target_object : DetectedObject.t)
    (target_part : FunctionalPart.t) : string :=
  nl ++ "目标物体: " ++ DetectedObject.label target_object ++ nl
  ++ "目标部件: " ++ FunctionalPart.part_name target_part ++ nl
  ++ "抓取策略: 精确定位并分割" ++ DetectedObject.label target_object ++ "的"
  ++ FunctionalPart.part_name target_part ++ "部分" ++ nl
  ++ "安全要求: 确保抓取点安全可靠，符合人体工学设计" ++ nl
  ++ "递送方式: 以适当的姿态将物体递给用户，确保用户能够安全接收" ++ nl.

(** [create_interaction_strategy]: [None] when no strategy can be made. *)
Definition create_interaction_strategy {builtins : Builtins} (user_intent : UserIntent.t)
    (scene_result : SceneAnalysisResult.t) : option InteractionStrategy.t :=
  match _select_target_object user_intent scene_result with
  | None => None
  | Some target_object =>
      match _select_functional_part target_object user_intent with
      | None => None
      | Some target_part =>
          Some {| InteractionStrategy.target_object := target_object;
                  InteractionStrategy.target_part := target_part;
                  InteractionStrategy.strategy_reasoning :=
                    _generate_strategy_reasoning user_intent target_object target_part;
                  InteractionStrategy.safety_considerations :=
                    _generate_safety_considerations target_object target_part;
                  InteractionStrategy.execution_instructions :=
                    _generate_execution_instructions target_object target_part |}
      end
  end.

End InteractionStrategist.

(** ** [src/core/pipeline.py] *)

(** The three agents as the pipeline calls them.  The pipeline only relies
    on the methods; each may return or raise. *)
Class Agents : Type := {
  (** [scene_analyst.analyze_scene(image_path)] *)
  agent_analyze_scene : string -> Exc SceneAnalysisResult.t;
  (** [interaction_strategist.analyze_user_intent(instruction, scene_result)] *)
  agent_analyze_user_intent : string -> SceneAnalysisResult.t -> Exc UserIntent.t;
  (** [interaction_strategist.create_interaction_strategy(user_intent, scene_result)] *)
  agent_create_interaction_strategy :
    UserIntent.t -> SceneAnalysisResult.t -> Exc (option InteractionStrategy.t);
  (** [precision_segmenter.segment_target_part(image_path, strategy)] *)
  agent_segment_target_part : string -> InteractionStrategy.t -> Exc SegmentationResult.t
}.

(** [pathlib.Path] queries and the configured formats. *)
Class FileSystem : Type := {
  path_exists : string -> bool;
  path_is_file : string -> bool;
  (** [Path(p).suffix] *)
  path_suffix : string -> string;
  (** [config.supported_formats] *)
  supported_formats : list string
}.

(** [precision_segmenter.segment_target_part], whose body is not modelled. *)
Class Segmenter : Type := {
  segment_target_part : string -> InteractionStrategy.t -> Exc SegmentationResult.t
}.

(** The agents of the repository: [SceneAnalyst] and
    [InteractionStrategist] as defined above. *)
Definition repository_agents {tools : SceneTools} {model : LanguageModel} {json_module : JsonModule} {pydantic : Pydantic}
    {builtins : Builtins} {segmenter : Segmenter} : Agents :=
  {| agent_analyze_scene := SceneAnalyst.analyze_scene;
     agent_analyze_user_intent := fun instruction scene_result =>
       Return (InteractionStrategist.analyze_user_intent instruction scene_result);
     agent_create_interaction_strategy := fun user_intent scene_result =>
       Return (InteractionStrategist.create_interaction_strategy user_intent scene_result);
     agent_segment_target_part := segment_target_part |}.

(** [s.lower()] on ASCII letters. *)
Definition lower_ascii (c : ascii) : ascii :=
  let n := nat_of_ascii c in
  if (Nat.leb 65 n && Nat.leb n 90)%bool then ascii_of_nat (n + 32) else c.

Fixpoint str_lower (s : string) : string :=
  match s with
  | EmptyString => EmptyString
  | String c r => String (lower_ascii c) (str_lower r)
  end.

(** [s.lstrip('.')] *)
Fixpoint lstrip_dots (s : string) : string :=
  match s with
  | String "." r => lstrip_dots r
  | _ => s
  end.

Module pipeline.

(** A call made to an agent.  The calls of a run are recorded in order;
    the record is not part of the program, it makes "is invoked"
    expressible. *)
Inductive call : Type :=
| CallAnalyzeScene (image_path : string)
| CallAnalyzeUserIntent (instruction : string) (scene_result : SceneAnalysisResult.t)
| CallCreateInteractionStrategy (user_intent : UserIntent.t) (scene_result : SceneAnalysisResult.t)
| CallSegmentTargetPart (image_path : string) (strategy : InteractionStrategy.t).

(** The state of one run: the [ProcessingPipeline] object and the calls
    made so far. *)
Record run : Type := {
  tracker : ProcessingPipeline.t;
  calls : list call
}.

Definition update (st : run) (f : ProcessingPipeline.t -> ProcessingPipeline.t) : run :=
  {| tracker := f (tracker st); calls := calls st |}.

Definition record_call (st : run) (c : call) : run :=
  {| tracker := tracker st; calls := calls st ++ [c] |}.

Definition is_scene_call (c : call) : bool :=
  match c with CallAnalyzeScene _ => true | _ => false end.

(** Calls to the strategist (stage 2) and to the segmenter (stage 3). *)
Definition is_strategy_call (c : call) : bool :=
  match c with
  | CallAnalyzeUserIntent _ _ | CallCreateInteractionStrategy _ _ => true
  | _ => false
  end.

Definition is_segmentation_call (c : call) : bool :=
  match c with CallSegmentTargetPart _ _ => true | _ => false end.

(** [ProcessingPipeline(stage="初始化", completed_stages=[], current_data={})] *)
Definition initial_run : run :=
  {| tracker := {| ProcessingPipeline.stage := "初始化";
                   ProcessingPipeline.completed_stages := [];
                   ProcessingPipeline.current_data := [];
                   ProcessingPipeline.errors := [];
                   ProcessingPipeline.warnings := [] |};
     calls := [] |}.

(** [_validate_inputs] *)
Definition _validate_inputs {files : FileSystem} (image_path user_instruction : string) : bool :=
  if negb (path_exists image_path) then false
  else if negb (path_is_file image_path) then false
  else if negb (existsb (String.eqb (lstrip_dots (str_lower (path_suffix image_path))))
                        supported_formats) then false
  else if String.eqb user_instruction EmptyString
          || String.eqb (str_strip user_instruction) EmptyString then false
  else true.

(** [_stage_scene_analysis] *)
Definition _stage_scene_analysis {agents : Agents} (image_path : string) (st : run)
  : Exc SceneAnalysisResult.t * run :=
  let st := update st (fun p => ProcessingPipeline.set_stage p "场景分析") in
  let st := record_call st (CallAnalyzeScene image_path) in
  match agent_analyze_scene image_path with
  | Return scene_result =>
      let st := update st (fun p => ProcessingPipeline.append_completed p "场景分析") in
      let st := update st (fun p =>
                  ProcessingPipeline.set_data p "scene_result" (SceneData scene_result)) in
      (Return scene_result, st)
  | Raise e =>
      (Raise e,
       update st (fun p => ProcessingPipeline.append_error p ("场景分析失败: " ++ str_exn e)))
  end.

(** [_stage_strategy_planning] *)
Definition _stage_strategy_planning {agents : Agents} (user_instruction : string)
    (scene_result : SceneAnalysisResult.t) (st : run) : Exc InteractionStrategy.t * run :=
  let st := update st (fun p => ProcessingPipeline.set_stage p "策略规划") in
  let failed (e : exn) (st : run) : Exc InteractionStrategy.t * run :=
    (Raise e,
     update st (fun p => ProcessingPipeline.append_error p ("策略规划失败: " ++ str_exn e))) in
  let st := record_call st (CallAnalyzeUserIntent user_instruction scene_result) in
  match agent_analyze_user_intent user_instruction scene_result with
  | Raise e => failed e st
  | Return user_intent =>
      let st := record_call st (CallCreateInteractionStrategy user_intent scene_result) in
      match agent_create_interaction_strategy user_intent scene_result with
      | Raise e => failed e st
      | Return None => failed (Exception "无法制定有效的交互策略") st
      | Return (Some strategy) =>
          let st := update st (fun p => ProcessingPipeline.append_completed p "策略规划") in
          let st := update st (fun p =>
                      ProcessingPipeline.set_data p "user_intent" (IntentData user_intent)) in
          let st := update st (fun p =>
                      ProcessingPipeline.set_data p "strategy" (StrategyData strategy)) in
          (Return strategy, st)
      end
  end.

(** [_stage_precision_segmentation] *)
Definition _stage_precision_segmentation {agents : Agents} (image_path : string)
    (strategy : InteractionStrategy.t) (st : run) : Exc SegmentationResult.t * run :=
  let st := update st (fun p => ProcessingPipeline.set_stage p "精准分割") in
  let failed (e : exn) (st : run) : Exc SegmentationResult.t * run :=
    (Raise e,
     update st (fun p => ProcessingPipeline.append_error p ("精准分割失败: " ++ str_exn e))) in
  let st := record_call st (CallSegmentTargetPart image_path strategy) in
  match agent_segment_target_part image_path strategy with
  | Raise e => failed e st
  | Return segmentation_result =>
      if negb (SegmentationResult.success segmentation_result) then
        let text :=
          match SegmentationResult.error_message segmentation_result with
          | Some msg => if String.eqb msg EmptyString then "分割失败" else msg
          | None => "分割失败"
          end in
        failed (Exception text) st
      else
        let st := update st (fun p => ProcessingPipeline.append_completed p "精准分割") in
        let st := update st (fun p =>
                    ProcessingPipeline.set_data p "segmentation_result"
                      (SegmentationData segmentation_result)) in
        (Return segmentation_result, st)
  end.

(** The body of the [try] of [process]. *)
Definition process_body {agents : Agents} {files : FileSystem} (image_path user_instruction : string)
    (st : run) : Exc SegmentationResult.t * run :=
  if negb (_validate_inputs image_path user_instruction) then
    (Raise (Exception "输入验证失败"), st)
  else
    match _stage_scene_analysis image_path st with
    | (Raise e, st) => (Raise e, st)
    | (Return scene_result, st) =>
        match _stage_strategy_planning user_instruction scene_result st with
        | (Raise e, st) => (Raise e, st)
        | (Return strategy, st) => _stage_precision_segmentation image_path strategy st
        end
    end.

(** The [except] clause of [process]: the failure result is built around a
    placeholder strategy whose object is made with [bounding_box=None] and
    [category="未知"]. *)
Definition failure_result (image_path : string) (total_time : Q) (e : exn)
  : Exc SegmentationResult.t :=
  target_object <- DetectedObject.new "error" "错误" None "未知" 1 None ;;
  let target_part :=
    {| FunctionalPart.part_name := "错误";
       FunctionalPart.function := "错误";
       FunctionalPart.safety_score := 1;
       FunctionalPart.ergonomic_score := 1;
       FunctionalPart.grasp_priority := 1 |} in
  let dummy_strategy :=
    {| InteractionStrategy.target_object := target_object;
       InteractionStrategy.target_part := target_part;
       InteractionStrategy.strategy_reasoning := "处理失败";
       InteractionStrategy.safety_considerations := [];
       InteractionStrategy.execution_instructions := "无法执行" |} in
  Return {| SegmentationResult.image_path := image_path;
            SegmentationResult.mask :=
              {| SegmentationMask.mask_array := [];
                 SegmentationMask.width := 0;
                 SegmentationMask.height := 0;
                 SegmentationMask.target_object_id := "error";
                 SegmentationMask.target_part_name := "error";
                 SegmentationMask.mask_confidence := 1 |};
            SegmentationResult.strategy_used := dummy_strategy;
            SegmentationResult.processing_time := total_time;
            SegmentationResult.success := false;
            SegmentationResult.error_message := Some (str_exn e);
            SegmentationResult.output_mask_path := None |}.

(** [process(image_path, user_instruction)]: what the caller receives and
    the final state of the run; [total_time] is the elapsed time read in
    the [except] clause. *)
Definition process {agents : Agents} {files : FileSystem} (image_path user_instruction : string)
    (total_time : Q) : Exc SegmentationResult.t * run :=
  match process_body image_path user_instruction initial_run with
  | (Return segmentation_result, st) => (Return segmentation_result, st)
  | (Raise e, st) => (failure_result image_path total_time e, st)
  end.

End pipeline.

(** ** [src/agents/precision_segmenter.py] *)

(** [for x in l: f(x)] collecting the results; the first exception ends
    the loop. *)
Fixpoint traverse {A B : Type} (f : A -> Exc B) (l : list A) : Exc (list B) :=
  match l with
  | [] => Return []
  | x :: rest =>
      y <- f x ;;
      ys <- traverse f rest ;;
      Return (y :: ys)
  end.

(** Validation of a [List[List[int]]] field: a list of lists whose cells
    validate as [int]. *)
Definition validate_int_matrix {pydantic : Pydantic} (x : json) : Exc (list (list Z)) :=
  match x with
  | JArr rows =>
      traverse (fun row =>
                  match row with
                  | JArr cells => traverse validate_int cells
                  | _ => Raise (ValidationError "List[int]")
                  end) rows
  | _ => Raise (ValidationError "List[List[int]]")
  end.

(** What a [PrecisionSegmenter] calls besides the file system. *)
Class SegmenterTools : Type := {
  (** [vision_tool._run(operation="segment_part", image_path=..,
      target_object=.., target_part=..)] *)
  vision_tool_segment_part : string -> string -> string -> Exc json;
  (** [_save_segmentation_mask(image_path, mask)], which writes the mask to
      a file: every exception of its body is caught, and the path written or
      [None] is returned *)
  _save_segmentation_mask : string -> SegmentationMask.t -> option string
}.

Module PrecisionSegmenter.

(** [_validate_inputs]: the checks [not strategy.target_object] and
    [not strategy.target_part] never fail, a model object being true. *)
Definition _validate_inputs {files : FileSystem} (image_path : string)
    (strategy : InteractionStrategy.t) : bool :=
  if negb (path_exists image_path) then false
  else if String.eqb (FunctionalPart.part_name (InteractionStrategy.target_part strategy))
            EmptyString then false
  else true.

(** [_perform_segmentation]: an exception of the vision tool is answered
    with a dict. *)
Definition _perform_segmentation {segmenter_tools : SegmenterTools} (image_path : string)
    (strategy : InteractionStrategy.t) : json :=
  match vision_tool_segment_part image_path
          (DetectedObject.label (InteractionStrategy.target_object strategy))
          (FunctionalPart.part_name (InteractionStrategy.target_part strategy)) with
  | Return result => result
  | Raise e => JObj [("success", JBool false); ("error", JStr (str_exn e))]
  end.

(** The mask without pixels built for a strategy. *)
Definition empty_mask (strategy : InteractionStrategy.t) (mask_confidence : Q)
  : SegmentationMask.t :=
  {| SegmentationMask.mask_array := [];
     SegmentationMask.width := 0;
     SegmentationMask.height := 0;
     SegmentationMask.target_object_id :=
       DetectedObject.object_id (InteractionStrategy.target_object strategy);
     SegmentationMask.target_part_name :=
       FunctionalPart.part_name (InteractionStrategy.target_part strategy);
     SegmentationMask.mask_confidence := mask_confidence |}.

(** [_parse_segmentation_mask]: every exception is answered with the empty
    mask of confidence 0.0. *)
Definition _parse_segmentation_mask {pydantic : Pydantic} (segmentation_data : json)
    (strategy : InteractionStrategy.t) : SegmentationMask.t :=
  let body : Exc SegmentationMask.t :=
    mask_info <- py_get segmentation_data "mask" (JObj []) ;;
    v1 <- py_get mask_info "mask_array" (JArr []) ;;
    v2 <- py_get mask_info "width" (JInt 0) ;;
    v3 <- py_get mask_info "height" (JInt 0) ;;
    v4 <- py_get mask_info "mask_confidence" (JNum 1) ;;
    mask_array <- validate_int_matrix v1 ;;
    width <- validate_int v2 ;;
    height <- validate_int v3 ;;
    mask_confidence <- validate_float v4 ;;
    Return {| SegmentationMask.mask_array := mask_array;
              SegmentationMask.width := width;
              SegmentationMask.height := height;
              SegmentationMask.target_object_id :=
                DetectedObject.object_id (InteractionStrategy.target_object strategy);
              SegmentationMask.target_part_name :=
                FunctionalPart.part_name (InteractionStrategy.target_part strategy);
              SegmentationMask.mask_confidence := mask_confidence |} in
  match body with
  | Return mask => mask
  | Raise _ => empty_mask strategy 0
  end.

(** [segment_target_part(image_path, strategy)]; [processing_time] is the
    elapsed time read when the result is built.  The quality report made by
    [_validate_segmentation_quality] is only logged and is left out. *)
Definition segment_target_part {files : FileSystem} {segmenter_tools : SegmenterTools}
    {pydantic : Pydantic} (image_path : string) (strategy : InteractionStrategy.t)
    (processing_time : Q) : SegmentationResult.t :=
  let body : Exc SegmentationResult.t :=
    if negb (_validate_inputs image_path strategy) then Raise (Exception "输入验证失败")
    else
      let segmentation_data := _perform_segmentation image_path strategy in
      ok <- py_get segmentation_data "success" (JBool false) ;;
      if negb (truthy ok) then
        error_msg <- py_get segmentation_data "error" (JStr "分割失败") ;;
        Raise (Exception (py_str error_msg))
      else
        let mask := _parse_segmentation_mask segmentation_data strategy in
        let output_path := _save_segmentation_mask image_path mask in
        Return {| SegmentationResult.image_path := image_path;
                  SegmentationResult.mask := mask;
                  SegmentationResult.strategy_used := strategy;
                  SegmentationResult.processing_time := processing_time;
                  SegmentationResult.success := true;
                  SegmentationResult.error_message := None;
                  SegmentationResult.output_mask_path := output_path |} in
  match body with
  | Return result => result
  | Raise e =>
      {| SegmentationResult.image_path := image_path;
         SegmentationResult.mask := empty_mask strategy 1;
         SegmentationResult.strategy_used := strategy;
         SegmentationResult.processing_time := processing_time;
         SegmentationResult.success := false;
         SegmentationResult.error_message := Some (str_exn e);
         SegmentationResult.output_mask_path := None |}
  end.

End PrecisionSegmenter.

(** The segmenter of the repository, as the pipeline calls it. *)
Definition repository_segmenter {files : FileSystem} {segmenter_tools : SegmenterTools}
    {pydantic : Pydantic} (processing_time : Q) : Segmenter :=
  {| segment_target_part := fun image_path strategy =>
       Return (PrecisionSegmenter.segment_target_part image_path strategy processing_time) |}.

(** ** [Utiles/ResultSaver.py] *)

(** [int(s)] on a string: the value, or the exception raised. *)
Class IntBuiltin : Type := {
  int_of_str : string -> Exc Z
}.

(** A reference [int]: decimal digits with an optional sign, between
    blanks. *)
Definition reference_int_of_str (s : string) : Exc Z :=
  let body := str_strip s in
  let '(sign, digits) :=
    match body with
    | String "-" r => ((-1)%Z, r)
    | String "+" r => (1, r)
    | _ => (1, body)
    end in
  match NilZero.uint_of_string digits with
  | Some d => Return (sign * Z.of_uint d)
  | None => Raise (ValueError ("invalid literal for int() with base 10: " ++ s))
  end.

Definition reference_int : IntBuiltin := {| int_of_str := reference_int_of_str |}.

Fixpoint zeros (n : nat) : string :=
  match n with
  | O => EmptyString
  | S k => String "0" (zeros k)
  end.

(** [f"{n:03d}"]: the decimal digits, padded with zeros to three
    characters, the sign included. *)
Definition format_03d (n : Z) : string :=
  let digits := str_of_Z (Z.abs n) in
  if n <? 0 then "-" ++ zeros (2 - String.length digits) ++ digits
  else zeros (3 - String.length digits) ++ digits.

Module ResultSaver.

(** The output directory as the methods see it: [None] when the path does
    not exist, else (the path then naming a directory) its entries in the
    order of [os.listdir], each with the answer of [os.path.isdir]. *)
Definition directory : Type := option (list (string * bool)).

(** [item.replace("Run", "")] *)
Fixpoint remove_Run (item : string) : string :=
  match item with
  | EmptyString => EmptyString
  | String c rest =>
      match rest with
      | String c2 (String c3 rest') =>
          if Ascii.eqb c "R" && Ascii.eqb c2 "u" && Ascii.eqb c3 "n" then remove_Run rest'
          else String c (remove_Run rest)
      | _ => String c (remove_Run rest)
      end
  end.

(** The loop of [get_next_run_number] over the entries. *)
Fixpoint largest_run {int_builtin : IntBuiltin} (entries : list (string * bool)) (max_num : Z)
  : Exc Z :=
  match entries with
  | [] => Return max_num
  | (item, is_dir) :: rest =>
      if endswith item "Run" && is_dir then
        match int_of_str (remove_Run item) with
        | Return num => largest_run rest (Z.max max_num num)
        | Raise (ValueError _) => largest_run rest max_num
        | Raise e => Raise e
        end
      else largest_run rest max_num
  end.

(** [get_next_run_number(self)]: the number and the directory afterwards
    (a missing directory is created). *)
Definition get_next_run_number {int_builtin : IntBuiltin} (output : directory)
  : Exc Z * directory :=
  match output with
  | None => (Return 0, Some [])
  | Some entries =>
      (max_num <- largest_run entries (-1) ;; Return (max_num + 1), output)
  end.

(** The name of the directory of a run, [f"{run_number:03d}Run"]. *)
Definition run_name (run_number : Z) : string := format_03d run_number ++ "Run".

(** [os.path.join(a, b)] on a POSIX system. *)
Definition os_path_join (a b : string) : string :=
  if startswith b "/" then b
  else if String.eqb a EmptyString || endswith a "/" then a ++ b
  else a ++ "/" ++ b.

(** [create_run_directory(self, run_number)]: the path returned and the
    output directory afterwards.  [os.makedirs(run_dir, exist_ok=True)]
    leaves a directory of that name as it is; a plain file of that name makes
    it raise ([FileExistsError], given here as an [Exception]). *)
Definition create_run_directory (output_base_dir : string) (output : directory)
    (run_number : Z) : Exc string * directory :=
  let name := run_name run_number in
  let run_dir := os_path_join output_base_dir name in
  match output with
  | None => (Return run_dir, Some [(name, true)])
  | Some entries =>
      match find (fun entry => String.eqb (fst entry) name) entries with
      | Some (_, true) => (Return run_dir, output)
      | Some (_, false) => (Raise (Exception ("File exists: " ++ run_dir)), output)
      | None => (Return run_dir, Some (entries ++ [(name, true)])%list)
      end
  end.

End ResultSaver.

(** ** Test doubles used to run the definitions *)

(** Every path names an existing [.jpg] file. *)
Definition accepting_files : FileSystem :=
  {| path_exists := fun _ => true;
     path_is_file := fun _ => true;
     path_suffix := fun _ => ".jpg";
     supported_formats := ["jpg"; "jpeg"; "png"; "bmp"] |}.



(** A readable image in which the vision tool detects nothing. *)
Definition empty_scene_tools : SceneTools :=
  {| ndarray := unit;
     load_image := fun _ => Return (Some tt);
     validate_image_quality := fun _ => Return (JObj [("is_good_quality", JBool true)]);
     vision_tool_run := fun _ _ =>
       Return (JObj [("objects", JArr []); ("total_objects", JInt 0); ("success", JBool true)]);
     now_isoformat := "2025-01-01T00:00:00" |}.

(** An image that cannot be loaded. *)
Definition unreadable_tools : SceneTools :=
  {| ndarray := unit;
     load_image := fun _ => Return None;
     validate_image_quality := fun _ => Return (JObj []);
     vision_tool_run := fun _ path => Return (JObj [("error", JStr ("无法加载图像: " ++ path))]);
     now_isoformat := "2025-01-01T00:00:00" |}.

Definition offline_model : LanguageModel :=
  {| analyze_image := fun _ _ _ => Raise (Exception "offline") |}.

Definition offline_segmenter : Segmenter :=
  {| segment_target_part := fun _ _ => Raise (Exception "offline") |}.

(** ** Notions used to state the properties *)




(** The stage names the pipeline writes into [errors]. *)
Definition stage_names : list string := ["场景分析"; "策略规划"; "精准分割"].

(** A box of four numbers, as the JSON list the code receives. *)
Definition box : Type := (Q * Q * Q * Q)%type.

Definition box_json (b : box) : json :=
  let '(x1, y1, x2, y2) := b in JArr [JNum x1; JNum y1; JNum x2; JNum y2].






(** A disk on which every path holds the same RGB image of the given
    size. *)
Definition stored_image (width height : Z) : Pillow :=
  {| Image := Z * Z * string;
     image_size := fun im => fst im;
     image_mode := fun im => snd im;
     image_resize := fun im wh =>
       if (0 <? fst wh) && (0 <? snd wh) then Return (wh, snd im)
       else Raise (ValueError "height and width must be > 0");
     image_convert_rgb := fun im => (fst im, "RGB");
     image_on_white := fun im => (fst im, "RGB");
     image_jpeg := fun _ _ => EmptyString;
     image_open := fun _ => Return ((width, height), "RGB");
     os_path_exists := fun _ => true |}.

(** A region as the segmentation agent is asked to answer it. *)
Definition region (x1 y1 x2 y2 : Z) (label : string) : json :=
  JObj [("bbox_2d", JArr [JInt x1; JInt y1; JInt x2; JInt y2]); ("label", JStr label)].

(** The agent after [set_image] with a URL: nothing is preprocessed, so no
    scale information is stored. *)
Definition url_agent : PreciseSegmentationAgent.t :=
  snd (PreciseSegmentationAgent.set_image (pillow := plain_images)
         (PreciseSegmentationAgent.__init__ "object: Mug, part: Handle")
         "https://example.org/scene.jpg").


(** The preprocessor after resizing an image of 1600 by 1200 pixels. *)
Definition preprocessor_1600_1200 : ImagePreprocessor.t :=
  snd (ImagePreprocessor.resize_image (pillow := plain_images)
         ImagePreprocessor.__init__ ((1600, 1200), "RGB") ImagePreprocessor.MAX_SIZE).

(** The scene in which nothing is detected. *)
Definition empty_scene : SceneAnalysisResult.t :=
  SceneAnalysisResult.new "scene.jpg" [] "2025-01-01T00:00:00".

(** A response whose box has its x coordinates out of order. *)
Definition swapped_text : string :=
  dq "[{'bbox_2d': [300, 50, 100, 200], 'label': 'handle'}]".



(** What a converted result shares with the result it was made from: a dict
    keeps every entry but [bbox_2d], any other value is kept as it is. *)
Definition same_but_box (result converted : json) : Prop :=
  match result with
  | JObj d =>
      exists d' : dict,
        converted = JObj d'
        /\ forall key : string, key <> "bbox_2d" -> dict_get d' key = dict_get d key
  | _ => converted = result
  end.

(** The agent with a local image set, before and after [ask_about_image],
    for a stored image of 1600 by 1200 pixels. *)
Definition fresh_agent : PreciseSegmentationAgent.t :=
  snd (PreciseSegmentationAgent.set_image (pillow := stored_image 1600 1200)
         (PreciseSegmentationAgent.__init__ "object: Mug, part: Handle") "scene.jpg").

Definition scaled_agent : PreciseSegmentationAgent.t :=
  snd (PreciseSegmentationAgent.ask_about_image
         (pillow := stored_image 1600 1200) (service := canned_service EmptyString)
         fresh_agent).






(** A response with a region whose box is out of order, a region whose box
    has three coordinates and a third region. *)
Definition three_regions_text : string :=
  dq "[{'bbox_2d': [300, 50, 100, 200], 'label': 'handle'}, {'bbox_2d': [1, 2, 3], 'label': 'rim'}, {'bbox_2d': [10, 20, 30, 40], 'label': 'body'}]".

(** What the loop of [analyze_scene] keeps of one [obj_data]: the parsed
    object, or nothing. *)
Definition parsed_object {pydantic : Pydantic} (obj_data : json) : list DetectedObject.t :=
  match SceneAnalyst.parse_object obj_data with
  | Return detected_obj => [detected_obj]
  | Raise _ => []
  end.

(** A detected mug, a record without bounding box and a pair of scissors,
    as the vision tool lists objects. *)
Definition mug_data : json :=
  JObj [("object_id", JStr "obj_1"); ("label", JStr "马克杯"); ("category", JStr "杯子");
        ("bounding_box",
         JObj [("x1", JInt 120); ("y1", JInt 80); ("x2", JInt 360); ("y2", JInt 400);
               ("confidence", JNum (9 # 10))]);
        ("confidence", JNum (8 # 10)); ("description", JStr "白色马克杯")].

Definition broken_data : json :=
  JObj [("object_id", JStr "obj_2"); ("label", JStr "盘子"); ("category", JStr "盘子")].

Definition scissors_data : json :=
  JObj [("object_id", JStr "obj_3"); ("label", JStr "剪刀"); ("category", JStr "剪刀");
        ("bounding_box",
         JObj [("x1", JInt 400); ("y1", JInt 100); ("x2", JInt 600); ("y2", JInt 220)]);
        ("confidence", JNum (95 # 100))].

Definition mug : DetectedObject.t :=
  {| DetectedObject.object_id := "obj_1";
     DetectedObject.label := "马克杯";
     DetectedObject.category := CUP;
     DetectedObject.bounding_box :=
       {| BoundingBox.x1 := 120; BoundingBox.y1 := 80; BoundingBox.x2 := 360;
          BoundingBox.y2 := 400; BoundingBox.confidence := 9 # 10 |};
     DetectedObject.confidence := 8 # 10;
     DetectedObject.description := Some "白色马克杯" |}.

Definition scissors : DetectedObject.t :=
  {| DetectedObject.object_id := "obj_3";
     DetectedObject.label := "剪刀";
     DetectedObject.category := SCISSORS;
     DetectedObject.bounding_box :=
       {| BoundingBox.x1 := 400; BoundingBox.y1 := 100; BoundingBox.x2 := 600;
          BoundingBox.y2 := 220; BoundingBox.confidence := 1 |};
     DetectedObject.confidence := 95 # 100;
     DetectedObject.description := None |}.

(** A readable image of a table with the three records above. *)
Definition table_tools : SceneTools :=
  {| ndarray := unit;
     load_image := fun _ => Return (Some tt);
     validate_image_quality := fun _ => Return (JObj [("is_good_quality", JBool true)]);
     vision_tool_run := fun _ _ =>
       Return (JObj [("objects", JArr [mug_data; broken_data; scissors_data]);
                     ("total_objects", JInt 3); ("success", JBool true)]);
     now_isoformat := "2025-01-01T00:00:00" |}.

(** The scene of the table. *)
Definition table_scene : SceneAnalysisResult.t :=
  SceneAnalysisResult.new "scene.jpg" [mug; scissors] "2025-01-01T00:00:00".

(** An intent that names the mug, and one for drinking that names no
    object. *)
Definition naming_intent : UserIntent.t :=
  {| UserIntent.raw_instruction := "把它递给我";
     UserIntent.intent_type := "剪切";
     UserIntent.target_object_id := Some "obj_1";
     UserIntent.priority_level := 1;
     UserIntent.safety_requirements := [] |}.

Definition drinking_intent : UserIntent.t :=
  {| UserIntent.raw_instruction := "我想喝水";
     UserIntent.intent_type := "饮水";
     UserIntent.target_object_id := None;
     UserIntent.priority_level := 1;
     UserIntent.safety_requirements := [] |}.

(** [mask.dict()], as the vision tool puts a mask into its answer. *)
Definition mask_dict (mask : SegmentationMask.t) : json :=
  JObj [("mask_array",
         JArr (map (fun row => JArr (map JInt row)) (SegmentationMask.mask_array mask)));
        ("width", JInt (SegmentationMask.width mask));
        ("height", JInt (SegmentationMask.height mask));
        ("target_object_id", JStr (SegmentationMask.target_object_id mask));
        ("target_part_name", JStr (SegmentationMask.target_part_name mask));
        ("mask_confidence", JNum (SegmentationMask.mask_confidence mask))].

(** The strategy the repository's strategist makes for the table. *)
Definition scissors_strategy : InteractionStrategy.t :=
  let user_intent := InteractionStrategist.fallback_intent "我想喝水" "未知意图" in
  let target_part :=
    InteractionStrategist.part "握柄" "手指插入的环形把手，提供安全抓握" (9 # 10) (95 # 100) 1 in
  {| InteractionStrategy.target_object := scissors;
     InteractionStrategy.target_part := target_part;
     InteractionStrategy.strategy_reasoning :=
       InteractionStrategist._generate_strategy_reasoning (builtins := reference_builtins)
         user_intent scissors target_part;
     InteractionStrategy.safety_considerations :=
       InteractionStrategist._generate_safety_considerations scissors target_part;
     InteractionStrategy.execution_instructions :=
       InteractionStrategist._generate_execution_instructions scissors target_part |}.

(** A mask of two rows. *)
Definition handle_mask : SegmentationMask.t :=
  {| SegmentationMask.mask_array := [[0; 1; 1]; [0; 0; 1]];
     SegmentationMask.width := 3;
     SegmentationMask.height := 2;
     SegmentationMask.target_object_id := "seg_剪刀";
     SegmentationMask.target_part_name := "握柄";
     SegmentationMask.mask_confidence := 9 # 10 |}.

(** The answer of a vision tool with the mask above. *)
Definition mask_answer : dict :=
  [("mask", mask_dict handle_mask); ("reasoning", JStr ""); ("success", JBool true)].

(** A vision tool that answers every request with this answer, and one
    that cannot reach the model. *)
Definition masking_tools : SegmenterTools :=
  {| vision_tool_segment_part := fun _ _ _ => Return (JObj mask_answer);
     _save_segmentation_mask := fun _ _ => Some "output_masks/scene_mask.png" |}.

Definition failing_tools : SegmenterTools :=
  {| vision_tool_segment_part := fun _ _ _ => Raise (Exception "connection refused");
     _save_segmentation_mask := fun _ _ => None |}.

(** The agents of the repository at the table, with either tool. *)
Definition table_agents (segmenter_tools : SegmenterTools) : Agents :=
  @repository_agents table_tools offline_model reference_json strict_pydantic
    reference_builtins
    (@repository_segmenter accepting_files segmenter_tools strict_pydantic 0).

(** What the segmenter answers for the strategy of the table. *)
Definition table_segmentation (segmenter_tools : SegmenterTools) : SegmentationResult.t :=
  PrecisionSegmenter.segment_target_part (files := accepting_files)
    (segmenter_tools := segmenter_tools) (pydantic := strict_pydantic)
    "scene.jpg" scissors_strategy 0.

(** A text without the letter [R]. *)
Fixpoint no_R (s : string) : bool :=
  match s with
  | EmptyString => true
  | String c r => negb (Ascii.eqb c "R") && no_R r
  end.

(** An entry of the output directory that counts as the directory of the
    run [num]. *)
Definition run_number_of {int_builtin : IntBuiltin} (entry : string * bool) (num : Z) : Prop :=
  endswith (fst entry) "Run" = true /\ snd entry = true
  /\ int_of_str (ResultSaver.remove_Run (fst entry)) = Return num.

(** An output directory after some runs. *)
Definition output_entries : list (string * bool) :=
  [("000Run", true); ("notes.txt", false); ("007Run", true); ("009Run", false);
   ("draftRun", true)].

(** * Properties *)

(** ** Numbers *)

Lemma py_truediv_nonzero (a b : Q) :
  ~ (b == 0)%Q -> py_truediv a b = Return (Qred (a / b)).
Proof.
  intros Hb. unfold py_truediv.
  destruct (Qeq_bool b 0) eqn:E; [|reflexivity].
  apply Qeq_bool_iff in E. contradiction.
Qed.






Lemma inject_Z_pos (z : Z) : 0 < z -> (0 < inject_Z z)%Q.
Proof. intros H. unfold Qlt; simpl. lia. Qed.




(** The end-to-end example: the box maps to (156.25, 156.25, 312.5, 312.5). *)
Example end_to_end_example :
  ImagePreprocessor.convert_coordinates_to_original preprocessor_1600_1200
    (box_json (100, 100, 200, 200)%Q)
  = Return (box_json (625 # 4, 625 # 4, 625 # 2, 625 # 2)%Q).
Proof. vm_compute. reflexivity. Qed.

(** ** Resizing *)

Lemma inject_Z_nonzero (z : Z) : 0 < z -> ~ (inject_Z z == 0)%Q.
Proof. intros H E. pose proof (inject_Z_pos H). lra. Qed.

Lemma Qfloor_quotient (a b : Z) :
  0 < b -> Qfloor (inject_Z a / inject_Z b) = a / b.
Proof.
  intros Hb. destruct b as [|p|p]; try lia.
  unfold Qdiv, Qinv, Qmult, inject_Z, Qfloor. cbn [Qnum Qden].
  rewrite Z.mul_1_r. reflexivity.
Qed.

(** [int(a / b)] for a non-negative [a] and a positive [b] is the floor
    division. *)
Lemma py_int_quotient (a b : Z) :
  0 <= a -> 0 < b -> py_int (Qred (inject_Z a / inject_Z b)) = a / b.
Proof.
  intros Ha Hb. unfold py_int.
  assert (Hq : (0 <= Qred (inject_Z a / inject_Z b))%Q).
  { rewrite Qred_correct. apply Qle_shift_div_l; [apply inject_Z_pos; exact Hb|].
    rewrite Qmult_0_l. change 0%Q with (inject_Z 0). rewrite <- Zle_Qle. exact Ha. }
  apply Qle_bool_iff in Hq. rewrite Hq.
  rewrite (Qfloor_comp _ _ (Qred_correct _)). apply Qfloor_quotient; exact Hb.
Qed.

Section Resize.
Context {pillow : Pillow}.

(** Claim C2.  When both dimensions of the image are at most [max_size],
    [resize_image] returns the image itself and records the original size,
    a processed size equal to it and the scale factor 1.0. *)
Theorem C2_within_bound_resize_is_noop
    (self : ImagePreprocessor.t) (image : Image) (max_size width height : Z) :
  image_size image = (width, height) ->
  width <= max_size -> height <= max_size ->
  ImagePreprocessor.resize_image self image max_size
  = (Return image,
     {| ImagePreprocessor.original_size := Some (width, height);
        ImagePreprocessor.processed_size := Some (width, height);
        ImagePreprocessor.scale_factor := Some 1%Q |}).
Proof.
  intros Hsize Hw Hh. unfold ImagePreprocessor.resize_image. rewrite Hsize.
  apply Z.leb_le in Hw, Hh. rewrite Hw, Hh. reflexivity.
Qed.


End Resize.

(** Claim C2 at an image of 800 by 600 pixels and the bound 1024. *)
Lemma C2_witness :
  image_size (Pillow := plain_images) ((800, 600), "RGB") = (800, 600)
  /\ 800 <= 1024 /\ 600 <= 1024
  /\ ImagePreprocessor.resize_image (pillow := plain_images)
       ImagePreprocessor.__init__ ((800, 600), "RGB") 1024
     = (Return ((800, 600), "RGB"),
        {| ImagePreprocessor.original_size := Some (800, 600);
           ImagePreprocessor.processed_size := Some (800, 600);
           ImagePreprocessor.scale_factor := Some 1%Q |}).
Proof.
  repeat (split; [first [reflexivity | discriminate]|]).
  apply (@C2_within_bound_resize_is_noop plain_images ImagePreprocessor.__init__
           ((800, 600), "RGB") 1024 800 600);
    first [reflexivity | discriminate].
Defined.



(** ** Truncation *)


Lemma py_int_mono (q r : Q) : (q <= r)%Q -> py_int q <= py_int r.
Proof.
  intros H. unfold py_int.
  destruct (Qle_bool 0 q) eqn:Hq; destruct (Qle_bool 0 r) eqn:Hr.
  - apply Qfloor_resp_le; exact H.
  - apply Qle_bool_iff in Hq.
    assert (Hr' : ~ (0 <= r)%Q) by (intros C; apply Qle_bool_iff in C; congruence).
    exfalso; apply Hr'. lra.
  - assert (Hq' : ~ (0 <= q)%Q) by (intros C; apply Qle_bool_iff in C; congruence).
    apply Qle_bool_iff in Hr.
    apply Z.le_trans with 0.
    + rewrite <- (Qceiling_Z 0). apply Qceiling_resp_le. change (inject_Z 0) with 0%Q. lra.
    + rewrite <- (Qfloor_Z 0). apply Qfloor_resp_le. exact Hr.
  - apply Qceiling_resp_le; exact H.
Qed.

(** ** Dictionaries *)

Lemma dict_get_set_same (d : dict) (k : string) (v : json) :
  dict_get (dict_set d k v) k = Some v.
Proof.
  induction d as [|[k' v'] rest IH]; cbn.
  - rewrite String.eqb_refl. reflexivity.
  - destruct (String.eqb k' k) eqn:E; cbn.
    + rewrite String.eqb_refl. reflexivity.
    + rewrite E. exact IH.
Qed.

Section Parsing.
Context {jm : JsonModule} {bi : Builtins}.

Import PreciseSegmentationTest.



(** Claim C4, amended.  For a text that [json.loads] rejects after the
    fence has been removed, no exception reaches the caller:
    [sentence_to_dict] returns the empty dict, and
    [ask_about_image_with_coordinate_conversion] returns the raw text of the
    model unchanged. *)
Theorem C4_unparseable_text_is_answered_with_defaults
    (pillow : Pillow) (service : ChatService)
    (raw_text : string) (self self' : PreciseSegmentationAgent.t) :
  json_loads (clean_markdown raw_text) = None ->
  PreciseSegmentationAgent.ask_about_image self = (Return raw_text, self') ->
  sentence_to_dict raw_text = JObj []
  /\ PreciseSegmentationAgent.ask_about_image_with_coordinate_conversion self
     = (Return raw_text, self').
Proof.
  intros Hloads Hask. split.
  - unfold sentence_to_dict, clean_json_from_markdown. rewrite Hloads.
    destruct (String.eqb (str_strip raw_text) EmptyString); reflexivity.
  - unfold PreciseSegmentationAgent.ask_about_image_with_coordinate_conversion.
    rewrite Hask. unfold PreciseSegmentationAgent._clean_json_from_markdown.
    rewrite Hloads. reflexivity.
Qed.


End Parsing.

(** Claim C8, amended.  Without a scale record
    [ImagePreprocessor.convert_coordinates_to_original] raises [ValueError]
    and returns no coordinates; the method of the same name of
    [PreciseSegmentationAgent], when the agent holds no scale information,
    returns the results it was given. *)
Theorem C8_without_scale_record
    (self : ImagePreprocessor.t) (bbox : json)
    (agent : PreciseSegmentationAgent.t) (segmentation_results : list json) :
  ImagePreprocessor.scale_factor self = None \/ ImagePreprocessor.original_size self = None ->
  PreciseSegmentationAgent.scale_info agent = None ->
  ImagePreprocessor.convert_coordinates_to_original self bbox
  = Raise (ValueError "缩放信息不可用，请先调用preprocess_image方法")
  /\ PreciseSegmentationAgent.convert_coordinates_to_original agent segmentation_results
     = Return segmentation_results.
Proof.
  intros Hnone Hinfo. split.
  - unfold ImagePreprocessor.convert_coordinates_to_original.
    destruct Hnone as [H | H]; rewrite H.
    + reflexivity.
    + destruct (ImagePreprocessor.scale_factor self); reflexivity.
  - unfold PreciseSegmentationAgent.convert_coordinates_to_original. rewrite Hinfo. reflexivity.
Qed.

(** Claim C4 as stated fails: on the text [not json at all]
    [sentence_to_dict] returns the empty dict and the agent returns the text,
    where the claim demands an exception and no default. *)
Lemma C4_counterexample :
  PreciseSegmentationTest.sentence_to_dict
    (json_module := reference_json) (builtins := reference_builtins) "not json at all"
  = JObj []
  /\ fst (PreciseSegmentationAgent.ask_about_image_with_coordinate_conversion
            (pillow := plain_images) (service := canned_service "not json at all")
            (json_module := reference_json) url_agent)
     = Return "not json at all".
Proof. split; vm_compute; reflexivity. Qed.

(** Claim C4, amended, at the text [not json at all]. *)
Lemma C4_witness :
  json_loads (JsonModule := reference_json) (clean_markdown "not json at all") = None
  /\ PreciseSegmentationAgent.ask_about_image
       (pillow := plain_images) (service := canned_service "not json at all") url_agent
     = (Return "not json at all", url_agent)
  /\ PreciseSegmentationTest.sentence_to_dict
       (json_module := reference_json) (builtins := reference_builtins) "not json at all"
     = JObj []
  /\ PreciseSegmentationAgent.ask_about_image_with_coordinate_conversion
       (pillow := plain_images) (service := canned_service "not json at all")
       (json_module := reference_json) url_agent
     = (Return "not json at all", url_agent).
Proof.
  split; [vm_compute; reflexivity|]. split; [vm_compute; reflexivity|].
  apply (@C4_unparseable_text_is_answered_with_defaults reference_json reference_builtins
           plain_images (canned_service "not json at all") "not json at all"
           url_agent url_agent);
    vm_compute; reflexivity.
Defined.



(** The example of the specification, from the raw text. *)
Example swap_example :
  PreciseSegmentationTest.sentence_to_dict
    (json_module := reference_json) (builtins := reference_builtins) swapped_text
  = JObj [("segmentation_results", JArr [region 100 50 300 200 "handle"])].
Proof. vm_compute. reflexivity. Qed.

(** Claim C8 as stated fails: the agent, which holds no scale information
    after [set_image] with a URL, returns the box unscaled. *)
Lemma C8_counterexample :
  PreciseSegmentationAgent.scale_info url_agent = None
  /\ PreciseSegmentationAgent.convert_coordinates_to_original url_agent
       [region 100 100 200 200 "handle"]
     = Return [region 100 100 200 200 "handle"].
Proof. split; vm_compute; reflexivity. Qed.

(** Claim C8, amended, at a fresh preprocessor and the agent set to a URL. *)
Lemma C8_witness :
  (ImagePreprocessor.scale_factor ImagePreprocessor.__init__ = None
   \/ ImagePreprocessor.original_size ImagePreprocessor.__init__ = None)
  /\ PreciseSegmentationAgent.scale_info url_agent = None
  /\ ImagePreprocessor.convert_coordinates_to_original ImagePreprocessor.__init__
       (box_json (100, 100, 200, 200)%Q)
     = Raise (ValueError "缩放信息不可用，请先调用preprocess_image方法")
  /\ PreciseSegmentationAgent.convert_coordinates_to_original url_agent
       [region 100 100 200 200 "handle"]
     = Return [region 100 100 200 200 "handle"].
Proof.
  split; [left; reflexivity|]. split; [reflexivity|].
  apply (@C8_without_scale_record ImagePreprocessor.__init__
           (box_json (100, 100, 200, 200)%Q) url_agent [region 100 100 200 200 "handle"]);
    [left; reflexivity | reflexivity].
Defined.

(** ** The stages *)

Section Stages.
Context {agents : Agents} {fs : FileSystem}.

Import pipeline.





End Stages.

(** The placeholder object of the failure handler does not validate. *)
Lemma failure_result_raises (image_path : string) (total_time : Q) (e : exn) :
  pipeline.failure_result image_path total_time e = Raise (ValidationError "DetectedObject").
Proof. reflexivity. Qed.

(** ** The repository's agents *)

Section Repository.
Context {tools : SceneTools} {pyd : Pydantic} {lm : LanguageModel} {jm : JsonModule}
        {bi : Builtins} {seg : Segmenter} {fs : FileSystem}.

Import pipeline.

Lemma select_target_object_empty (user_intent : UserIntent.t)
    (scene_result : SceneAnalysisResult.t) :
  SceneAnalysisResult.objects scene_result = [] ->
  InteractionStrategist._select_target_object user_intent scene_result = None.
Proof.
  intros Hempty. unfold InteractionStrategist._select_target_object. rewrite Hempty.
  assert (Hcat : forall cs, InteractionStrategist.first_of_categories cs [] = None).
  { induction cs as [|c cs IH]; [reflexivity | exact IH]. }
  rewrite Hcat.
  destruct (UserIntent.target_object_id user_intent) as [id|]; [|reflexivity].
  destruct (String.eqb id EmptyString); reflexivity.
Qed.

(** Claim C6.  In a run of the repository's agents whose scene analysis
    returns no object, the scene analysis is recorded as completed, the
    empty scene is the one handed to both calls of the strategist,
    [_select_target_object] finds no candidate, and the run fails in the
    strategy stage: the single error names that stage with the cause raised
    when no strategy can be made; the segmenter is not invoked. *)
Theorem C6_empty_scene_is_passed_to_the_strategist
    (image_path user_instruction : string) (total_time : Q)
    (scene_result : SceneAnalysisResult.t) :
  _validate_inputs image_path user_instruction = true ->
  SceneAnalyst.analyze_scene image_path = Return scene_result ->
  SceneAnalysisResult.objects scene_result = [] ->
  let st := snd (process (agents := repository_agents) image_path user_instruction total_time) in
  let user_intent := InteractionStrategist.analyze_user_intent user_instruction scene_result in
  ProcessingPipeline.completed_stages (tracker st) = ["场景分析"]
  /\ calls st = [CallAnalyzeScene image_path;
                 CallAnalyzeUserIntent user_instruction scene_result;
                 CallCreateInteractionStrategy user_intent scene_result]
  /\ InteractionStrategist._select_target_object user_intent scene_result = None
  /\ ProcessingPipeline.errors (tracker st) = ["策略规划失败: 无法制定有效的交互策略"]
  /\ existsb is_segmentation_call (calls st) = false.
Proof.
  intros Hvalid Hscene Hempty.
  assert (Hnone : forall i, InteractionStrategist.create_interaction_strategy i scene_result
                            = None).
  { intros i. unfold InteractionStrategist.create_interaction_strategy.
    rewrite (select_target_object_empty i _ Hempty). reflexivity. }
  unfold process, process_body, _stage_scene_analysis, _stage_strategy_planning.
  rewrite Hvalid. cbn [negb agent_analyze_scene agent_analyze_user_intent
                        agent_create_interaction_strategy repository_agents].
  rewrite Hscene, Hnone. cbn.
  repeat split. apply select_target_object_empty; exact Hempty.
Qed.

Lemma analyze_scene_total (image_path : string) :
  exists r, SceneAnalyst.analyze_scene image_path = Return r.
Proof.
  unfold SceneAnalyst.analyze_scene, try_except.
  destruct (SceneAnalyst.analyze_scene_body image_path); eexists; reflexivity.
Qed.

Lemma analyze_scene_body_result (image_path : string) (r : SceneAnalysisResult.t) :
  SceneAnalyst.analyze_scene_body image_path = Return r ->
  r = SceneAnalysisResult.new image_path (SceneAnalysisResult.objects r) now_isoformat.
Proof.
  unfold SceneAnalyst.analyze_scene_body. intros H.
  destruct (load_image image_path) as [[img|]|]; cbn [bind] in H; try discriminate.
  destruct (validate_image_quality img) as [q|]; cbn [bind] in H; try discriminate.
  destruct (py_get q "is_good_quality" (JBool false)); cbn [bind] in H; try discriminate.
  destruct (vision_tool_run "detect_objects" image_path) as [d|]; cbn [bind] in H;
    try discriminate.
  destruct (py_get d "success" (JBool false)) as [ok|]; cbn [bind] in H; try discriminate.
  destruct (negb (truthy ok)).
  - destruct (py_get d "error" (JStr "检测失败")); cbn [bind] in H; discriminate.
  - destruct (py_get d "objects" (JArr [])) as [listed|]; cbn [bind] in H; try discriminate.
    destruct (py_iter listed); cbn [bind] in H; try discriminate.
    injection H as <-. reflexivity.
Qed.

End Repository.

Section SceneFailure.
Context {tools : SceneTools} {pyd : Pydantic} {lm : LanguageModel} {jm : JsonModule}
        {bi : Builtins} {seg : Segmenter} {fs : FileSystem}.

Import pipeline.

(** Claim C10.  [analyze_scene] returns for every image path; when its body
    raises, it returns the result with no objects; the scene stage of the
    pipeline then returns this result, records itself as completed and adds
    no error; and the whole run equals the run in which the analysis of the
    same image succeeds with zero objects at the same clock reading. *)
Theorem C10_failed_scene_analysis_looks_like_an_empty_scene
    (image_path : string) (cause : exn) :
  SceneAnalyst.analyze_scene_body image_path = Raise cause ->
  SceneAnalyst.analyze_scene image_path = Return (SceneAnalyst.empty_result image_path)
  /\ SceneAnalysisResult.objects (SceneAnalyst.empty_result image_path) = []
  /\ (forall p : string, exists r, SceneAnalyst.analyze_scene p = Return r)
  /\ (forall st : run,
        exists st' : run,
          _stage_scene_analysis (agents := repository_agents) image_path st
          = (Return (SceneAnalyst.empty_result image_path), st')
          /\ ProcessingPipeline.completed_stages (tracker st')
             = (ProcessingPipeline.completed_stages (tracker st) ++ ["场景分析"])%list
          /\ ProcessingPipeline.errors (tracker st') = ProcessingPipeline.errors (tracker st))
  /\ (forall (tools' : SceneTools) (r' : SceneAnalysisResult.t)
             (user_instruction : string) (total_time : Q),
        @now_isoformat tools' = @now_isoformat tools ->
        @SceneAnalyst.analyze_scene_body tools' pyd image_path = Return r' ->
        SceneAnalysisResult.objects r' = [] ->
        process (agents := @repository_agents tools lm jm pyd bi seg)
          image_path user_instruction total_time
        = process (agents := @repository_agents tools' lm jm pyd bi seg)
            image_path user_instruction total_time).
Proof.
  intros Hfail.
  assert (Hres : SceneAnalyst.analyze_scene image_path
                 = Return (SceneAnalyst.empty_result image_path)).
  { unfold SceneAnalyst.analyze_scene. rewrite Hfail. reflexivity. }
  split; [exact Hres|]. split; [reflexivity|]. split; [exact analyze_scene_total|]. split.
  - intros st. unfold _stage_scene_analysis.
    cbn [agent_analyze_scene repository_agents]. rewrite Hres.
    eexists. split; [reflexivity|]. split; reflexivity.
  - intros tools' r' user_instruction total_time Hnow Hbody Hempty.
    assert (Hres' : @SceneAnalyst.analyze_scene tools' pyd image_path
                    = Return (@SceneAnalyst.empty_result tools image_path)).
    { unfold SceneAnalyst.analyze_scene. rewrite Hbody. cbn [try_except].
      rewrite (analyze_scene_body_result _ Hbody), Hempty.
      unfold SceneAnalyst.empty_result. rewrite Hnow. reflexivity. }
    unfold process, process_body, _stage_scene_analysis.
    cbn [agent_analyze_scene repository_agents]. rewrite Hres, Hres'.
    reflexivity.
Qed.

End SceneFailure.

Section SceneFailureCauses.
Context {tools : SceneTools} {pyd : Pydantic}.

(** An image that cannot be loaded makes the body of [analyze_scene] raise. *)
Lemma unreadable_image_raises (image_path : string) :
  load_image image_path = Return None ->
  SceneAnalyst.analyze_scene_body image_path
  = Raise (Exception ("无法加载图像: " ++ image_path)).
Proof.
  intros H. unfold SceneAnalyst.analyze_scene_body. rewrite H. reflexivity.
Qed.

(** So does a detection result without a true [success] entry, which is
    what the vision tool answers when the model's response does not parse. *)
Lemma detection_failure_raises (image_path : string) (image : ndarray)
    (quality_info detection_result : dict) :
  load_image image_path = Return (Some image) ->
  validate_image_quality image = Return (JObj quality_info) ->
  vision_tool_run "detect_objects" image_path = Return (JObj detection_result) ->
  truthy (match dict_get detection_result "success" with
          | Some v => v
          | None => JBool false
          end) = false ->
  exists cause : exn, SceneAnalyst.analyze_scene_body image_path = Raise cause.
Proof.
  intros Hload Hquality Hrun Hsuccess. unfold SceneAnalyst.analyze_scene_body.
  rewrite Hload. cbn [bind]. rewrite Hquality. cbn [bind py_get].
  rewrite Hrun. cbn [bind py_get]. rewrite Hsuccess. cbn [negb bind].
  eexists. reflexivity.
Qed.

(** And an exception raised by the vision tool itself. *)
Lemma vision_tool_exception_raises (image_path : string) (image : ndarray)
    (quality_info : dict) (cause : exn) :
  load_image image_path = Return (Some image) ->
  validate_image_quality image = Return (JObj quality_info) ->
  vision_tool_run "detect_objects" image_path = Raise cause ->
  SceneAnalyst.analyze_scene_body image_path = Raise cause.
Proof.
  intros Hload Hquality Hrun. unfold SceneAnalyst.analyze_scene_body.
  rewrite Hload. cbn [bind]. rewrite Hquality. cbn [bind py_get].
  rewrite Hrun. reflexivity.
Qed.

End SceneFailureCauses.


(** Claim C6 at a readable image in which nothing is detected. *)
Lemma C6_witness :
  pipeline._validate_inputs (files := accepting_files) "scene.jpg" "我想喝水" = true
  /\ SceneAnalyst.analyze_scene (tools := empty_scene_tools) (pydantic := strict_pydantic)
       "scene.jpg" = Return empty_scene
  /\ SceneAnalysisResult.objects empty_scene = []
  /\ let st := snd (pipeline.process
                      (agents := @repository_agents empty_scene_tools offline_model
                                   reference_json strict_pydantic reference_builtins
                                   offline_segmenter)
                      (files := accepting_files) "scene.jpg" "我想喝水" 0) in
     let user_intent :=
       InteractionStrategist.analyze_user_intent
         (model := offline_model) (json_module := reference_json)
         (pydantic := strict_pydantic) "我想喝水" empty_scene in
     ProcessingPipeline.completed_stages (pipeline.tracker st) = ["场景分析"]
     /\ pipeline.calls st
        = [pipeline.CallAnalyzeScene "scene.jpg";
           pipeline.CallAnalyzeUserIntent "我想喝水" empty_scene;
           pipeline.CallCreateInteractionStrategy user_intent empty_scene]
     /\ InteractionStrategist._select_target_object user_intent empty_scene = None
     /\ ProcessingPipeline.errors (pipeline.tracker st)
        = ["策略规划失败: 无法制定有效的交互策略"]
     /\ existsb pipeline.is_segmentation_call (pipeline.calls st) = false.
Proof.
  split; [vm_compute; reflexivity|]. split; [vm_compute; reflexivity|].
  split; [reflexivity|].
  apply (@C6_empty_scene_is_passed_to_the_strategist empty_scene_tools strict_pydantic
           offline_model reference_json reference_builtins offline_segmenter accepting_files
           "scene.jpg" "我想喝水" 0 empty_scene);
    vm_compute; reflexivity.
Defined.



(** Claim C10 at an image that cannot be loaded. *)
Lemma C10_witness :
  SceneAnalyst.analyze_scene_body (tools := unreadable_tools) (pydantic := strict_pydantic)
    "scene.jpg"
  = Raise (Exception "无法加载图像: scene.jpg")
  /\ SceneAnalyst.analyze_scene (tools := unreadable_tools) (pydantic := strict_pydantic)
       "scene.jpg"
     = Return (SceneAnalyst.empty_result (tools := unreadable_tools) "scene.jpg")
  /\ SceneAnalysisResult.objects
       (SceneAnalyst.empty_result (tools := unreadable_tools) "scene.jpg") = []
  /\ (forall p : string,
        exists r,
          SceneAnalyst.analyze_scene (tools := unreadable_tools)
            (pydantic := strict_pydantic) p = Return r)
  /\ (forall st : pipeline.run,
        exists st' : pipeline.run,
          pipeline._stage_scene_analysis
            (agents := @repository_agents unreadable_tools offline_model reference_json
                         strict_pydantic reference_builtins offline_segmenter)
            "scene.jpg" st
          = (Return (SceneAnalyst.empty_result (tools := unreadable_tools) "scene.jpg"), st')
          /\ ProcessingPipeline.completed_stages (pipeline.tracker st')
             = (ProcessingPipeline.completed_stages (pipeline.tracker st) ++ ["场景分析"])%list
          /\ ProcessingPipeline.errors (pipeline.tracker st')
             = ProcessingPipeline.errors (pipeline.tracker st))
  /\ (forall (tools' : SceneTools) (r' : SceneAnalysisResult.t)
             (user_instruction : string) (total_time : Q),
        @now_isoformat tools' = @now_isoformat unreadable_tools ->
        @SceneAnalyst.analyze_scene_body tools' strict_pydantic "scene.jpg" = Return r' ->
        SceneAnalysisResult.objects r' = [] ->
        pipeline.process
          (agents := @repository_agents unreadable_tools offline_model reference_json
                       strict_pydantic reference_builtins offline_segmenter)
          (files := accepting_files) "scene.jpg" user_instruction total_time
        = pipeline.process
            (agents := @repository_agents tools' offline_model reference_json
                         strict_pydantic reference_builtins offline_segmenter)
            (files := accepting_files) "scene.jpg" user_instruction total_time).
Proof.
  split; [vm_compute; reflexivity|].
  apply (@C10_failed_scene_analysis_looks_like_an_empty_scene
           unreadable_tools strict_pydantic offline_model reference_json
           reference_builtins offline_segmenter accepting_files
           "scene.jpg" (Exception "无法加载图像: scene.jpg")).
  vm_compute; reflexivity.
Defined.

(** The run on an image that cannot be loaded is the run on a readable
    image in which nothing is detected. *)
Example unreadable_image_runs_like_empty_scene :
  pipeline.process
    (agents := @repository_agents unreadable_tools offline_model reference_json
                 strict_pydantic reference_builtins offline_segmenter)
    (files := accepting_files) "scene.jpg" "我想喝水" 0
  = pipeline.process
      (agents := @repository_agents empty_scene_tools offline_model reference_json
                   strict_pydantic reference_builtins offline_segmenter)
      (files := accepting_files) "scene.jpg" "我想喝水" 0.
Proof. vm_compute. reflexivity. Qed.

(** * Further properties *)

(** * Further properties *)

(** ** The working size recorded by [resize_image] *)

Section ResizeBounds.
Context {pillow : Pillow}.

(** The branch of an image that is wider than high and wider than the bound. *)
Lemma resize_image_wide (self : ImagePreprocessor.t) (image : Image)
    (max_size width height : Z) :
  image_size image = (width, height) ->
  0 <= max_size -> 0 <= height -> height < width -> max_size < width ->
  ImagePreprocessor.resize_image self image max_size
  = (image_resize image (max_size, height * max_size / width),
     {| ImagePreprocessor.original_size := Some (width, height);
        ImagePreprocessor.processed_size := Some (max_size, height * max_size / width);
        ImagePreprocessor.scale_factor := Some (Qred (inject_Z max_size / inject_Z width)) |}).
Proof.
  intros Hsize Hm Hh Hlt Hbig. unfold ImagePreprocessor.resize_image. rewrite Hsize.
  assert (Hnot : (width <=? max_size) && (height <=? max_size) = false).
  { apply andb_false_iff. left. apply Z.leb_gt. exact Hbig. }
  rewrite Hnot.
  assert (Hcmp : (width >? height) = true) by (apply Z.gtb_lt; exact Hlt).
  rewrite Hcmp.
  assert (Hw : 0 < width) by lia.
  rewrite !(py_truediv_nonzero _ (inject_Z_nonzero Hw)).
  rewrite py_int_quotient by nia.
  reflexivity.
Qed.

(** The branch of an image that is at least as high as wide and higher than
    the bound. *)
Lemma resize_image_tall (self : ImagePreprocessor.t) (image : Image)
    (max_size width height : Z) :
  image_size image = (width, height) ->
  0 <= max_size -> 0 <= width -> width <= height -> max_size < height ->
  ImagePreprocessor.resize_image self image max_size
  = (image_resize image (width * max_size / height, max_size),
     {| ImagePreprocessor.original_size := Some (width, height);
        ImagePreprocessor.processed_size := Some (width * max_size / height, max_size);
        ImagePreprocessor.scale_factor := Some (Qred (inject_Z max_size / inject_Z height)) |}).
Proof.
  intros Hsize Hm Hw Hle Hbig. unfold ImagePreprocessor.resize_image. rewrite Hsize.
  assert (Hnot : (width <=? max_size) && (height <=? max_size) = false).
  { apply andb_false_iff. right. apply Z.leb_gt. exact Hbig. }
  rewrite Hnot.
  assert (Hcmp : (width >? height) = false).
  { destruct (Z.gtb_spec width height); [lia | reflexivity]. }
  rewrite Hcmp.
  assert (Hh : 0 < height) by lia.
  rewrite !(py_truediv_nonzero _ (inject_Z_nonzero Hh)).
  rewrite py_int_quotient by nia.
  reflexivity.
Qed.

(** The branch without resizing. *)
Lemma resize_image_small (self : ImagePreprocessor.t) (image : Image)
    (max_size width height : Z) :
  image_size image = (width, height) ->
  width <= max_size -> height <= max_size ->
  ImagePreprocessor.resize_image self image max_size
  = (Return image,
     {| ImagePreprocessor.original_size := Some (width, height);
        ImagePreprocessor.processed_size := Some (width, height);
        ImagePreprocessor.scale_factor := Some 1%Q |}).
Proof.
  intros Hsize Hw Hh. unfold ImagePreprocessor.resize_image. rewrite Hsize.
  apply Z.leb_le in Hw, Hh. rewrite Hw, Hh. reflexivity.
Qed.

(** The three branches cover every image. *)
Lemma resize_image_cases (width height max_size : Z) :
  (width <= max_size /\ height <= max_size)
  \/ (height < width /\ max_size < width)
  \/ (width <= height /\ max_size < height).
Proof. lia. Qed.

(** X1.  For every image with non-negative dimensions and every positive
    bound, the working size recorded by [resize_image] fits the bound in both
    dimensions and never exceeds the original size: the image is shrunk or
    kept, never enlarged. *)
Theorem X1_resize_image_fits_and_never_enlarges
    (self : ImagePreprocessor.t) (image : Image) (max_size width height : Z) :
  image_size image = (width, height) ->
  0 < max_size -> 0 <= width -> 0 <= height ->
  exists new_width new_height : Z,
    ImagePreprocessor.processed_size
      (snd (ImagePreprocessor.resize_image self image max_size))
    = Some (new_width, new_height)
    /\ 0 <= new_width <= max_size /\ 0 <= new_height <= max_size
    /\ new_width <= width /\ new_height <= height.
Proof.
  intros Hsize Hm Hw Hh.
  destruct (resize_image_cases width height max_size) as [[H1 H2] | [[H1 H2] | [H1 H2]]].
  - rewrite (resize_image_small self image Hsize H1 H2). cbn.
    eexists _, _. split; [reflexivity|]. lia.
  - rewrite (resize_image_wide self image Hsize) by lia. cbn.
    eexists _, _. split; [reflexivity|].
    assert (0 <= height * max_size / width) by (apply Z.div_pos; nia).
    assert (height * max_size / width <= height).
    { apply Z.div_le_upper_bound; nia. }
    assert (height * max_size / width <= max_size).
    { apply Z.div_le_upper_bound; nia. }
    lia.
  - rewrite (resize_image_tall self image Hsize) by lia. cbn.
    eexists _, _. split; [reflexivity|].
    assert (0 <= width * max_size / height) by (apply Z.div_pos; nia).
    assert (width * max_size / height <= width).
    { apply Z.div_le_upper_bound; nia. }
    assert (width * max_size / height <= max_size).
    { apply Z.div_le_upper_bound; nia. }
    lia.
Qed.

(** X2.  The resize keeps the aspect ratio up to the truncation of one
    dimension: the cross product [new_width * height - new_height * width],
    which is zero for equal ratios, is smaller in magnitude than the larger
    original dimension. *)
Theorem X2_resize_image_keeps_the_aspect_ratio
    (self : ImagePreprocessor.t) (image : Image) (max_size width height : Z) :
  image_size image = (width, height) ->
  0 < max_size -> 0 < width -> 0 < height ->
  exists new_width new_height : Z,
    ImagePreprocessor.processed_size
      (snd (ImagePreprocessor.resize_image self image max_size))
    = Some (new_width, new_height)
    /\ Z.abs (new_width * height - new_height * width) < Z.max width height.
Proof.
  intros Hsize Hm Hw Hh.
  destruct (resize_image_cases width height max_size) as [[H1 H2] | [[H1 H2] | [H1 H2]]].
  - rewrite (resize_image_small self image Hsize H1 H2). cbn.
    eexists _, _. split; [reflexivity|]. lia.
  - rewrite (resize_image_wide self image Hsize) by lia. cbn.
    eexists _, _. split; [reflexivity|].
    pose proof (Z.div_mod (height * max_size) width ltac:(lia)) as Hdm.
    pose proof (Z.mod_pos_bound (height * max_size) width Hw) as Hmod.
    nia.
  - rewrite (resize_image_tall self image Hsize) by lia. cbn.
    eexists _, _. split; [reflexivity|].
    pose proof (Z.div_mod (width * max_size) height ltac:(lia)) as Hdm.
    pose proof (Z.mod_pos_bound (width * max_size) height Hh) as Hmod.
    nia.
Qed.

(** X3.  An image so elongated that [height * max_size < width] gets the
    working height 0: [int(height * max_size / width)] truncates to zero, and
    [resize_image] asks Pillow for an image of size [(max_size, 0)]. *)
Theorem X3_elongated_image_gets_an_empty_dimension
    (self : ImagePreprocessor.t) (image : Image) (max_size width height : Z) :
  image_size image = (width, height) ->
  0 < max_size -> 0 <= height -> max_size < width -> height * max_size < width ->
  ImagePreprocessor.resize_image self image max_size
  = (image_resize image (max_size, 0),
     {| ImagePreprocessor.original_size := Some (width, height);
        ImagePreprocessor.processed_size := Some (max_size, 0);
        ImagePreprocessor.scale_factor := Some (Qred (inject_Z max_size / inject_Z width)) |}).
Proof.
  intros Hsize Hm Hh Hbig Hsmall.
  rewrite (resize_image_wide self image Hsize) by nia.
  rewrite Z.div_small by nia. reflexivity.
Qed.

End ResizeBounds.

(** X1 at an image of 1600 by 1201 pixels and the bound 1024. *)
Lemma X1_witness :
  exists new_width new_height : Z,
    ImagePreprocessor.processed_size
      (snd (ImagePreprocessor.resize_image (pillow := plain_images)
              ImagePreprocessor.__init__ ((1600, 1201), "RGB") 1024))
    = Some (new_width, new_height)
    /\ 0 <= new_width <= 1024 /\ 0 <= new_height <= 1024
    /\ new_width <= 1600 /\ new_height <= 1201.
Proof.
  apply (@X1_resize_image_fits_and_never_enlarges plain_images ImagePreprocessor.__init__
           ((1600, 1201), "RGB") 1024 1600 1201); [reflexivity | lia | lia | lia].
Defined.

(** X2 at the same image. *)
Lemma X2_witness :
  exists new_width new_height : Z,
    ImagePreprocessor.processed_size
      (snd (ImagePreprocessor.resize_image (pillow := plain_images)
              ImagePreprocessor.__init__ ((1600, 1201), "RGB") 1024))
    = Some (new_width, new_height)
    /\ Z.abs (new_width * 1201 - new_height * 1600) < Z.max 1600 1201.
Proof.
  apply (@X2_resize_image_keeps_the_aspect_ratio plain_images ImagePreprocessor.__init__
           ((1600, 1201), "RGB") 1024 1600 1201); [reflexivity | lia | lia | lia].
Defined.

(** X3 at an image of 5000 by 4 pixels, which the images of the test double
    refuse to resize. *)
Lemma X3_witness :
  ImagePreprocessor.resize_image (pillow := plain_images)
    ImagePreprocessor.__init__ ((5000, 4), "RGB") 1024
  = (Raise (ValueError "height and width must be > 0"),
     {| ImagePreprocessor.original_size := Some (5000, 4);
        ImagePreprocessor.processed_size := Some (1024, 0);
        ImagePreprocessor.scale_factor := Some (Qred (inject_Z 1024 / inject_Z 5000)) |}).
Proof.
  apply (@X3_elongated_image_gets_an_empty_dimension plain_images ImagePreprocessor.__init__
           ((5000, 4), "RGB") 1024 5000 4); [reflexivity | lia | lia | lia | lia].
Defined.

(** ** Conversion of coordinates *)





Lemma list_conversion_elementwise
    (self : ImagePreprocessor.t) (bbox_list out : list json) :
  ImagePreprocessor.convert_coordinates_list_to_original self bbox_list = Return out
  <-> Forall2 (fun bbox converted =>
                 ImagePreprocessor.convert_coordinates_to_original self bbox
                 = Return converted) bbox_list out.
Proof.
  revert out. induction bbox_list as [|bbox rest IH]; intros out; cbn.
  - split.
    + intros H. injection H as <-. constructor.
    + intros H. inversion H. reflexivity.
  - split.
    + intros H.
      destruct (ImagePreprocessor.convert_coordinates_to_original self bbox) as [b|e] eqn:Eb;
        cbn [bind] in H; [|discriminate].
      destruct (ImagePreprocessor.convert_coordinates_list_to_original self rest) as [bs|e]
        eqn:Ers; cbn [bind] in H; [|discriminate].
      injection H as <-. constructor; [exact Eb|]. apply IH. reflexivity.
    + intros H. inversion H as [|? b ? bs Hb Hbs]; subst.
      rewrite Hb. cbn [bind]. apply IH in Hbs. rewrite Hbs. reflexivity.
Qed.

Lemma list_conversion_first_failure
    (self : ImagePreprocessor.t) (before after : list json) (bad : json)
    (converted : list json) (e : exn) :
  ImagePreprocessor.convert_coordinates_list_to_original self before = Return converted ->
  ImagePreprocessor.convert_coordinates_to_original self bad = Raise e ->
  ImagePreprocessor.convert_coordinates_list_to_original self (before ++ bad :: after)%list
  = Raise e.
Proof.
  revert converted. induction before as [|b rest IH]; intros converted Hbefore Hbad; cbn.
  - rewrite Hbad. reflexivity.
  - cbn in Hbefore.
    destruct (ImagePreprocessor.convert_coordinates_to_original self b) as [c|e'];
      cbn [bind] in *; [|discriminate].
    destruct (ImagePreprocessor.convert_coordinates_list_to_original self rest) as [cs|e']
      eqn:Ers; cbn [bind] in Hbefore; [|discriminate].
    rewrite (IH cs eq_refl Hbad). reflexivity.
Qed.

(** X5.  [convert_coordinates_list_to_original] is element-wise and all or
    nothing: it returns a list exactly when every box of its argument
    converts, the list then holding the converted boxes in the order of the
    argument; and when a box raises after the boxes before it have
    converted, the whole call raises that exception and no converted box is
    returned. *)
Theorem X5_list_conversion_is_elementwise_and_all_or_nothing
    (self : ImagePreprocessor.t) :
  (forall bbox_list out : list json,
     ImagePreprocessor.convert_coordinates_list_to_original self bbox_list = Return out
     <-> Forall2 (fun bbox converted =>
                    ImagePreprocessor.convert_coordinates_to_original self bbox
                    = Return converted) bbox_list out)
  /\ (forall (before after converted : list json) (bad : json) (e : exn),
        ImagePreprocessor.convert_coordinates_list_to_original self before
        = Return converted ->
        ImagePreprocessor.convert_coordinates_to_original self bad = Raise e ->
        ImagePreprocessor.convert_coordinates_list_to_original self
          (before ++ bad :: after)%list
        = Raise e).
Proof.
  split.
  - exact (list_conversion_elementwise self).
  - intros before after converted bad e.
    exact (@list_conversion_first_failure self before after bad converted e).
Qed.


(** The list conversion at a list whose second box has three coordinates. *)
Example list_conversion_example :
  ImagePreprocessor.convert_coordinates_list_to_original preprocessor_1600_1200
    [box_json (100, 100, 200, 200)%Q; JArr [JInt 1; JInt 2; JInt 3]]
  = Raise (ValueError "边界框坐标必须包含4个值: [x1, y1, x2, y2]").
Proof. vm_compute. reflexivity. Qed.

(** ** The preprocessed image *)

Section PreprocessedImage.
Context {pillow : Pillow}.

(** For a positive bound [resize_image] always records a scale factor, which
    lies in (0, 1]. *)
Lemma resize_image_scale_factor (self : ImagePreprocessor.t) (image : Image) (max_size : Z) :
  0 < max_size ->
  exists sf : Q,
    ImagePreprocessor.scale_factor (snd (ImagePreprocessor.resize_image self image max_size))
    = Some sf
    /\ (0 < sf /\ sf <= 1)%Q.
Proof.
  intros Hm. unfold ImagePreprocessor.resize_image.
  destruct (image_size image) as [width height].
  pose proof (inject_Z_pos Hm) as Hmq.
  destruct ((width <=? max_size) && (height <=? max_size)) eqn:Hsmall.
  - eexists. split; [reflexivity|]. split; [reflexivity | discriminate].
  - apply andb_false_iff in Hsmall.
    destruct (width >? height) eqn:Hcmp.
    + apply Z.gtb_lt in Hcmp.
      assert (Hbig : max_size < width).
      { destruct Hsmall as [H | H]; apply Z.leb_gt in H; lia. }
      assert (Hw : 0 < width) by lia.
      rewrite !(py_truediv_nonzero _ (inject_Z_nonzero Hw)).
      cbn [snd ImagePreprocessor.scale_factor ImagePreprocessor.set_scale_factor
           ImagePreprocessor.set_processed_size ImagePreprocessor.set_original_size].
      eexists. split; [reflexivity|].
      assert (Hlt : (inject_Z max_size < inject_Z width)%Q) by (rewrite <- Zlt_Qlt; lia).
      rewrite Qred_correct. split.
      * apply Qlt_shift_div_l; lra.
      * apply Qle_shift_div_r; lra.
    + assert (Hge : width <= height) by (destruct (Z.gtb_spec width height); [discriminate | lia]).
      assert (Hbig : max_size < height).
      { destruct Hsmall as [H | H]; apply Z.leb_gt in H; lia. }
      assert (Hh : 0 < height) by lia.
      rewrite !(py_truediv_nonzero _ (inject_Z_nonzero Hh)).
      cbn [snd ImagePreprocessor.scale_factor ImagePreprocessor.set_scale_factor
           ImagePreprocessor.set_processed_size ImagePreprocessor.set_original_size].
      eexists. split; [reflexivity|].
      assert (Hlt : (inject_Z max_size < inject_Z height)%Q) by (rewrite <- Zlt_Qlt; lia).
      rewrite Qred_correct. split.
      * apply Qlt_shift_div_l; lra.
      * apply Qle_shift_div_r; lra.
Qed.


(** What Pillow guarantees about the operations used: [resize] returns an
    image of the requested size and of the same mode, and both conversions
    return an RGB image. *)
Hypothesis resize_gives_the_size :
  forall (image resized : Image) (size : Z * Z),
    image_resize image size = Return resized -> image_size resized = size.
Hypothesis resize_keeps_the_mode :
  forall (image resized : Image) (size : Z * Z),
    image_resize image size = Return resized -> image_mode resized = image_mode image.
Hypothesis convert_gives_rgb :
  forall image : Image, image_mode (image_convert_rgb image) = "RGB".
Hypothesis on_white_gives_rgb :
  forall image : Image, image_mode (image_on_white image) = "RGB".

Lemma convert_to_rgb_mode (image : Image) :
  image_mode (ImagePreprocessor.convert_to_rgb image) = "RGB".
Proof.
  unfold ImagePreprocessor.convert_to_rgb.
  destruct (String.eqb (image_mode image) "RGB") eqn:E; cbn [negb].
  - apply String.eqb_eq; exact E.
  - destruct (String.eqb (image_mode image) "RGBA"); auto.
Qed.

Lemma resize_image_returned (self self' : ImagePreprocessor.t) (image resized : Image)
    (max_size : Z) :
  ImagePreprocessor.resize_image self image max_size = (Return resized, self') ->
  ImagePreprocessor.processed_size self' = Some (image_size resized)
  /\ image_mode resized = image_mode image.
Proof.
  unfold ImagePreprocessor.resize_image.
  destruct (image_size image) as [width height] eqn:Hsize.
  destruct ((width <=? max_size) && (height <=? max_size)).
  - intros H. injection H as <- <-. cbn. rewrite Hsize. split; reflexivity.
  - destruct (width >? height).
    + destruct (py_truediv (inject_Z (height * max_size)) (inject_Z width)); [|discriminate].
      destruct (py_truediv (inject_Z max_size) (inject_Z width)); [|discriminate].
      intros H. injection H as Hres <-. cbn.
      rewrite (resize_gives_the_size _ _ Hres). split; [reflexivity|].
      exact (resize_keeps_the_mode _ _ Hres).
    + destruct (py_truediv (inject_Z (width * max_size)) (inject_Z height)); [|discriminate].
      destruct (py_truediv (inject_Z max_size) (inject_Z height)); [|discriminate].
      intros H. injection H as Hres <-. cbn.
      rewrite (resize_gives_the_size _ _ Hres). split; [reflexivity|].
      exact (resize_keeps_the_mode _ _ Hres).
Qed.

(** X6.  When [preprocess_image] returns, the scale information it returns
    is the state of the preprocessor and describes the returned image: the
    recorded working size is the size of that image, the image is in RGB
    mode, the bytes are its JPEG compression at the requested quality, and
    for a positive bound the scale factor lies in (0, 1]. *)
Theorem X6_preprocess_image_describes_the_image_it_returns
    (self self' : ImagePreprocessor.t) (image_input : string + Image)
    (max_size quality : Z) (resized : Image) (compressed_data : string)
    (info : ImagePreprocessor.scale_info) :
  ImagePreprocessor.preprocess_image self image_input max_size quality
  = (Return (resized, compressed_data, info), self') ->
  info = ImagePreprocessor.get_scale_info self'
  /\ ImagePreprocessor.info_processed_size info = Some (image_size resized)
  /\ image_mode resized = "RGB"
  /\ compressed_data = image_jpeg resized quality
  /\ (0 < max_size ->
      exists sf : Q,
        ImagePreprocessor.info_scale_factor info = Some sf /\ (0 < sf /\ sf <= 1)%Q).
Proof.
  unfold ImagePreprocessor.preprocess_image. intros H.
  set (opened := match image_input with
                 | inl path =>
                     if negb (os_path_exists path)
                     then Raise (FileNotFoundError ("图像文件不存在: " ++ path))
                     else image_open path
                 | inr image => Return image
                 end) in H.
  destruct opened as [image|e]; [|discriminate].
  destruct (ImagePreprocessor.resize_image self (ImagePreprocessor.convert_to_rgb image) max_size)
    as [[r|e] s] eqn:Hres; [|discriminate].
  injection H as <- <- <- <-.
  destruct (resize_image_returned _ _ _ Hres) as [Hsize Hmode].
  split; [reflexivity|]. split; [exact Hsize|].
  split; [rewrite Hmode; apply convert_to_rgb_mode|].
  split; [reflexivity|].
  intros Hm.
  destruct (resize_image_scale_factor self (ImagePreprocessor.convert_to_rgb image) Hm)
    as (sf & Hsf & Hrange).
  rewrite Hres in Hsf. exists sf. split; [exact Hsf | exact Hrange].
Qed.

End PreprocessedImage.

(** The images of [stored_image] keep Pillow's guarantees. *)
Lemma stored_image_resize_size (width height : Z) :
  forall (image resized : @Image (stored_image width height)) (size : Z * Z),
    image_resize image size = Return resized -> image_size resized = size.
Proof.
  intros image resized size. cbn.
  destruct ((0 <? fst size) && (0 <? snd size)); [|discriminate].
  intros H. injection H as <-. reflexivity.
Qed.

Lemma stored_image_resize_mode (width height : Z) :
  forall (image resized : @Image (stored_image width height)) (size : Z * Z),
    image_resize image size = Return resized -> image_mode resized = image_mode image.
Proof.
  intros image resized size. cbn.
  destruct ((0 <? fst size) && (0 <? snd size)); [|discriminate].
  intros H. injection H as <-. reflexivity.
Qed.

(** X6 at a stored image of 1600 by 1200 pixels. *)
Lemma X6_witness :
  let info :=
    {| ImagePreprocessor.info_original_size := Some (1600, 1200);
       ImagePreprocessor.info_processed_size := Some (1024, 768);
       ImagePreprocessor.info_scale_factor := Some (16 # 25) |} in
  let self' :=
    {| ImagePreprocessor.original_size := Some (1600, 1200);
       ImagePreprocessor.processed_size := Some (1024, 768);
       ImagePreprocessor.scale_factor := Some (16 # 25) |} in
  ImagePreprocessor.preprocess_image (pillow := stored_image 1600 1200)
    ImagePreprocessor.__init__ (inl "scene.jpg") 1024 85
  = (Return (((1024, 768), "RGB"), EmptyString, info), self')
  /\ info = ImagePreprocessor.get_scale_info self'
  /\ ImagePreprocessor.info_processed_size info
     = Some (image_size (Pillow := stored_image 1600 1200) ((1024, 768), "RGB"))
  /\ image_mode (Pillow := stored_image 1600 1200) ((1024, 768), "RGB") = "RGB"
  /\ EmptyString = image_jpeg (Pillow := stored_image 1600 1200) ((1024, 768), "RGB") 85
  /\ (0 < 1024 ->
      exists sf : Q,
        ImagePreprocessor.info_scale_factor info = Some sf /\ (0 < sf /\ sf <= 1)%Q).
Proof.
  split; [vm_compute; reflexivity|].
  apply (@X6_preprocess_image_describes_the_image_it_returns (stored_image 1600 1200)
           (@stored_image_resize_size 1600 1200) (@stored_image_resize_mode 1600 1200)
           (fun _ => eq_refl) (fun _ => eq_refl)
           ImagePreprocessor.__init__ _ (inl "scene.jpg") 1024 85
           ((1024, 768), "RGB") EmptyString _).
  vm_compute. reflexivity.
Defined.

(** ** The segmentation agent *)

Lemma dict_get_set_other (d : dict) (k k' : string) (v : json) :
  k' <> k -> dict_get (dict_set d k v) k' = dict_get d k'.
Proof.
  intros Hne. induction d as [|[k0 v0] rest IH]; cbn.
  - destruct (String.eqb k k') eqn:E; [|reflexivity].
    apply String.eqb_eq in E. congruence.
  - destruct (String.eqb k0 k) eqn:E; cbn.
    + apply String.eqb_eq in E. subst k0.
      destruct (String.eqb k k') eqn:E'; [|reflexivity].
      apply String.eqb_eq in E'. congruence.
    + destruct (String.eqb k0 k'); [reflexivity | exact IH].
Qed.

Lemma same_but_box_refl (result : json) : same_but_box result result.
Proof.
  destruct result; cbn; try reflexivity.
  eexists. split; [reflexivity|]. reflexivity.
Qed.

Section Agent.
Context {pillow : Pillow}.


Context {service : ChatService}.


End Agent.

(** X8.  The agent's conversion returns as many results as it was given, in
    the same order; a result that is a dict keeps every entry but [bbox_2d]
    (its label in particular), and any other result is returned as it is. *)
Theorem X8_conversion_keeps_the_results_but_their_boxes
    (self : PreciseSegmentationAgent.t) (segmentation_results converted_results : list json) :
  PreciseSegmentationAgent.convert_coordinates_to_original self segmentation_results
  = Return converted_results ->
  Forall2 same_but_box segmentation_results converted_results.
Proof.
  unfold PreciseSegmentationAgent.convert_coordinates_to_original.
  destruct (PreciseSegmentationAgent.scale_info self) as [info|].
  - revert converted_results.
    induction segmentation_results as [|result rest IH]; intros converted_results H; cbn in H.
    + injection H as <-. constructor.
    + destruct (PreciseSegmentationAgent.convert_result self result) as [r|e] eqn:Er;
        cbn [bind] in H; [|discriminate].
      destruct (PreciseSegmentationAgent.convert_results self rest) as [rs|e] eqn:Ers;
        cbn [bind] in H; [|discriminate].
      injection H as <-. constructor; [|apply IH; reflexivity].
      unfold PreciseSegmentationAgent.convert_result in Er.
      destruct result as [| | | | |d]; try (injection Er as <-; reflexivity).
      destruct (dict_get d "bbox_2d") as [bbox|] eqn:Hget.
      * destruct (ImagePreprocessor.convert_coordinates_to_original
                    (PreciseSegmentationAgent.image_preprocessor self) bbox) as [o|e];
          cbn [bind] in Er; [|discriminate].
        injection Er as <-. cbn. eexists. split; [reflexivity|].
        intros key Hkey. apply dict_get_set_other. exact Hkey.
      * injection Er as <-. apply same_but_box_refl.
  - intros H. injection H as <-.
    induction segmentation_results; constructor; [apply same_but_box_refl | assumption].
Qed.


(** X8 at the same agent, a region and a value that is not a dict. *)
Lemma X8_witness :
  let converted :=
    [JObj [("bbox_2d", box_json (625 # 4, 625 # 4, 625 # 2, 625 # 2)%Q);
           ("label", JStr "handle")];
     JStr "note"] in
  PreciseSegmentationAgent.convert_coordinates_to_original scaled_agent
    [region 100 100 200 200 "handle"; JStr "note"]
  = Return converted
  /\ Forall2 same_but_box [region 100 100 200 200 "handle"; JStr "note"] converted.
Proof.
  split; [vm_compute; reflexivity|].
  apply (@X8_conversion_keeps_the_results_but_their_boxes scaled_agent
           [region 100 100 200 200 "handle"; JStr "note"]).
  vm_compute. reflexivity.
Defined.

(** ** Strings *)

Lemma append_assoc (a b c : string) : (a ++ b) ++ c = a ++ (b ++ c).
Proof. induction a as [|x a IH]; cbn; [reflexivity | rewrite IH; reflexivity]. Qed.

Lemma append_nil_r (a : string) : a ++ "" = a.
Proof. induction a as [|x a IH]; cbn; [reflexivity | rewrite IH; reflexivity]. Qed.


Lemma string_rev_onto_spec (s acc : string) : string_rev_onto s acc = string_rev s ++ acc.
Proof.
  revert acc. induction s as [|c s IH]; intros acc.
  - reflexivity.
  - unfold string_rev. cbn. rewrite (IH (String c acc)), (IH (String c EmptyString)).
    rewrite append_assoc. reflexivity.
Qed.

Lemma string_rev_cons (c : ascii) (s : string) :
  string_rev (String c s) = string_rev s ++ String c EmptyString.
Proof. unfold string_rev at 1. cbn. apply string_rev_onto_spec. Qed.

Lemma string_rev_app (a b : string) : string_rev (a ++ b) = string_rev b ++ string_rev a.
Proof.
  induction a as [|c a IH]; cbn [append].
  - symmetry. apply append_nil_r.
  - rewrite !string_rev_cons, IH. apply append_assoc.
Qed.








Lemma prefix_app (p s : string) : String.prefix p (p ++ s) = true.
Proof.
  induction p as [|c p IH]; cbn; [destruct s; reflexivity|].
  destruct (ascii_dec c c); [exact IH | congruence].
Qed.


(** *** Splitting and joining lines *)





(** ** Removal of a fence *)









Section FenceAndParser.
Context {jm : JsonModule} {bi : Builtins}.


End FenceAndParser.




(** ** Validation of the regions *)

Lemma dict_set_set (d : dict) (k : string) (v v' : json) :
  dict_set (dict_set d k v) k v' = dict_set d k v'.
Proof.
  induction d as [|[k0 v0] rest IH]; cbn.
  - rewrite String.eqb_refl. reflexivity.
  - destruct (String.eqb k0 k) eqn:E; cbn.
    + rewrite String.eqb_refl. reflexivity.
    + rewrite E, IH. reflexivity.
Qed.

Lemma py_int_inject_Z (z : Z) : py_int (inject_Z z) = z.
Proof.
  unfold py_int. destruct (Qle_bool 0 (inject_Z z)); [apply Qfloor_Z | apply Qceiling_Z].
Qed.

Section Regions.
Context {bi : Builtins}.

Import PreciseSegmentationTest.

(** The shape of an item that is kept. *)
Lemma validate_item_kept (item item' : json) :
  validate_item item = Return (Some item') ->
  exists (d : dict) (a b c e : Z),
    item = JObj d
    /\ item' = JObj (dict_set d "bbox_2d" (JArr [JInt a; JInt b; JInt c; JInt e]))
    /\ a <= c /\ b <= e.
Proof.
  unfold validate_item. intros H.
  destruct item as [| | | | |d]; try discriminate.
  destruct (match dict_get d "bbox_2d" with Some v => v | None => JArr [] end)
    as [| | | |items|]; try discriminate.
  destruct items as [|a [|b [|c [|e [|? ?]]]]]; try discriminate.
  destruct (py_float a) as [x1|ex]; cbn [bind] in H;
    [|destruct ex; discriminate].
  destruct (py_float b) as [y1|ex]; cbn [bind] in H;
    [|destruct ex; discriminate].
  destruct (py_float c) as [x2|ex]; cbn [bind] in H;
    [|destruct ex; discriminate].
  destruct (py_float e) as [y2|ex]; cbn [bind] in H;
    [|destruct ex; discriminate].
  destruct (Qlt_le_dec x2 x1) as [Hx | Hx]; destruct (Qlt_le_dec y2 y1) as [Hy | Hy];
    injection H as <-;
    eexists _, _, _, _, _; (split; [reflexivity|]); (split; [reflexivity|]);
    split; apply py_int_mono; lra.
Qed.

(** X12.  An item kept by the loop of [sentence_to_dict] differs from the
    item of the response only in its box (the label and every other entry
    are untouched), and it is a fixed point of the validation: validating
    it again keeps it as it is. *)
Theorem X12_a_kept_region_is_stable
    (item item' : json) :
  validate_item item = Return (Some item') ->
  same_but_box item item'
  /\ validate_item item' = Return (Some item').
Proof.
  intros H.
  destruct (validate_item_kept _ H) as (d & a & b & c & e & -> & -> & Hx & Hy).
  split.
  - cbn. eexists. split; [reflexivity|].
    intros key Hkey. apply dict_get_set_other. exact Hkey.
  - unfold validate_item. rewrite dict_get_set_same. cbn [py_float JInt bind].
    destruct (Qlt_le_dec (inject_Z c) (inject_Z a)) as [Hlt | _].
    { rewrite <- Zlt_Qlt in Hlt. lia. }
    destruct (Qlt_le_dec (inject_Z e) (inject_Z b)) as [Hlt | _].
    { rewrite <- Zlt_Qlt in Hlt. lia. }
    rewrite !py_int_inject_Z, dict_set_set. reflexivity.
Qed.


(** [float] applied to a string raises nothing but [ValueError]. *)
Hypothesis float_raises_ValueError :
  forall (s : string) (e : exn),
    float_of_str s = Raise e -> exists msg : string, e = ValueError msg.




Context {jm : JsonModule}.


End Regions.


(** X12 at the region with the box (300, 50, 100, 200). *)
Lemma X12_witness :
  PreciseSegmentationTest.validate_item (builtins := reference_builtins)
    (region 300 50 100 200 "handle")
  = Return (Some (region 100 50 300 200 "handle"))
  /\ same_but_box (region 300 50 100 200 "handle") (region 100 50 300 200 "handle")
  /\ PreciseSegmentationTest.validate_item (builtins := reference_builtins)
       (region 100 50 300 200 "handle")
     = Return (Some (region 100 50 300 200 "handle")).
Proof.
  split; [vm_compute; reflexivity|].
  apply (@X12_a_kept_region_is_stable reference_builtins
           (region 300 50 100 200 "handle") (region 100 50 300 200 "handle")).
  vm_compute. reflexivity.
Defined.


(** The value [sentence_to_dict] returns for this response. *)
Example three_regions_example :
  PreciseSegmentationTest.sentence_to_dict
    (json_module := reference_json) (builtins := reference_builtins) three_regions_text
  = JObj [("segmentation_results",
           JArr [region 100 50 300 200 "handle"; region 10 20 30 40 "body"])].
Proof. vm_compute. reflexivity. Qed.

(** ** The data model *)

(** X14.  The centre of a [BoundingBox] lies between its coordinates on each
    axis, whatever their order and sign; its area is positive exactly when
    the box is ordered on both axes or inverted on both, so a box with both
    corners exchanged cannot be told from an ordered one by its area. *)
Theorem X14_center_and_area_of_a_bounding_box (self : BoundingBox.t) :
  let '(center_x, center_y) := BoundingBox.center self in
  Z.min (BoundingBox.x1 self) (BoundingBox.x2 self) <= center_x
    <= Z.max (BoundingBox.x1 self) (BoundingBox.x2 self)
  /\ Z.min (BoundingBox.y1 self) (BoundingBox.y2 self) <= center_y
       <= Z.max (BoundingBox.y1 self) (BoundingBox.y2 self)
  /\ (0 < BoundingBox.area self
      <-> (BoundingBox.x1 self < BoundingBox.x2 self
           /\ BoundingBox.y1 self < BoundingBox.y2 self)
          \/ (BoundingBox.x2 self < BoundingBox.x1 self
              /\ BoundingBox.y2 self < BoundingBox.y1 self)).
Proof.
  destruct self as [x1 y1 x2 y2 confidence]. unfold BoundingBox.center, BoundingBox.area.
  cbn [BoundingBox.x1 BoundingBox.x2 BoundingBox.y1 BoundingBox.y2].
  pose proof (Z.div_mod (x1 + x2) 2 ltac:(lia)) as Hx.
  pose proof (Z.mod_pos_bound (x1 + x2) 2 ltac:(lia)) as Hxm.
  pose proof (Z.div_mod (y1 + y2) 2 ltac:(lia)) as Hy.
  pose proof (Z.mod_pos_bound (y1 + y2) 2 ltac:(lia)) as Hym.
  split; [lia|]. split; [lia|]. split.
  - intros H.
    destruct (Z.lt_trichotomy x1 x2) as [Hx' | [Hx' | Hx']];
      destruct (Z.lt_trichotomy y1 y2) as [Hy' | [Hy' | Hy']];
      first [left; split; assumption | right; split; assumption | exfalso; nia].
  - intros [[H1 H2] | [H1 H2]]; nia.
Qed.

(** ** The scene analyst *)

Section SceneObjects.
Context {tools : SceneTools} {pyd : Pydantic}.

(** The loop over the listed objects is the concatenation of what it keeps
    of each. *)
Lemma parse_objects_flat_map (items : list json) (objects : list DetectedObject.t) :
  SceneAnalyst.parse_objects items objects = (objects ++ flat_map parsed_object items)%list.
Proof.
  revert objects. induction items as [|obj_data rest IH]; intros objects; cbn.
  - rewrite app_nil_r. reflexivity.
  - unfold parsed_object at 1.
    destruct (SceneAnalyst.parse_object obj_data).
    + rewrite IH, <- app_assoc. reflexivity.
    + apply IH.
Qed.

(** X15.  When the image loads and the vision tool reports success with a
    list of records, [analyze_scene] returns the records that parse, in the
    order of the list: a record that does not parse is dropped on its own
    and the records after it are still returned. *)
Theorem X15_analyze_scene_returns_the_records_that_parse
    (image_path : string) (image : ndarray) (quality_info detection_result : dict)
    (items : list json) :
  load_image image_path = Return (Some image) ->
  validate_image_quality image = Return (JObj quality_info) ->
  vision_tool_run "detect_objects" image_path = Return (JObj detection_result) ->
  (exists ok, dict_get detection_result "success" = Some ok /\ truthy ok = true) ->
  dict_get detection_result "objects" = Some (JArr items) ->
  SceneAnalyst.analyze_scene image_path
  = Return (SceneAnalysisResult.new image_path (flat_map parsed_object items) now_isoformat).
Proof.
  intros Hload Hquality Hrun (ok & Hok & Htrue) Hitems.
  unfold SceneAnalyst.analyze_scene, SceneAnalyst.analyze_scene_body.
  rewrite Hload. cbn [bind]. rewrite Hquality. cbn [bind py_get].
  rewrite Hrun. cbn [bind py_get]. rewrite Hok, Htrue. cbn [negb].
  rewrite Hitems. cbn [bind py_iter try_except].
  rewrite parse_objects_flat_map. reflexivity.
Qed.

(** X16.  A record whose [category] is a string that is not the value of a
    member of [ObjectCategory] does not parse, so the object is dropped; a
    record without [category] that parses is given the category
    [UNKNOWN]. *)
Theorem X16_a_record_with_an_unknown_category_is_dropped
    (obj_data : dict) :
  (forall value : string,
     dict_get obj_data "category" = Some (JStr value) ->
     (forall member : ObjectCategory, ObjectCategory_value member <> value) ->
     parsed_object (JObj obj_data) = [])
  /\ (forall detected_obj : DetectedObject.t,
        dict_get obj_data "category" = None ->
        SceneAnalyst.parse_object (JObj obj_data) = Return detected_obj ->
        DetectedObject.category detected_obj = UNKNOWN).
Proof.
  split.
  - intros value Hget Hnone. unfold parsed_object, SceneAnalyst.parse_object.
    assert (Hcat : exists e, SceneAnalyst.category_of (JStr value) = Raise e).
    { cbn. unfold ObjectCategory_of_value.
      destruct (find (fun c => String.eqb (ObjectCategory_value c) value)
                  ObjectCategory_members) as [c|] eqn:Hfind.
      - apply find_some in Hfind. destruct Hfind as [_ Heq].
        apply String.eqb_eq in Heq. exfalso. exact (Hnone c Heq).
      - eexists. reflexivity. }
    destruct Hcat as [e He].
    destruct (py_getitem (JObj obj_data) "bounding_box") as [bbox_data|]; cbn [bind];
      [|reflexivity].
    destruct (py_getitem bbox_data "x1"); cbn [bind]; [|reflexivity].
    destruct (py_getitem bbox_data "y1"); cbn [bind]; [|reflexivity].
    destruct (py_getitem bbox_data "x2"); cbn [bind]; [|reflexivity].
    destruct (py_getitem bbox_data "y2"); cbn [bind]; [|reflexivity].
    destruct (py_get bbox_data "confidence" (JNum 1)); cbn [bind]; [|reflexivity].
    destruct (BoundingBox.new _ _ _ _ _); cbn [bind]; [|reflexivity].
    cbn [py_get]. rewrite Hget. cbn [bind]. rewrite He. reflexivity.
  - intros detected_obj Hget. unfold SceneAnalyst.parse_object.
    destruct (py_getitem (JObj obj_data) "bounding_box") as [bbox_data|]; cbn [bind];
      [|discriminate].
    destruct (py_getitem bbox_data "x1"); cbn [bind]; [|discriminate].
    destruct (py_getitem bbox_data "y1"); cbn [bind]; [|discriminate].
    destruct (py_getitem bbox_data "x2"); cbn [bind]; [|discriminate].
    destruct (py_getitem bbox_data "y2"); cbn [bind]; [|discriminate].
    destruct (py_get bbox_data "confidence" (JNum 1)); cbn [bind]; [|discriminate].
    destruct (BoundingBox.new _ _ _ _ _); cbn [bind]; [|discriminate].
    cbn [py_get]. rewrite Hget. cbn [bind].
    change (SceneAnalyst.category_of (JStr (ObjectCategory_value UNKNOWN)))
      with (Return UNKNOWN : Exc ObjectCategory). cbn [bind].
    destruct (py_getitem (JObj obj_data) "object_id"); cbn [bind]; [|discriminate].
    destruct (py_getitem (JObj obj_data) "label"); cbn [bind]; [|discriminate].
    destruct (match dict_get obj_data "confidence" with Some v => v | None => JNum 1 end).
    all: destruct (match dict_get obj_data "description" with Some v => v | None => JNull end).
    all: cbn [bind].
    all: destruct (validate_str _); cbn [bind]; [|discriminate].
    all: destruct (validate_str _); cbn [bind]; [|discriminate].
    all: destruct (validate_float _); cbn [bind]; [|discriminate].
    all: try (destruct (validate_optional_str _); cbn [bind]; [|discriminate]).
    all: try (cbn [validate_optional_str bind]).
    all: try (destruct (validate_str _); cbn [bind]; [|discriminate]).
    all: intros H; injection H as <-; reflexivity.
Qed.

End SceneObjects.

(** X15 at the table: the record without bounding box is dropped, the mug
    and the scissors are returned. *)
Lemma X15_witness :
  SceneAnalyst.analyze_scene (tools := table_tools) (pydantic := strict_pydantic) "scene.jpg"
  = Return (SceneAnalysisResult.new "scene.jpg"
              (flat_map (parsed_object (pydantic := strict_pydantic))
                 [mug_data; broken_data; scissors_data])
              "2025-01-01T00:00:00")
  /\ flat_map (parsed_object (pydantic := strict_pydantic))
       [mug_data; broken_data; scissors_data]
     = [mug; scissors].
Proof.
  split; [|vm_compute; reflexivity].
  apply (@X15_analyze_scene_returns_the_records_that_parse table_tools strict_pydantic
           "scene.jpg" tt [("is_good_quality", JBool true)]
           [("objects", JArr [mug_data; broken_data; scissors_data]);
            ("total_objects", JInt 3); ("success", JBool true)]
           [mug_data; broken_data; scissors_data]);
    try reflexivity.
  exists (JBool true). split; reflexivity.
Defined.

(** ** The interaction strategist *)

Lemma ObjectCategory_eqb_eq (a b : ObjectCategory) : ObjectCategory_eqb a b = true <-> a = b.
Proof.
  split.
  - destruct a; destruct b; intros H; first [reflexivity | discriminate H].
  - intros ->. destruct b; reflexivity.
Qed.

(** [max(objects, key=confidence)] is an object of the list with the largest
    confidence. *)
Lemma max_by_confidence_spec (best : DetectedObject.t) (rest : list DetectedObject.t) :
  In (InteractionStrategist.max_by_confidence best rest) (best :: rest)
  /\ forall obj : DetectedObject.t,
       In obj (best :: rest) ->
       (DetectedObject.confidence obj
        <= DetectedObject.confidence (InteractionStrategist.max_by_confidence best rest))%Q.
Proof.
  revert best. induction rest as [|next rest IH]; intros best; cbn [InteractionStrategist.max_by_confidence].
  - split; [left; reflexivity|]. intros obj [<- | []]. apply Qle_refl.
  - destruct (Qlt_le_dec (DetectedObject.confidence best) (DetectedObject.confidence next))
      as [Hlt | Hle].
    + destruct (IH next) as [Hin Hmax]. split.
      * right. exact Hin.
      * intros obj [<- | Hobj].
        -- apply Qle_trans with (DetectedObject.confidence next).
           ++ apply Qlt_le_weak; exact Hlt.
           ++ apply Hmax. left; reflexivity.
        -- apply Hmax. exact Hobj.
    + destruct (IH best) as [Hin Hmax]. split.
      * destruct Hin as [<- | Hin]; [left; reflexivity | right; right; exact Hin].
      * intros obj [<- | [<- | Hobj]].
        -- apply Hmax. left; reflexivity.
        -- apply Qle_trans with (DetectedObject.confidence best); [exact Hle|].
           apply Hmax. left; reflexivity.
        -- apply Hmax. right; exact Hobj.
Qed.

(** The object found for a list of categories belongs to the scene and to
    one of the categories. *)
Lemma first_of_categories_some (categories : list ObjectCategory)
    (objects : list DetectedObject.t) (obj : DetectedObject.t) :
  InteractionStrategist.first_of_categories categories objects = Some obj ->
  In obj objects /\ In (DetectedObject.category obj) categories.
Proof.
  induction categories as [|category rest IH]; cbn; [discriminate|].
  destruct (find (fun o => ObjectCategory_eqb (DetectedObject.category o) category) objects)
    as [found|] eqn:Hfind.
  - intros H. injection H as <-. apply find_some in Hfind. destruct Hfind as [Hin Heq].
    apply ObjectCategory_eqb_eq in Heq. split; [exact Hin | left; symmetry; exact Heq].
  - intros H. destruct (IH H) as [Hin Hcat]. split; [exact Hin | right; exact Hcat].
Qed.

(** No object is found only when no object belongs to any of the
    categories. *)
Lemma first_of_categories_none (categories : list ObjectCategory)
    (objects : list DetectedObject.t) :
  InteractionStrategist.first_of_categories categories objects = None ->
  forall obj : DetectedObject.t,
    In obj objects -> ~ In (DetectedObject.category obj) categories.
Proof.
  induction categories as [|category rest IH]; cbn; [intros _ obj _ []|].
  destruct (find (fun o => ObjectCategory_eqb (DetectedObject.category o) category) objects)
    as [found|] eqn:Hfind; [discriminate|].
  intros H obj Hin [Heq | Hrest].
  - pose proof (find_none _ _ Hfind obj Hin) as Hno. cbn in Hno.
    rewrite <- Heq in Hno.
    assert (Hyes : ObjectCategory_eqb category category = true)
      by (apply ObjectCategory_eqb_eq; reflexivity).
    congruence.
  - exact (IH H obj Hin Hrest).
Qed.

(** X17.  [_select_target_object] finds no object exactly when the scene is
    empty, and the object it selects is always one of the scene. *)
Theorem X17_a_target_is_selected_unless_the_scene_is_empty
    (user_intent : UserIntent.t) (scene_result : SceneAnalysisResult.t) :
  (InteractionStrategist._select_target_object user_intent scene_result = None
   <-> SceneAnalysisResult.objects scene_result = [])
  /\ forall obj : DetectedObject.t,
       InteractionStrategist._select_target_object user_intent scene_result = Some obj ->
       In obj (SceneAnalysisResult.objects scene_result).
Proof.
  unfold InteractionStrategist._select_target_object.
  set (objects := SceneAnalysisResult.objects scene_result).
  set (by_id := match UserIntent.target_object_id user_intent with
                | Some id =>
                    if String.eqb id EmptyString then None
                    else find (fun obj => String.eqb (DetectedObject.object_id obj) id) objects
                | None => None
                end).
  assert (Hid : forall obj, by_id = Some obj -> In obj objects).
  { unfold by_id. intros obj.
    destruct (UserIntent.target_object_id user_intent) as [id|]; [|discriminate].
    destruct (String.eqb id EmptyString); [discriminate|].
    intros H. apply find_some in H. exact (proj1 H). }
  destruct by_id as [found|].
  - split.
    + split; [discriminate|]. intros Hempty. specialize (Hid found eq_refl).
      rewrite Hempty in Hid. destruct Hid.
    + intros obj H. injection H as <-. apply Hid. reflexivity.
  - destruct (InteractionStrategist.first_of_categories
                (InteractionStrategist.intent_to_category (UserIntent.intent_type user_intent))
                objects) as [found|] eqn:Hcat.
    + apply first_of_categories_some in Hcat. destruct Hcat as [Hin _]. split.
      * split; [discriminate|]. intros Hempty. rewrite Hempty in Hin. destruct Hin.
      * intros obj H. injection H as <-. exact Hin.
    + destruct objects as [|first others].
      * split; [split; reflexivity | discriminate].
      * split; [split; discriminate|].
        intros obj H. injection H as <-.
        exact (proj1 (max_by_confidence_spec first others)).
Qed.

(** X18.  When the intent names the identifier of an object of the scene,
    the object selected has that identifier, whatever the intent type, the
    categories and the confidences. *)
Theorem X18_a_named_object_is_selected
    (user_intent : UserIntent.t) (scene_result : SceneAnalysisResult.t)
    (id : string) (named : DetectedObject.t) :
  UserIntent.target_object_id user_intent = Some id ->
  id <> EmptyString ->
  In named (SceneAnalysisResult.objects scene_result) ->
  DetectedObject.object_id named = id ->
  exists obj : DetectedObject.t,
    InteractionStrategist._select_target_object user_intent scene_result = Some obj
    /\ DetectedObject.object_id obj = id.
Proof.
  intros Hid Hne Hin Hnamed. unfold InteractionStrategist._select_target_object.
  rewrite Hid. apply String.eqb_neq in Hne. rewrite Hne.
  destruct (find (fun obj => String.eqb (DetectedObject.object_id obj) id)
              (SceneAnalysisResult.objects scene_result)) as [found|] eqn:Hfind.
  - exists found. split; [reflexivity|].
    apply find_some in Hfind. apply String.eqb_eq. exact (proj2 Hfind).
  - pose proof (find_none _ _ Hfind named Hin) as Hno. cbn in Hno.
    rewrite Hnamed, String.eqb_refl in Hno. discriminate.
Qed.

(** X19.  When the intent names no object, the object selected either
    belongs to one of the categories of the intent type, or no object of the
    scene belongs to any of them and the object selected has the largest
    confidence of the scene. *)
Theorem X19_the_target_matches_the_intent_or_is_the_most_confident
    (user_intent : UserIntent.t) (scene_result : SceneAnalysisResult.t)
    (target : DetectedObject.t) :
  UserIntent.target_object_id user_intent = None ->
  InteractionStrategist._select_target_object user_intent scene_result = Some target ->
  let categories :=
    InteractionStrategist.intent_to_category (UserIntent.intent_type user_intent) in
  In (DetectedObject.category target) categories
  \/ ((forall obj : DetectedObject.t,
         In obj (SceneAnalysisResult.objects scene_result) ->
         ~ In (DetectedObject.category obj) categories)
      /\ forall obj : DetectedObject.t,
           In obj (SceneAnalysisResult.objects scene_result) ->
           (DetectedObject.confidence obj <= DetectedObject.confidence target)%Q).
Proof.
  intros Hid. unfold InteractionStrategist._select_target_object. rewrite Hid.
  destruct (InteractionStrategist.first_of_categories
              (InteractionStrategist.intent_to_category (UserIntent.intent_type user_intent))
              (SceneAnalysisResult.objects scene_result)) as [found|] eqn:Hcat.
  - intros H. injection H as <-. left. exact (proj2 (first_of_categories_some _ _ Hcat)).
  - destruct (SceneAnalysisResult.objects scene_result) as [|first others] eqn:Hobjs;
      [discriminate|].
    intros H. injection H as <-. right. split.
    + exact (first_of_categories_none _ _ Hcat).
    + exact (proj2 (max_by_confidence_spec first others)).
Qed.

Section Intent.
Context {lm : LanguageModel} {jm : JsonModule} {pyd : Pydantic} {bi : Builtins}.

Lemma analyze_user_intent_default (instruction : string)
    (scene_result : SceneAnalysisResult.t) :
  InteractionStrategist.analyze_user_intent instruction scene_result
  = InteractionStrategist.fallback_intent instruction "未知意图".
Proof.
  unfold InteractionStrategist.analyze_user_intent.
  destruct (analyze_image "" (InteractionStrategist._build_intent_analysis_prompt
                                instruction scene_result) "json"); reflexivity.
Qed.

(** X20.  [analyze_user_intent] returns the default intent for every
    instruction, every scene and every answer of the language model: the
    intent type is [未知意图] and no object is named.  (The log line after
    the parsing subscripts the parsed [UserIntent], which raises, and the
    handler answers with the default.) *)
Theorem X20_the_analysed_intent_is_always_the_default
    (instruction : string) (scene_result : SceneAnalysisResult.t) :
  InteractionStrategist.analyze_user_intent instruction scene_result
  = {| UserIntent.raw_instruction := instruction;
       UserIntent.intent_type := "未知意图";
       UserIntent.target_object_id := None;
       UserIntent.priority_level := 1;
       UserIntent.safety_requirements := ["确保操作安全"] |}.
Proof. exact (analyze_user_intent_default instruction scene_result). Qed.

(** The part selected for an object is safe and of first priority. *)
Lemma select_functional_part_safe (target_object : DetectedObject.t)
    (user_intent : UserIntent.t) :
  exists target_part : FunctionalPart.t,
    InteractionStrategist._select_functional_part target_object user_intent
    = Some target_part
    /\ (5 # 10 < FunctionalPart.safety_score target_part)%Q
    /\ FunctionalPart.grasp_priority target_part = 1
    /\ FunctionalPart.part_name target_part <> "刀刃".
Proof.
  unfold InteractionStrategist._select_functional_part.
  destruct (DetectedObject.category target_object);
    (eexists; split; [vm_compute; reflexivity|];
     split; [reflexivity|]; split; [reflexivity | discriminate]).
Qed.

(** X21.  [_select_functional_part] selects a part for every object and
    every intent; the part has a safety score above 0.5 and the first grasp
    priority, and it is never the blade of a knife or of scissors. *)
Theorem X21_the_selected_part_is_safe
    (target_object : DetectedObject.t) (user_intent : UserIntent.t) :
  exists target_part : FunctionalPart.t,
    InteractionStrategist._select_functional_part target_object user_intent
    = Some target_part
    /\ (5 # 10 < FunctionalPart.safety_score target_part)%Q
    /\ FunctionalPart.grasp_priority target_part = 1
    /\ FunctionalPart.part_name target_part <> "刀刃".
Proof. exact (select_functional_part_safe target_object user_intent). Qed.

(** X22.  With the strategist of the repository the instruction does not
    influence the strategy's target: for every instruction and every scene
    that holds an object, the strategy made from the analysed intent targets
    the first object of largest confidence, with a safe part. *)
Theorem X22_the_strategy_targets_the_most_confident_object
    (instruction : string) (scene_result : SceneAnalysisResult.t)
    (first : DetectedObject.t) (others : list DetectedObject.t) :
  SceneAnalysisResult.objects scene_result = first :: others ->
  exists strategy : InteractionStrategy.t,
    InteractionStrategist.create_interaction_strategy
      (InteractionStrategist.analyze_user_intent instruction scene_result) scene_result
    = Some strategy
    /\ InteractionStrategy.target_object strategy
       = InteractionStrategist.max_by_confidence first others
    /\ (forall obj : DetectedObject.t,
          In obj (SceneAnalysisResult.objects scene_result) ->
          (DetectedObject.confidence obj
           <= DetectedObject.confidence (InteractionStrategy.target_object strategy))%Q)
    /\ (5 # 10 < FunctionalPart.safety_score (InteractionStrategy.target_part strategy))%Q.
Proof.
  intros Hobjs. rewrite analyze_user_intent_default.
  unfold InteractionStrategist.create_interaction_strategy,
    InteractionStrategist._select_target_object.
  cbn [InteractionStrategist.fallback_intent UserIntent.target_object_id
       UserIntent.intent_type].
  change (InteractionStrategist.intent_to_category "未知意图") with (@nil ObjectCategory).
  cbn [InteractionStrategist.first_of_categories]. rewrite Hobjs.
  destruct (select_functional_part_safe
              (InteractionStrategist.max_by_confidence first others)
              (InteractionStrategist.fallback_intent instruction "未知意图"))
    as (target_part & Hpart & Hsafe & _).
  rewrite Hpart. eexists. split; [reflexivity|].
  cbn [InteractionStrategy.target_object InteractionStrategy.target_part].
  split; [reflexivity|]. split; [|exact Hsafe].
  exact (proj2 (max_by_confidence_spec first others)).
Qed.

End Intent.

(** X18 at the table and an intent that names the mug. *)
Lemma X18_witness :
  exists obj : DetectedObject.t,
    InteractionStrategist._select_target_object naming_intent table_scene = Some obj
    /\ DetectedObject.object_id obj = "obj_1".
Proof.
  apply (@X18_a_named_object_is_selected naming_intent table_scene "obj_1" mug);
    first [reflexivity | discriminate | left; reflexivity].
Defined.

(** X19 at the table and the intent of drinking: the mug is selected,
    although the scissors have the larger confidence. *)
Lemma X19_witness :
  InteractionStrategist._select_target_object drinking_intent table_scene = Some mug
  /\ (In (DetectedObject.category mug) (InteractionStrategist.intent_to_category "饮水")
      \/ ((forall obj : DetectedObject.t,
             In obj (SceneAnalysisResult.objects table_scene) ->
             ~ In (DetectedObject.category obj)
                 (InteractionStrategist.intent_to_category "饮水"))
          /\ forall obj : DetectedObject.t,
               In obj (SceneAnalysisResult.objects table_scene) ->
               (DetectedObject.confidence obj <= DetectedObject.confidence mug)%Q)).
Proof.
  split; [reflexivity|].
  apply (@X19_the_target_matches_the_intent_or_is_the_most_confident
           drinking_intent table_scene mug); reflexivity.
Defined.

(** X22 at the table: for the instruction [我想喝水] the strategy of the
    repository targets the scissors, the object of largest confidence. *)
Lemma X22_witness :
  exists strategy : InteractionStrategy.t,
    InteractionStrategist.create_interaction_strategy (builtins := reference_builtins)
      (InteractionStrategist.analyze_user_intent
         (model := offline_model) (json_module := reference_json)
         (pydantic := strict_pydantic) "我想喝水" table_scene)
      table_scene
    = Some strategy
    /\ InteractionStrategy.target_object strategy
       = InteractionStrategist.max_by_confidence mug [scissors]
    /\ (forall obj : DetectedObject.t,
          In obj (SceneAnalysisResult.objects table_scene) ->
          (DetectedObject.confidence obj
           <= DetectedObject.confidence (InteractionStrategy.target_object strategy))%Q)
    /\ (5 # 10 < FunctionalPart.safety_score (InteractionStrategy.target_part strategy))%Q.
Proof.
  apply (@X22_the_strategy_targets_the_most_confident_object offline_model reference_json
           strict_pydantic reference_builtins "我想喝水" table_scene mug [scissors]).
  reflexivity.
Defined.

(** The strategy made at the table. *)
Example table_strategy_example :
  InteractionStrategist.create_interaction_strategy (builtins := reference_builtins)
    (InteractionStrategist.analyze_user_intent
       (model := offline_model) (json_module := reference_json)
       (pydantic := strict_pydantic) "我想喝水" table_scene)
    table_scene
  = Some scissors_strategy.
Proof. vm_compute. reflexivity. Qed.

(** ** The precision segmenter *)

Section SegmentTargetPart.
Context {fs : FileSystem} {st : SegmenterTools} {pyd : Pydantic}.

(** The result built by the [except] clause of [segment_target_part]. *)
Lemma segment_target_part_cases (image_path : string) (strategy : InteractionStrategy.t)
    (processing_time : Q) :
  (exists e : exn,
     PrecisionSegmenter.segment_target_part image_path strategy processing_time
     = {| SegmentationResult.image_path := image_path;
          SegmentationResult.mask := PrecisionSegmenter.empty_mask strategy 1;
          SegmentationResult.strategy_used := strategy;
          SegmentationResult.processing_time := processing_time;
          SegmentationResult.success := false;
          SegmentationResult.error_message := Some (str_exn e);
          SegmentationResult.output_mask_path := None |})
  \/ (exists (segmentation_data : json),
        PrecisionSegmenter.segment_target_part image_path strategy processing_time
        = let mask := PrecisionSegmenter._parse_segmentation_mask segmentation_data strategy in
          {| SegmentationResult.image_path := image_path;
             SegmentationResult.mask := mask;
             SegmentationResult.strategy_used := strategy;
             SegmentationResult.processing_time := processing_time;
             SegmentationResult.success := true;
             SegmentationResult.error_message := None;
             SegmentationResult.output_mask_path := _save_segmentation_mask image_path mask |}).
Proof.
  unfold PrecisionSegmenter.segment_target_part.
  destruct (negb (PrecisionSegmenter._validate_inputs image_path strategy)).
  { left. eexists. reflexivity. }
  destruct (py_get (PrecisionSegmenter._perform_segmentation image_path strategy)
              "success" (JBool false)) as [ok|e]; cbn [bind].
  2:{ left. eexists. reflexivity. }
  destruct (negb (truthy ok)).
  - destruct (py_get (PrecisionSegmenter._perform_segmentation image_path strategy)
                "error" (JStr "分割失败")) as [msg|e]; cbn [bind];
      left; eexists; reflexivity.
  - right. eexists. reflexivity.
Qed.

Lemma parse_segmentation_mask_ids (segmentation_data : json)
    (strategy : InteractionStrategy.t) :
  SegmentationMask.target_object_id
    (PrecisionSegmenter._parse_segmentation_mask segmentation_data strategy)
  = DetectedObject.object_id (InteractionStrategy.target_object strategy)
  /\ SegmentationMask.target_part_name
       (PrecisionSegmenter._parse_segmentation_mask segmentation_data strategy)
     = FunctionalPart.part_name (InteractionStrategy.target_part strategy).
Proof.
  unfold PrecisionSegmenter._parse_segmentation_mask.
  destruct (py_get segmentation_data "mask" (JObj [])) as [mask_info|]; cbn [bind];
    [|split; reflexivity].
  destruct (py_get mask_info "mask_array" (JArr [])) as [v1|]; cbn [bind];
    [|split; reflexivity].
  destruct (py_get mask_info "width" (JInt 0)) as [v2|]; cbn [bind]; [|split; reflexivity].
  destruct (py_get mask_info "height" (JInt 0)) as [v3|]; cbn [bind]; [|split; reflexivity].
  destruct (py_get mask_info "mask_confidence" (JNum 1)) as [v4|]; cbn [bind];
    [|split; reflexivity].
  destruct (validate_int_matrix v1); cbn [bind]; [|split; reflexivity].
  destruct (validate_int v2); cbn [bind]; [|split; reflexivity].
  destruct (validate_int v3); cbn [bind]; [|split; reflexivity].
  destruct (validate_float v4); cbn [bind]; split; reflexivity.
Qed.

(** X23.  Whatever happens, [segment_target_part] answers with a result for
    the image and the strategy it was given, whose mask is labelled with the
    strategy's object and part; the result carries an error message exactly
    when it is not a success, and a failure holds the empty mask and no
    output path. *)
Theorem X23_the_segmentation_result_describes_its_request
    (image_path : string) (strategy : InteractionStrategy.t) (processing_time : Q) :
  let result := PrecisionSegmenter.segment_target_part image_path strategy processing_time in
  SegmentationResult.image_path result = image_path
  /\ SegmentationResult.strategy_used result = strategy
  /\ SegmentationMask.target_object_id (SegmentationResult.mask result)
     = DetectedObject.object_id (InteractionStrategy.target_object strategy)
  /\ SegmentationMask.target_part_name (SegmentationResult.mask result)
     = FunctionalPart.part_name (InteractionStrategy.target_part strategy)
  /\ (SegmentationResult.success result = true
      <-> SegmentationResult.error_message result = None)
  /\ (SegmentationResult.success result = false ->
      SegmentationResult.mask result = PrecisionSegmenter.empty_mask strategy 1
      /\ SegmentationResult.output_mask_path result = None).
Proof.
  destruct (segment_target_part_cases image_path strategy processing_time)
    as [[e ->] | [segmentation_data ->]]; cbn.
  - repeat split; try reflexivity; discriminate.
  - destruct (parse_segmentation_mask_ids segmentation_data strategy) as [H1 H2].
    repeat split; try assumption; try reflexivity; discriminate.
Qed.

(** X24.  A failure of [segment_target_part] carries the text of its cause:
    [输入验证失败] when the image does not exist or the part has no name, the
    text of the exception when the vision tool raises, and the [error] entry
    of the tool's answer (or [分割失败] without one) when the answer has no
    true [success] entry. *)
Theorem X24_a_failed_segmentation_names_its_cause
    (image_path : string) (strategy : InteractionStrategy.t) (processing_time : Q) :
  let result := PrecisionSegmenter.segment_target_part image_path strategy processing_time in
  let failed_with (text : string) :=
    SegmentationResult.success result = false
    /\ SegmentationResult.error_message result = Some text in
  (PrecisionSegmenter._validate_inputs image_path strategy = false ->
   failed_with "输入验证失败")
  /\ (PrecisionSegmenter._validate_inputs image_path strategy = true ->
      forall e : exn,
        vision_tool_segment_part image_path
          (DetectedObject.label (InteractionStrategy.target_object strategy))
          (FunctionalPart.part_name (InteractionStrategy.target_part strategy))
        = Raise e ->
        failed_with (str_exn e))
  /\ (PrecisionSegmenter._validate_inputs image_path strategy = true ->
      forall answer : dict,
        vision_tool_segment_part image_path
          (DetectedObject.label (InteractionStrategy.target_object strategy))
          (FunctionalPart.part_name (InteractionStrategy.target_part strategy))
        = Return (JObj answer) ->
        truthy (match dict_get answer "success" with Some v => v | None => JBool false end)
        = false ->
        failed_with (match dict_get answer "error" with
                     | Some error_msg => py_str error_msg
                     | None => "分割失败"
                     end)).
Proof.
  cbv zeta. unfold PrecisionSegmenter.segment_target_part. split; [|split].
  - intros Hvalid. rewrite Hvalid. split; reflexivity.
  - intros Hvalid e Htool. rewrite Hvalid.
    unfold PrecisionSegmenter._perform_segmentation. rewrite Htool.
    split; reflexivity.
  - intros Hvalid answer Htool Hfail. rewrite Hvalid.
    unfold PrecisionSegmenter._perform_segmentation. rewrite Htool.
    cbn [negb py_get bind]. rewrite Hfail. cbn [negb bind].
    destruct (dict_get answer "error"); split; reflexivity.
Qed.

(** What pydantic accepts without change: an [int] for an [int] field and a
    number for a [float] field. *)
Hypothesis int_is_valid : forall z : Z, validate_int (JInt z) = Return z.
Hypothesis float_is_valid : forall q : Q, validate_float (JNum q) = Return q.

Lemma traverse_JInt (row : list Z) : traverse validate_int (map JInt row) = Return row.
Proof.
  induction row as [|z row IH]; cbn; [reflexivity|].
  rewrite int_is_valid. cbn [bind]. rewrite IH. reflexivity.
Qed.

Lemma validate_mask_array (rows : list (list Z)) :
  validate_int_matrix (JArr (map (fun row => JArr (map JInt row)) rows)) = Return rows.
Proof.
  unfold validate_int_matrix.
  induction rows as [|row rows IH]; cbn; [reflexivity|].
  rewrite traverse_JInt. cbn [bind]. rewrite IH. reflexivity.
Qed.

(** X25.  When the inputs are valid and the vision tool answers with a true
    [success] entry, the result is a success whatever the answer holds as
    its mask: the dict of a mask is read back with its array, size and
    confidence (and labelled with the strategy's object and part), an answer
    without [mask] gives the empty mask of confidence 1.0, and a [mask] that
    is not a dict gives the empty mask of confidence 0.0. *)
Theorem X25_a_reported_success_is_a_success_whatever_the_mask
    (image_path : string) (strategy : InteractionStrategy.t) (processing_time : Q)
    (answer : dict) :
  PrecisionSegmenter._validate_inputs image_path strategy = true ->
  vision_tool_segment_part image_path
    (DetectedObject.label (InteractionStrategy.target_object strategy))
    (FunctionalPart.part_name (InteractionStrategy.target_part strategy))
  = Return (JObj answer) ->
  truthy (match dict_get answer "success" with Some v => v | None => JBool false end) = true ->
  let result := PrecisionSegmenter.segment_target_part image_path strategy processing_time in
  SegmentationResult.success result = true
  /\ SegmentationResult.error_message result = None
  /\ SegmentationResult.output_mask_path result
     = _save_segmentation_mask image_path (SegmentationResult.mask result)
  /\ (forall mask : SegmentationMask.t,
        dict_get answer "mask" = Some (mask_dict mask) ->
        SegmentationResult.mask result
        = {| SegmentationMask.mask_array := SegmentationMask.mask_array mask;
             SegmentationMask.width := SegmentationMask.width mask;
             SegmentationMask.height := SegmentationMask.height mask;
             SegmentationMask.target_object_id :=
               DetectedObject.object_id (InteractionStrategy.target_object strategy);
             SegmentationMask.target_part_name :=
               FunctionalPart.part_name (InteractionStrategy.target_part strategy);
             SegmentationMask.mask_confidence := SegmentationMask.mask_confidence mask |})
  /\ (dict_get answer "mask" = None ->
      SegmentationResult.mask result = PrecisionSegmenter.empty_mask strategy 1)
  /\ (forall v : json,
        dict_get answer "mask" = Some v ->
        (forall d : dict, v <> JObj d) ->
        SegmentationResult.mask result = PrecisionSegmenter.empty_mask strategy 0).
Proof.
  intros Hvalid Htool Hok. cbv zeta.
  unfold PrecisionSegmenter.segment_target_part. rewrite Hvalid.
  unfold PrecisionSegmenter._perform_segmentation. rewrite Htool.
  cbn [negb py_get bind]. rewrite Hok. cbn [negb].
  cbn [SegmentationResult.success SegmentationResult.error_message
       SegmentationResult.output_mask_path SegmentationResult.mask].
  split; [reflexivity|]. split; [reflexivity|]. split; [reflexivity|].
  unfold PrecisionSegmenter._parse_segmentation_mask. cbn [py_get bind].
  split; [|split].
  - intros mask Hmask. rewrite Hmask. unfold mask_dict. cbn [py_get bind dict_get].
    cbn [String.eqb Ascii.eqb Bool.eqb].
    rewrite validate_mask_array. cbn [bind].
    rewrite !int_is_valid. cbn [bind]. rewrite float_is_valid. reflexivity.
  - intros Hnone. rewrite Hnone. cbn [py_get bind dict_get].
    change (validate_int_matrix (JArr [])) with (Return (@nil (list Z))).
    cbn [bind]. rewrite !int_is_valid. cbn [bind].
    change (JNum 1) with (JNum 1%Q). rewrite float_is_valid. reflexivity.
  - intros v Hv Hnot. rewrite Hv.
    destruct v as [| | | | |d]; try reflexivity.
    exfalso. exact (Hnot d eq_refl).
Qed.

End SegmentTargetPart.

Lemma strict_int_is_valid (z : Z) :
  validate_int (Pydantic := strict_pydantic) (JInt z) = Return z.
Proof.
  unfold validate_int, strict_pydantic, JInt, is_integral. rewrite Qfloor_Z.
  assert (H : Qeq_bool (inject_Z z) (inject_Z z) = true) by (apply Qeq_bool_iff; reflexivity).
  rewrite H. reflexivity.
Qed.

Lemma strict_float_is_valid (q : Q) :
  validate_float (Pydantic := strict_pydantic) (JNum q) = Return q.
Proof. reflexivity. Qed.

(** X25 at the strategy of the table and a tool that answers with a mask. *)
Lemma X25_witness :
  let result := table_segmentation masking_tools in
  PrecisionSegmenter._validate_inputs (files := accepting_files) "scene.jpg" scissors_strategy
  = true
  /\ SegmentationResult.success result = true
  /\ SegmentationResult.error_message result = None
  /\ SegmentationResult.output_mask_path result
     = _save_segmentation_mask (SegmenterTools := masking_tools) "scene.jpg"
         (SegmentationResult.mask result)
  /\ (forall mask : SegmentationMask.t,
        dict_get mask_answer "mask" = Some (mask_dict mask) ->
        SegmentationResult.mask result
        = {| SegmentationMask.mask_array := SegmentationMask.mask_array mask;
             SegmentationMask.width := SegmentationMask.width mask;
             SegmentationMask.height := SegmentationMask.height mask;
             SegmentationMask.target_object_id :=
               DetectedObject.object_id (InteractionStrategy.target_object scissors_strategy);
             SegmentationMask.target_part_name :=
               FunctionalPart.part_name (InteractionStrategy.target_part scissors_strategy);
             SegmentationMask.mask_confidence := SegmentationMask.mask_confidence mask |})
  /\ (dict_get mask_answer "mask" = None ->
      SegmentationResult.mask result = PrecisionSegmenter.empty_mask scissors_strategy 1)
  /\ (forall v : json,
        dict_get mask_answer "mask" = Some v ->
        (forall d : dict, v <> JObj d) ->
        SegmentationResult.mask result = PrecisionSegmenter.empty_mask scissors_strategy 0).
Proof.
  split; [reflexivity|].
  apply (@X25_a_reported_success_is_a_success_whatever_the_mask accepting_files masking_tools
           strict_pydantic strict_int_is_valid strict_float_is_valid
           "scene.jpg" scissors_strategy 0 mask_answer); reflexivity.
Defined.

(** The mask read back from the answer of the tool: the array, the size and
    the confidence of the tool's mask under the identifiers of the
    strategy. *)
Example mask_round_trip_example :
  SegmentationResult.mask (table_segmentation masking_tools)
  = {| SegmentationMask.mask_array := [[0; 1; 1]; [0; 0; 1]];
       SegmentationMask.width := 3;
       SegmentationMask.height := 2;
       SegmentationMask.target_object_id := "obj_3";
       SegmentationMask.target_part_name := "握柄";
       SegmentationMask.mask_confidence := 9 # 10 |}.
Proof. vm_compute. reflexivity. Qed.

(** ** The runs of the pipeline *)

Section Runs.
Context {agents : Agents} {fs : FileSystem}.

Import pipeline.

(** X26.  In every run the stages complete in order: the completed stages
    are an initial part of the three stage names, the body returns exactly
    when all three have completed, a run that returns has recorded no error
    and a run that fails at most one, the strategist is called only after
    the scene analysis has completed and the segmenter only after the
    strategy planning has. *)
Theorem X26_the_stages_complete_in_order (image_path user_instruction : string) :
  let run := process_body image_path user_instruction initial_run in
  let state := tracker (snd run) in
  (exists n : nat, ProcessingPipeline.completed_stages state = firstn n stage_names)
  /\ (is_return (fst run) = true <-> ProcessingPipeline.completed_stages state = stage_names)
  /\ (is_return (fst run) = true -> ProcessingPipeline.errors state = [])
  /\ (List.length (ProcessingPipeline.errors state) <= 1)%nat
  /\ (existsb is_strategy_call (calls (snd run)) = true ->
      In "场景分析" (ProcessingPipeline.completed_stages state))
  /\ (existsb is_segmentation_call (calls (snd run)) = true ->
      In "策略规划" (ProcessingPipeline.completed_stages state)).
Proof.
  cbv zeta. unfold process_body.
  destruct (_validate_inputs image_path user_instruction); cbn [negb].
  2:{ cbn. repeat split; try discriminate; try lia. exists 0%nat. reflexivity. }
  unfold _stage_scene_analysis.
  destruct (agent_analyze_scene image_path) as [scene|e1].
  2:{ cbn. repeat split; try discriminate; try lia. exists 0%nat. reflexivity. }
  unfold _stage_strategy_planning.
  destruct (agent_analyze_user_intent user_instruction scene) as [intent|e2].
  2:{ cbn. repeat split; try discriminate; try lia; try (intros _; left; reflexivity).
      exists 1%nat. reflexivity. }
  destruct (agent_create_interaction_strategy intent scene) as [[strategy|]|e3].
  2:{ cbn. repeat split; try discriminate; try lia; try (intros _; left; reflexivity).
      exists 1%nat. reflexivity. }
  2:{ cbn. repeat split; try discriminate; try lia; try (intros _; left; reflexivity).
      exists 1%nat. reflexivity. }
  unfold _stage_precision_segmentation.
  destruct (agent_segment_target_part image_path strategy) as [seg|e4].
  2:{ cbn. repeat split; try discriminate; try lia;
        try (intros _; left; reflexivity); try (intros _; right; left; reflexivity).
      exists 2%nat. reflexivity. }
  destruct (SegmentationResult.success seg); cbn [negb].
  - cbn. repeat split; try discriminate; try lia;
      try (intros _; left; reflexivity); try (intros _; right; left; reflexivity).
    exists 3%nat. reflexivity.
  - cbn. repeat split; try discriminate; try lia;
      try (intros _; left; reflexivity); try (intros _; right; left; reflexivity).
    exists 2%nat. reflexivity.
Qed.

(** X27.  In a run whose agents all succeed, each stage is handed the result
    of the one before: the scene goes to both calls of the strategist, the
    intent to the making of the strategy and the strategy to the segmenter;
    the caller receives the segmenter's result, the three stages are
    completed without error, and the four results are stored under their
    keys. *)
Theorem X27_a_successful_run_hands_each_result_on
    (image_path user_instruction : string) (total_time : Q)
    (scene_result : SceneAnalysisResult.t) (user_intent : UserIntent.t)
    (strategy : InteractionStrategy.t) (segmentation_result : SegmentationResult.t) :
  _validate_inputs image_path user_instruction = true ->
  agent_analyze_scene image_path = Return scene_result ->
  agent_analyze_user_intent user_instruction scene_result = Return user_intent ->
  agent_create_interaction_strategy user_intent scene_result = Return (Some strategy) ->
  agent_segment_target_part image_path strategy = Return segmentation_result ->
  SegmentationResult.success segmentation_result = true ->
  process image_path user_instruction total_time
  = (Return segmentation_result,
     {| tracker :=
          {| ProcessingPipeline.stage := "精准分割";
             ProcessingPipeline.completed_stages := stage_names;
             ProcessingPipeline.current_data :=
               [("scene_result", SceneData scene_result);
                ("user_intent", IntentData user_intent);
                ("strategy", StrategyData strategy);
                ("segmentation_result", SegmentationData segmentation_result)];
             ProcessingPipeline.errors := [];
             ProcessingPipeline.warnings := [] |};
        calls := [CallAnalyzeScene image_path;
                  CallAnalyzeUserIntent user_instruction scene_result;
                  CallCreateInteractionStrategy user_intent scene_result;
                  CallSegmentTargetPart image_path strategy] |}).
Proof.
  intros Hvalid Hscene Hintent Hstrategy Hseg Hok.
  unfold process, process_body, _stage_scene_analysis.
  rewrite Hvalid, Hscene. cbn [negb].
  unfold _stage_strategy_planning. rewrite Hintent, Hstrategy.
  unfold _stage_precision_segmentation. rewrite Hseg, Hok. reflexivity.
Qed.

(** X28.  When the segmenter answers with a result that is not a success,
    the run fails in the third stage with the result's error message as its
    cause ([分割失败] when the message is missing or empty): the error of the
    run names the stage and that text, the first two stages stay completed,
    and the failed result is not stored. *)
Theorem X28_an_unsuccessful_segmentation_fails_the_run
    (image_path user_instruction : string)
    (scene_result : SceneAnalysisResult.t) (user_intent : UserIntent.t)
    (strategy : InteractionStrategy.t) (segmentation_result : SegmentationResult.t) :
  _validate_inputs image_path user_instruction = true ->
  agent_analyze_scene image_path = Return scene_result ->
  agent_analyze_user_intent user_instruction scene_result = Return user_intent ->
  agent_create_interaction_strategy user_intent scene_result = Return (Some strategy) ->
  agent_segment_target_part image_path strategy = Return segmentation_result ->
  SegmentationResult.success segmentation_result = false ->
  let text :=
    match SegmentationResult.error_message segmentation_result with
    | Some msg => if String.eqb msg EmptyString then "分割失败" else msg
    | None => "分割失败"
    end in
  let run := process_body image_path user_instruction initial_run in
  fst run = Raise (Exception text)
  /\ ProcessingPipeline.errors (tracker (snd run)) = ["精准分割失败: " ++ text]
  /\ ProcessingPipeline.completed_stages (tracker (snd run)) = ["场景分析"; "策略规划"]
  /\ ProcessingPipeline.current_data (tracker (snd run))
     = [("scene_result", SceneData scene_result);
        ("user_intent", IntentData user_intent);
        ("strategy", StrategyData strategy)].
Proof.
  intros Hvalid Hscene Hintent Hstrategy Hseg Hfail. cbv zeta.
  unfold process_body, _stage_scene_analysis.
  rewrite Hvalid, Hscene. cbn [negb].
  unfold _stage_strategy_planning. rewrite Hintent, Hstrategy.
  unfold _stage_precision_segmentation. rewrite Hseg, Hfail. cbn [negb].
  repeat split.
Qed.

End Runs.

(** X27 at the table, with the agents of the repository and a vision tool
    that answers with a mask. *)
Lemma X27_witness :
  let user_intent := InteractionStrategist.fallback_intent "我想喝水" "未知意图" in
  let segmentation_result := table_segmentation masking_tools in
  pipeline.process (agents := table_agents masking_tools) (files := accepting_files)
    "scene.jpg" "我想喝水" 0
  = (Return segmentation_result,
     {| pipeline.tracker :=
          {| ProcessingPipeline.stage := "精准分割";
             ProcessingPipeline.completed_stages := stage_names;
             ProcessingPipeline.current_data :=
               [("scene_result", SceneData table_scene);
                ("user_intent", IntentData user_intent);
                ("strategy", StrategyData scissors_strategy);
                ("segmentation_result", SegmentationData segmentation_result)];
             ProcessingPipeline.errors := [];
             ProcessingPipeline.warnings := [] |};
        pipeline.calls :=
          [pipeline.CallAnalyzeScene "scene.jpg";
           pipeline.CallAnalyzeUserIntent "我想喝水" table_scene;
           pipeline.CallCreateInteractionStrategy user_intent table_scene;
           pipeline.CallSegmentTargetPart "scene.jpg" scissors_strategy] |}).
Proof.
  apply (@X27_a_successful_run_hands_each_result_on (table_agents masking_tools)
           accepting_files "scene.jpg" "我想喝水" 0 table_scene
           (InteractionStrategist.fallback_intent "我想喝水" "未知意图")
           scissors_strategy (table_segmentation masking_tools));
    vm_compute; reflexivity.
Defined.

(** X28 at the table and a vision tool that cannot reach the model. *)
Lemma X28_witness :
  let run :=
    pipeline.process_body (agents := table_agents failing_tools) (files := accepting_files)
      "scene.jpg" "我想喝水" pipeline.initial_run in
  SegmentationResult.error_message (table_segmentation failing_tools)
  = Some "connection refused"
  /\ fst run = Raise (Exception "connection refused")
  /\ ProcessingPipeline.errors (pipeline.tracker (snd run))
     = ["精准分割失败: " ++ "connection refused"]
  /\ ProcessingPipeline.completed_stages (pipeline.tracker (snd run))
     = ["场景分析"; "策略规划"]
  /\ ProcessingPipeline.current_data (pipeline.tracker (snd run))
     = [("scene_result", SceneData table_scene);
        ("user_intent",
         IntentData (InteractionStrategist.fallback_intent "我想喝水" "未知意图"));
        ("strategy", StrategyData scissors_strategy)].
Proof.
  split; [reflexivity|].
  apply (@X28_an_unsuccessful_segmentation_fails_the_run (table_agents failing_tools)
           accepting_files "scene.jpg" "我想喝水" table_scene
           (InteractionStrategist.fallback_intent "我想喝水" "未知意图")
           scissors_strategy (table_segmentation failing_tools));
    vm_compute; reflexivity.
Defined.

Lemma no_R_app (a b : string) : no_R (a ++ b) = no_R a && no_R b.
Proof.
  induction a as [|c a IH]; cbn; [reflexivity|].
  rewrite IH. apply andb_assoc.
Qed.

Lemma no_R_zeros (n : nat) : no_R (zeros n) = true.
Proof. induction n as [|n IH]; [reflexivity | exact IH]. Qed.

Lemma no_R_uint (d : Decimal.uint) : no_R (NilEmpty.string_of_uint d) = true.
Proof. induction d; cbn; auto. Qed.

Lemma no_R_str_of_Z (z : Z) : no_R (str_of_Z z) = true.
Proof.
  unfold str_of_Z, NilZero.string_of_int, NilZero.string_of_uint.
  destruct (Z.to_int z) as [d|d]; destruct d; cbn; try reflexivity; apply no_R_uint.
Qed.

Lemma no_R_format_03d (n : Z) : no_R (format_03d n) = true.
Proof.
  unfold format_03d. destruct (n <? 0).
  - cbn [append no_R]. rewrite no_R_app, no_R_zeros, no_R_str_of_Z. reflexivity.
  - rewrite no_R_app, no_R_zeros, no_R_str_of_Z. reflexivity.
Qed.

Lemma remove_Run_cons (c : ascii) (rest : string) :
  Ascii.eqb c "R" = false ->
  ResultSaver.remove_Run (String c rest) = String c (ResultSaver.remove_Run rest).
Proof.
  intros H. destruct rest as [|c2 [|c3 rest']]; cbn [ResultSaver.remove_Run];
    try reflexivity.
  rewrite H. reflexivity.
Qed.

(** Removing [Run] from the name of a run directory leaves the digits. *)
Lemma remove_Run_run_name (s : string) :
  no_R s = true -> ResultSaver.remove_Run (s ++ "Run") = s.
Proof.
  induction s as [|c s IH]; intros H.
  - reflexivity.
  - cbn in H. apply andb_true_iff in H. destruct H as [Hc Hs].
    apply negb_true_iff in Hc. cbn [append].
    rewrite (remove_Run_cons _ _ Hc), (IH Hs). reflexivity.
Qed.

Lemma endswith_app (s suffix : string) : endswith (s ++ suffix) suffix = true.
Proof. unfold endswith. rewrite string_rev_app. apply prefix_app. Qed.

Section RunNumbers.
Context {ib : IntBuiltin}.

(** [int] applied to a string raises nothing but [ValueError]. *)
Hypothesis int_raises_ValueError :
  forall (s : string) (e : exn),
    int_of_str s = Raise e -> exists msg : string, e = ValueError msg.

(** The loop returns the largest of the start value and the numbers of the
    run directories. *)
Lemma largest_run_spec (entries : list (string * bool)) (max_num : Z) :
  exists largest : Z,
    ResultSaver.largest_run entries max_num = Return largest
    /\ max_num <= largest
    /\ (forall entry num, In entry entries -> run_number_of entry num -> num <= largest)
    /\ (largest = max_num
        \/ exists entry, In entry entries /\ run_number_of entry largest).
Proof.
  revert max_num. induction entries as [|[item is_dir] rest IH]; intros max_num.
  - exists max_num. cbn. split; [reflexivity|]. split; [lia|]. split; [intros ? ? []|].
    left; reflexivity.
  - cbn [ResultSaver.largest_run].
    destruct (endswith item "Run" && is_dir) eqn:Hrun.
    + apply andb_true_iff in Hrun. destruct Hrun as [Hend Hdir].
      destruct (int_of_str (ResultSaver.remove_Run item)) as [num|e] eqn:Hint.
      * destruct (IH (Z.max max_num num)) as (largest & Hres & Hge & Hall & Hex).
        exists largest. split; [exact Hres|]. split; [lia|]. split.
        -- intros entry n [<- | Hin] Hn.
           ++ destruct Hn as (_ & _ & Hn). cbn [fst] in Hn. rewrite Hint in Hn.
              injection Hn as <-. lia.
           ++ exact (Hall entry n Hin Hn).
        -- destruct Hex as [-> | (entry & Hin & Hn)].
           ++ destruct (Z.max_spec max_num num) as [[_ ->] | [_ ->]].
              ** right. exists (item, is_dir). split; [left; reflexivity|].
                 repeat split; assumption.
              ** left; reflexivity.
           ++ right. exists entry. split; [right; exact Hin | exact Hn].
      * destruct (int_raises_ValueError _ Hint) as [msg ->].
        destruct (IH max_num) as (largest & Hres & Hge & Hall & Hex).
        exists largest. split; [exact Hres|]. split; [exact Hge|]. split.
        -- intros entry n [<- | Hin] Hn.
           ++ destruct Hn as (_ & _ & Hn). cbn [fst] in Hn. rewrite Hint in Hn.
              discriminate.
           ++ exact (Hall entry n Hin Hn).
        -- destruct Hex as [-> | (entry & Hin & Hn)]; [left; reflexivity|].
           right. exists entry. split; [right; exact Hin | exact Hn].
    + destruct (IH max_num) as (largest & Hres & Hge & Hall & Hex).
      exists largest. split; [exact Hres|]. split; [exact Hge|]. split.
      * intros entry n [<- | Hin] Hn.
        -- destruct Hn as (Hend & Hdir & _). cbn [fst snd] in Hend, Hdir.
           rewrite Hend, Hdir in Hrun. discriminate.
        -- exact (Hall entry n Hin Hn).
      * destruct Hex as [-> | (entry & Hin & Hn)]; [left; reflexivity|].
        right. exists entry. split; [right; exact Hin | exact Hn].
Qed.

Lemma largest_run_app (entries more : list (string * bool)) (max_num : Z) :
  ResultSaver.largest_run (entries ++ more) max_num
  = (m <- ResultSaver.largest_run entries max_num ;; ResultSaver.largest_run more m).
Proof.
  revert max_num. induction entries as [|[item is_dir] rest IH]; intros max_num;
    cbn [app ResultSaver.largest_run].
  - reflexivity.
  - destruct (endswith item "Run" && is_dir); [|apply IH].
    destruct (int_of_str (ResultSaver.remove_Run item)) as [num|e]; [apply IH|].
    destruct e; first [apply IH | reflexivity].
Qed.

(** X29.  [get_next_run_number] answers 0 for a missing output directory,
    which it creates; for an existing one it leaves the directory as it is
    and answers a number that is not negative, is larger than the number of
    every run directory in it, and is 0 or follows the number of one of
    them. *)
Theorem X29_the_next_run_number_is_fresh (entries : list (string * bool)) :
  ResultSaver.get_next_run_number None = (Return 0, Some [])
  /\ exists next : Z,
       ResultSaver.get_next_run_number (Some entries) = (Return next, Some entries)
       /\ 0 <= next
       /\ (forall entry num, In entry entries -> run_number_of entry num -> num < next)
       /\ (next = 0
           \/ exists entry, In entry entries /\ run_number_of entry (next - 1)).
Proof.
  split; [reflexivity|].
  destruct (largest_run_spec entries (-1)) as (largest & Hres & Hge & Hall & Hex).
  exists (largest + 1). unfold ResultSaver.get_next_run_number. rewrite Hres. cbn [bind].
  split; [reflexivity|]. split; [lia|]. split.
  - intros entry num Hin Hn. pose proof (Hall entry num Hin Hn). lia.
  - destruct Hex as [-> | (entry & Hin & Hn)]; [left; reflexivity|].
    right. exists entry. split; [exact Hin|].
    replace (largest + 1 - 1) with largest by lia. exact Hn.
Qed.

(** X30.  Consecutive runs get consecutive numbers: after a call has
    answered a number, no directory of that run exists yet; unless a plain
    file has the name of the run, creating its directory returns the path
    under the output directory and adds the directory as a new entry, and
    the next call answers the following number (provided [int] reads the
    digits written by the format [03d] back as the number).  When a plain
    file has the name of the run, the creation raises and the output
    directory is left as it is. *)
Theorem X30_consecutive_runs_get_consecutive_numbers
    (output_base_dir : string) (entries : list (string * bool)) (run_number : Z) :
  ResultSaver.get_next_run_number (Some entries) = (Return run_number, Some entries) ->
  int_of_str (format_03d run_number) = Return run_number ->
  let name := ResultSaver.run_name run_number in
  let output' := Some (entries ++ [(name, true)])%list in
  ~ In (name, true) entries
  /\ (~ In (name, false) entries ->
      ResultSaver.create_run_directory output_base_dir (Some entries) run_number
      = (Return (ResultSaver.os_path_join output_base_dir name), output')
      /\ fst (ResultSaver.get_next_run_number output') = Return (run_number + 1))
  /\ (In (name, false) entries ->
      exists msg : string,
        ResultSaver.create_run_directory output_base_dir (Some entries) run_number
        = (Raise (Exception msg), Some entries)).
Proof.
  intros Hnext Hint name output'.
  destruct (largest_run_spec entries (-1)) as (largest & Hres & Hge & Hall & Hex).
  unfold ResultSaver.get_next_run_number in Hnext. rewrite Hres in Hnext. cbn [bind] in Hnext.
  injection Hnext as Hnum.
  assert (Hname : ResultSaver.remove_Run name = format_03d run_number).
  { apply remove_Run_run_name, no_R_format_03d. }
  assert (Hend : endswith name "Run" = true) by apply endswith_app.
  assert (Hfresh : ~ In (name, true) entries).
  { intros Hin.
    assert (Hn : run_number_of (name, true) run_number).
    { repeat split; [exact Hend|]. cbn [fst]. rewrite Hname. exact Hint. }
    pose proof (Hall _ _ Hin Hn). lia. }
  split; [exact Hfresh|].
  unfold ResultSaver.create_run_directory. fold name.
  destruct (find (fun entry => String.eqb (fst entry) name) entries)
    as [[found is_dir]|] eqn:Hfind.
  - apply find_some in Hfind. destruct Hfind as [Hin Heq]. cbn [fst] in Heq.
    apply String.eqb_eq in Heq. subst found.
    destruct is_dir; [contradiction|].
    split; [intros Hno; contradiction|].
    intros _. eexists. reflexivity.
  - split.
    + intros _. split; [reflexivity|].
      unfold output', ResultSaver.get_next_run_number. cbn [fst].
      rewrite largest_run_app, Hres. cbn [bind ResultSaver.largest_run].
      rewrite Hend, Hname, Hint. cbn [andb bind]. f_equal. lia.
    + intros Hin. exfalso.
      pose proof (find_none _ _ Hfind _ Hin) as Hneq. cbn [fst] in Hneq.
      rewrite String.eqb_refl in Hneq. discriminate Hneq.
Qed.

End RunNumbers.

Lemma reference_int_raises_ValueError (s : string) (e : exn) :
  int_of_str (IntBuiltin := reference_int) s = Raise e -> exists msg : string, e = ValueError msg.
Proof.
  cbn. unfold reference_int_of_str.
  destruct (match str_strip s with
            | String "-" r => ((-1)%Z, r)
            | String "+" r => (1, r)
            | _ => (1, str_strip s)
            end) as [sign digits].
  destruct (NilZero.uint_of_string digits); intros H;
    [discriminate H | injection H as <-; eexists; reflexivity].
Qed.

(** X29 at an output directory with the runs 0 and 7, a file whose name
    ends in [Run] and a directory whose name holds no number. *)
Lemma X29_witness :
  ResultSaver.get_next_run_number (int_builtin := reference_int) None = (Return 0, Some [])
  /\ exists next : Z,
       ResultSaver.get_next_run_number (int_builtin := reference_int) (Some output_entries)
       = (Return next, Some output_entries)
       /\ 0 <= next
       /\ (forall entry num,
             In entry output_entries ->
             run_number_of (int_builtin := reference_int) entry num -> num < next)
       /\ (next = 0
           \/ exists entry,
                In entry output_entries
                /\ run_number_of (int_builtin := reference_int) entry (next - 1)).
Proof.
  apply (@X29_the_next_run_number_is_fresh reference_int reference_int_raises_ValueError
           output_entries).
Defined.

(** X30 at the same directory: the run 8 is followed by the run 9. *)
Lemma X30_witness :
  ResultSaver.get_next_run_number (int_builtin := reference_int) (Some output_entries)
  = (Return 8, Some output_entries)
  /\ ~ In ("008Run", true) output_entries
  /\ (~ In ("008Run", false) output_entries ->
      ResultSaver.create_run_directory "Output" (Some output_entries) 8
      = (Return "Output/008Run", Some (output_entries ++ [("008Run", true)])%list)
      /\ fst (ResultSaver.get_next_run_number (int_builtin := reference_int)
                (Some (output_entries ++ [("008Run", true)])%list))
         = Return (8 + 1))
  /\ (In ("008Run", false) output_entries ->
      exists msg : string,
        ResultSaver.create_run_directory "Output" (Some output_entries) 8
        = (Raise (Exception msg), Some output_entries)).
Proof.
  split; [vm_compute; reflexivity|].
  apply (@X30_consecutive_runs_get_consecutive_numbers reference_int
           reference_int_raises_ValueError "Output" output_entries 8);
    vm_compute; reflexivity.
Defined.

(** A plain file with the name of the next run makes the creation of its
    directory fail. *)
Example run_directory_clash_example :
  ResultSaver.get_next_run_number (int_builtin := reference_int) (Some [("000Run", false)])
  = (Return 0, Some [("000Run", false)])
  /\ ResultSaver.create_run_directory "Output" (Some [("000Run", false)]) 0
     = (Raise (Exception "File exists: Output/000Run"), Some [("000Run", false)]).
Proof. split; vm_compute; reflexivity. Qed.
